(** * Dharmapala Shield: the tower-defense simulation core

    A shallow embedding of the game logic found in [config.js], [enemy.js]
    (classes [Enemy] and [Boss]), [defense.js], [Projectile.js], the [Game]
    class, the [Level] class, the [DefenseManager] class and the numeric
    helpers of [Utils], together with the properties the specification
    states about them and further properties the code has.

    Conventions of the embedding.

    - A JavaScript number is a rational ([Q]) and arithmetic is exact; values
      the code keeps integral ([Math.floor] results, lives, resources) are
      [Z].  Rounding of IEEE doubles, [NaN] and the infinities are not
      represented; where the code starts a maximum search from [-Infinity]
      the running maximum is an [option].
    - [Math.sqrt] and the window-dependent [CONFIG.GRID_SIZE] belong to the
      host; they are the fields of the class [Host] and every definition that
      needs them is parametrised by it.
    - [Math.random()] and [Date.now()] are inputs: a function that calls
      them takes the values the calls return as arguments.  Only the calls
      whose result reaches the simulation state are counted (the calls
      that place particles are not), and one reading of the clock serves
      a whole call.
    - Enemy objects are shared by reference (a defense and a projectile both
      point at their target), so enemies live in a store indexed by
      reference and arrays of enemies are lists of references.
    - An uncaught [TypeError] is [None].
    - Rendering, particles, trails, sounds and notifications do not feed
      back into the simulation and are left out. *)

From Stdlib Require Import ZArith QArith Qround Qminmax Lia Lqa String List.
From stdpp Require Import gmap strings list fin_maps.
Import ListNotations.
#[local] Open Scope string_scope.
#[local] Open Scope Q_scope.

(** ** JavaScript numbers *)

Module JS.

Definition lt (a b : Q) : bool := negb (Qle_bool b a).
Definition le (a b : Q) : bool := Qle_bool a b.
Definition gt (a b : Q) : bool := lt b a.
Definition ge (a b : Q) : bool := le b a.

(** [Math.floor] and [Math.ceil]. *)
Definition floor (a : Q) : Z := Qfloor a.
Definition ceil (a : Q) : Z := Qceiling a.

(** [a || d] on numbers: [0] is falsy. *)
Definition or_else (a d : Q) : Q := if Qeq_bool a 0 then d else a.

(** [o || d] where [o] may be [undefined]. *)
Definition or_undefined (o : option Q) (d : Q) : Q :=
  match o with Some a => or_else a d | None => d end.

(** [obj[k]] on an object literal, kept as the ordered list of its entries
    so that [Object.keys] has the order of the source. *)
Fixpoint prop {A : Type} (obj : list (string * A)) (k : string) : option A :=
  match obj with
  | [] => None
  | (k', v) :: rest => if String.eqb k k' then Some v else prop rest k
  end.

Definition keys {A : Type} (obj : list (string * A)) : list string := map fst obj.

End JS.

(** ** The host: [Math] and the window *)

Class Host := {
  Math_sqrt : Q -> Q;
  Math_cos : Q -> Q;
  Math_sin : Q -> Q;
  Math_PI : Q;
  (** [CONFIG.GRID_SIZE]: 40 on a wide window, 30 otherwise. *)
  GRID_SIZE : Q
}.

(** A host for closed examples: a wide window, a square root that is
    exact on squares of rationals and rounds down elsewhere, and the first
    terms of the series of cosine and sine. *)
Definition exactHost : Host :=
  {| Math_sqrt := fun a => (Z.sqrt (Qnum a * Zpos (Qden a)) # Qden a);
     Math_cos := fun a => 1 - a * a / 2 + a * a * a * a / 24;
     Math_sin := fun a => a - a * a * a / 6 + a * a * a * a * a / 120;
     Math_PI := 355 / 113;
     GRID_SIZE := 40 |}.

(** ** [config.js] *)

Record Resources := mkResources { dharma : Z; bandwidth : Z; anonymity : Z }.

Record DefenseConfig := {
  dc_cost : Resources;
  dc_damage : Q;
  dc_range : Q;
  dc_fireRate : Q;
  dc_projectileSpeed : Q;
  dc_special : string
}.

Record EnemyConfig := {
  ec_health : Q;
  ec_speed : Q;
  ec_reward : Resources;
  ec_size : Q;
  ec_special : string
}.

Record BossConfig := {
  bc_health : Q;
  bc_speed : Q;
  bc_reward : Resources;
  bc_size : Q;
  bc_phases : Z;
  bc_special : string
}.

Module CONFIG.

Definition INITIAL_DHARMA : Z := 100.
Definition INITIAL_BANDWIDTH : Z := 50.
Definition INITIAL_ANONYMITY : Z := 75.
Definition INITIAL_LIVES : Z := 20.
Definition WAVE_DELAY : Q := 5000.
Definition ENEMY_SPAWN_DELAY : Q := 1000.

Definition DEFENSE_TYPES : list (string * DefenseConfig) :=
  [ ("firewall",
     {| dc_cost := mkResources 25 0 0; dc_damage := 15; dc_range := 200;
        dc_fireRate := 1000; dc_projectileSpeed := 5; dc_special := "basic" |});
    ("encryption",
     {| dc_cost := mkResources 50 20 10; dc_damage := 25; dc_range := 180;
        dc_fireRate := 1500; dc_projectileSpeed := 4; dc_special := "encrypt" |});
    ("decoy",
     {| dc_cost := mkResources 30 15 5; dc_damage := 0; dc_range := 150;
        dc_fireRate := 0; dc_projectileSpeed := 0; dc_special := "decoy" |});
    ("mirror",
     {| dc_cost := mkResources 75 40 20; dc_damage := 40; dc_range := 250;
        dc_fireRate := 2000; dc_projectileSpeed := 8; dc_special := "reflect" |});
    ("anonymity",
     {| dc_cost := mkResources 60 30 40; dc_damage := 20; dc_range := 300;
        dc_fireRate := 1200; dc_projectileSpeed := 6; dc_special := "cloak" |});
    ("distributor",
     {| dc_cost := mkResources 100 60 30; dc_damage := 30; dc_range := 350;
        dc_fireRate := 800; dc_projectileSpeed := 7; dc_special := "boost" |}) ].

Definition ENEMY_TYPES : list (string * EnemyConfig) :=
  [ ("scriptKiddie",
     {| ec_health := 20; ec_speed := 80; ec_reward := mkResources 5 2 1;
        ec_size := 15; ec_special := "erratic" |});
    ("federalAgent",
     {| ec_health := 40; ec_speed := 60; ec_reward := mkResources 10 5 3;
        ec_size := 18; ec_special := "persistent" |});
    ("corporateSaboteur",
     {| ec_health := 35; ec_speed := 70; ec_reward := mkResources 15 8 5;
        ec_size := 16; ec_special := "stealth" |});
    ("aiSurveillance",
     {| ec_health := 60; ec_speed := 50; ec_reward := mkResources 20 12 8;
        ec_size := 20; ec_special := "adaptive" |});
    ("quantumHacker",
     {| ec_health := 80; ec_speed := 90; ec_reward := mkResources 30 20 15;
        ec_size := 22; ec_special := "teleport" |});
    ("corruptedMonk",
     {| ec_health := 100; ec_speed := 40; ec_reward := mkResources 50 30 25;
        ec_size := 25; ec_special := "corrupt" |}) ].

Definition BOSS_TYPES : list (string * BossConfig) :=
  [ ("raidTeam",
     {| bc_health := 500; bc_speed := 30; bc_reward := mkResources 100 60 40;
        bc_size := 40; bc_phases := 3; bc_special := "minions" |});
    ("megaCorpTitan",
     {| bc_health := 800; bc_speed := 20; bc_reward := mkResources 200 120 80;
        bc_size := 50; bc_phases := 4; bc_special := "shield" |}) ].

End CONFIG.

(** ** The [resources] object of [Game] *)

Inductive ResourceKey := Dharma | Bandwidth | Anonymity.

Module Res.

(** [resources[key]]. *)
Definition get (r : Resources) (k : ResourceKey) : Z :=
  match k with
  | Dharma => dharma r
  | Bandwidth => bandwidth r
  | Anonymity => anonymity r
  end.

(** [resources[key] = v]. *)
Definition set (r : Resources) (k : ResourceKey) (v : Z) : Resources :=
  match k with
  | Dharma => mkResources v (bandwidth r) (anonymity r)
  | Bandwidth => mkResources (dharma r) v (anonymity r)
  | Anonymity => mkResources (dharma r) (bandwidth r) v
  end.

(** [Object.entries(cost)]: every cost and reward in the source is an
    object literal with the three keys in this order. *)
Definition entries (c : Resources) : list (ResourceKey * Z) :=
  [ (Dharma, dharma c); (Bandwidth, bandwidth c); (Anonymity, anonymity c) ].

End Res.

Definition initialResources : Resources :=
  mkResources CONFIG.INITIAL_DHARMA CONFIG.INITIAL_BANDWIDTH CONFIG.INITIAL_ANONYMITY.

(** ** Objects *)

(** A status effect, buff or debuff: [{type, duration, startTime}]. *)
Record Effect := { eff_type : string; eff_duration : Q; eff_startTime : Z }.

(** The loop shared by [Enemy.updateStatusEffects], [Defense.updateBuffs]
    and [Defense.updateDebuffs]: every duration goes down by [deltaTime]
    and an entry whose duration is then [<= 0] is deleted. *)
Definition tickEffects (deltaTime : Q) (effects : gmap string Effect)
    : gmap string Effect :=
  omap (fun effect =>
          let duration := eff_duration effect - deltaTime in
          if JS.le duration 0 then None
          else Some {| eff_type := eff_type effect; eff_duration := duration;
                       eff_startTime := eff_startTime effect |})
       effects.

Record Point := { pt_x : Q; pt_y : Q }.

(** The fields [Boss] adds to [Enemy]. *)
Record BossExt := {
  b_phases : Z;
  b_currentPhase : Z;
  b_phaseHealthThreshold : Q;
  b_size : Q;
  b_minionSpawnTimer : Q;
  b_empBlastTimer : Q;
  b_shieldRegenTimer : Q;
  b_shieldActive : bool;
  b_shieldHealth : Q;
  b_maxShieldHealth : Q
}.

(** An [Enemy] object; a [Boss] is an enemy whose [e_boss] is present.
    [radius] and [scoreValue] are read by [Game] but assigned by no
    constructor, so they are optional and [None] stands for [undefined]. *)
Record EnemyObj := {
  e_x : Q;
  e_y : Q;
  e_type : string;
  e_health : Q;
  e_maxHealth : Q;
  e_speed : Q;
  e_baseSpeed : Q;
  e_damage : Z;
  e_reward : Resources;
  e_pathIndex : nat;
  e_progress : Q;
  e_targetX : Q;
  e_targetY : Q;
  e_reachedEnd : bool;
  e_isDead : bool;
  e_deathTime : Z;
  e_resistance : list (string * Q);
  e_specialAbilityCooldown : Q;
  e_specialAbilityActive : bool;
  e_specialAbilityDuration : Q;
  e_statusEffects : gmap string Effect;
  e_targetPriority : Q;
  e_threatLevel : Q;
  e_radius : option Q;
  e_scoreValue : option Z;
  e_boss : option BossExt
}.

(** A [Projectile]; [p_target] refers to an enemy object and
    [p_piercedTargets] is the [Set] of enemy objects already hit. *)
Record ProjectileObj := {
  p_x : Q;
  p_y : Q;
  p_target : option nat;
  p_damage : Q;
  p_speed : Q;
  p_type : string;
  p_vx : Q;
  p_vy : Q;
  p_radius : Q;
  p_isActive : bool;
  p_piercing : bool;
  p_homing : bool;
  p_splash : bool;
  p_splashRadius : Q;
  p_piercedTargets : gset nat
}.

(** A [Defense]. *)
Record DefenseObj := {
  d_x : Q;
  d_y : Q;
  d_type : string;
  d_config : DefenseConfig;
  d_level : Z;
  d_maxLevel : Z;
  d_experience : Z;
  d_experienceToNextLevel : Z;
  d_damage : Q;
  d_range : Q;
  d_fireRate : Q;
  d_lastFireTime : Z;
  d_target : option nat;
  d_specialAbilityCooldown : Q;
  d_specialAbilityActive : bool;
  d_specialAbilityDuration : Q;
  d_buffs : gmap string Effect;
  d_debuffs : gmap string Effect;
  d_isActive : bool;
  d_gridX : Z;
  d_gridY : Z;
  d_centerX : Q;
  d_centerY : Q
}.

(** One entry of a wave's [enemies] array; the swarm group of a boss wave
    has no [health] key. *)
Record EnemyGroup := {
  grp_type : string;
  grp_count : Z;
  grp_delay : Q;
  grp_health : option Q
}.

Record WaveConfig := {
  wc_wave : nat;
  wc_enemies : list EnemyGroup;
  wc_delayBetweenWaves : Q;
  wc_bossWave : bool
}.

(** The part of [Game] and of its [Level] the simulation reads and writes. *)
Record GameState := {
  g_width : Q;
  g_height : Q;
  g_resources : Resources;
  g_lives : Z;
  g_score : Z;
  g_isGameOver : bool;
  (** [game.enemies], an array of references into [g_store]. *)
  g_enemies : list nat;
  g_store : gmap nat EnemyObj;
  g_nextRef : nat;
  g_projectiles : list ProjectileObj;
  g_defenses : list DefenseObj;
  (** The fields of [game.level]. *)
  g_path : list Point;
  g_waveConfigs : list WaveConfig;
  g_currentWave : nat;
  g_waveInProgress : bool;
  g_enemiesSpawned : Z;
  g_enemiesToSpawn : Z;
  g_isVictory : bool
}.

(** Field updates.  [setter eta proj] builds [fun v r => r with proj := v]
    from the eta-expansion of the record. *)
Ltac setter eta proj :=
  let v := fresh "v" in
  let r := fresh "r" in
  intros v r;
  let body := eval cbv beta delta [eta] in (eta r) in
  match eval pattern (proj r) in body with
  | ?f _ => let t := eval cbv beta in (f v) in exact t
  end.

Definition BossExt_eta (b : BossExt) : BossExt :=
  {| b_phases := b_phases b; b_currentPhase := b_currentPhase b;
     b_phaseHealthThreshold := b_phaseHealthThreshold b; b_size := b_size b;
     b_minionSpawnTimer := b_minionSpawnTimer b;
     b_empBlastTimer := b_empBlastTimer b;
     b_shieldRegenTimer := b_shieldRegenTimer b;
     b_shieldActive := b_shieldActive b; b_shieldHealth := b_shieldHealth b;
     b_maxShieldHealth := b_maxShieldHealth b |}.

Definition set_b_currentPhase : Z -> BossExt -> BossExt.
Proof. setter BossExt_eta b_currentPhase. Defined.
Definition set_b_shieldActive : bool -> BossExt -> BossExt.
Proof. setter BossExt_eta b_shieldActive. Defined.
Definition set_b_shieldHealth : Q -> BossExt -> BossExt.
Proof. setter BossExt_eta b_shieldHealth. Defined.
Definition set_b_minionSpawnTimer : Q -> BossExt -> BossExt.
Proof. setter BossExt_eta b_minionSpawnTimer. Defined.
Definition set_b_empBlastTimer : Q -> BossExt -> BossExt.
Proof. setter BossExt_eta b_empBlastTimer. Defined.
Definition set_b_shieldRegenTimer : Q -> BossExt -> BossExt.
Proof. setter BossExt_eta b_shieldRegenTimer. Defined.

Definition EnemyObj_eta (e : EnemyObj) : EnemyObj :=
  {| e_x := e_x e; e_y := e_y e; e_type := e_type e; e_health := e_health e;
     e_maxHealth := e_maxHealth e; e_speed := e_speed e;
     e_baseSpeed := e_baseSpeed e; e_damage := e_damage e;
     e_reward := e_reward e; e_pathIndex := e_pathIndex e;
     e_progress := e_progress e; e_targetX := e_targetX e;
     e_targetY := e_targetY e; e_reachedEnd := e_reachedEnd e;
     e_isDead := e_isDead e; e_deathTime := e_deathTime e;
     e_resistance := e_resistance e;
     e_specialAbilityCooldown := e_specialAbilityCooldown e;
     e_specialAbilityActive := e_specialAbilityActive e;
     e_specialAbilityDuration := e_specialAbilityDuration e;
     e_statusEffects := e_statusEffects e;
     e_targetPriority := e_targetPriority e; e_threatLevel := e_threatLevel e;
     e_radius := e_radius e; e_scoreValue := e_scoreValue e;
     e_boss := e_boss e |}.

Definition set_e_x : Q -> EnemyObj -> EnemyObj.
Proof. setter EnemyObj_eta e_x. Defined.
Definition set_e_y : Q -> EnemyObj -> EnemyObj.
Proof. setter EnemyObj_eta e_y. Defined.
Definition set_e_health : Q -> EnemyObj -> EnemyObj.
Proof. setter EnemyObj_eta e_health. Defined.
Definition set_e_maxHealth : Q -> EnemyObj -> EnemyObj.
Proof. setter EnemyObj_eta e_maxHealth. Defined.
Definition set_e_speed : Q -> EnemyObj -> EnemyObj.
Proof. setter EnemyObj_eta e_speed. Defined.
Definition set_e_baseSpeed : Q -> EnemyObj -> EnemyObj.
Proof. setter EnemyObj_eta e_baseSpeed. Defined.
Definition set_e_damage : Z -> EnemyObj -> EnemyObj.
Proof. setter EnemyObj_eta e_damage. Defined.
Definition set_e_reward : Resources -> EnemyObj -> EnemyObj.
Proof. setter EnemyObj_eta e_reward. Defined.
Definition set_e_pathIndex : nat -> EnemyObj -> EnemyObj.
Proof. setter EnemyObj_eta e_pathIndex. Defined.
Definition set_e_progress : Q -> EnemyObj -> EnemyObj.
Proof. setter EnemyObj_eta e_progress. Defined.
Definition set_e_targetX : Q -> EnemyObj -> EnemyObj.
Proof. setter EnemyObj_eta e_targetX. Defined.
Definition set_e_targetY : Q -> EnemyObj -> EnemyObj.
Proof. setter EnemyObj_eta e_targetY. Defined.
Definition set_e_reachedEnd : bool -> EnemyObj -> EnemyObj.
Proof. setter EnemyObj_eta e_reachedEnd. Defined.
Definition set_e_isDead : bool -> EnemyObj -> EnemyObj.
Proof. setter EnemyObj_eta e_isDead. Defined.
Definition set_e_deathTime : Z -> EnemyObj -> EnemyObj.
Proof. setter EnemyObj_eta e_deathTime. Defined.
Definition set_e_specialAbilityCooldown : Q -> EnemyObj -> EnemyObj.
Proof. setter EnemyObj_eta e_specialAbilityCooldown. Defined.
Definition set_e_specialAbilityActive : bool -> EnemyObj -> EnemyObj.
Proof. setter EnemyObj_eta e_specialAbilityActive. Defined.
Definition set_e_specialAbilityDuration : Q -> EnemyObj -> EnemyObj.
Proof. setter EnemyObj_eta e_specialAbilityDuration. Defined.
Definition set_e_statusEffects : gmap string Effect -> EnemyObj -> EnemyObj.
Proof. setter EnemyObj_eta e_statusEffects. Defined.
Definition set_e_targetPriority : Q -> EnemyObj -> EnemyObj.
Proof. setter EnemyObj_eta e_targetPriority. Defined.
Definition set_e_threatLevel : Q -> EnemyObj -> EnemyObj.
Proof. setter EnemyObj_eta e_threatLevel. Defined.
Definition set_e_boss : option BossExt -> EnemyObj -> EnemyObj.
Proof. setter EnemyObj_eta e_boss. Defined.

Definition ProjectileObj_eta (p : ProjectileObj) : ProjectileObj :=
  {| p_x := p_x p; p_y := p_y p; p_target := p_target p;
     p_damage := p_damage p; p_speed := p_speed p; p_type := p_type p;
     p_vx := p_vx p; p_vy := p_vy p; p_radius := p_radius p;
     p_isActive := p_isActive p; p_piercing := p_piercing p;
     p_homing := p_homing p; p_splash := p_splash p;
     p_splashRadius := p_splashRadius p;
     p_piercedTargets := p_piercedTargets p |}.

Definition set_p_x : Q -> ProjectileObj -> ProjectileObj.
Proof. setter ProjectileObj_eta p_x. Defined.
Definition set_p_y : Q -> ProjectileObj -> ProjectileObj.
Proof. setter ProjectileObj_eta p_y. Defined.
Definition set_p_target : option nat -> ProjectileObj -> ProjectileObj.
Proof. setter ProjectileObj_eta p_target. Defined.
Definition set_p_damage : Q -> ProjectileObj -> ProjectileObj.
Proof. setter ProjectileObj_eta p_damage. Defined.
Definition set_p_speed : Q -> ProjectileObj -> ProjectileObj.
Proof. setter ProjectileObj_eta p_speed. Defined.
Definition set_p_vx : Q -> ProjectileObj -> ProjectileObj.
Proof. setter ProjectileObj_eta p_vx. Defined.
Definition set_p_vy : Q -> ProjectileObj -> ProjectileObj.
Proof. setter ProjectileObj_eta p_vy. Defined.
Definition set_p_radius : Q -> ProjectileObj -> ProjectileObj.
Proof. setter ProjectileObj_eta p_radius. Defined.
Definition set_p_isActive : bool -> ProjectileObj -> ProjectileObj.
Proof. setter ProjectileObj_eta p_isActive. Defined.
Definition set_p_piercing : bool -> ProjectileObj -> ProjectileObj.
Proof. setter ProjectileObj_eta p_piercing. Defined.
Definition set_p_homing : bool -> ProjectileObj -> ProjectileObj.
Proof. setter ProjectileObj_eta p_homing. Defined.
Definition set_p_splash : bool -> ProjectileObj -> ProjectileObj.
Proof. setter ProjectileObj_eta p_splash. Defined.
Definition set_p_splashRadius : Q -> ProjectileObj -> ProjectileObj.
Proof. setter ProjectileObj_eta p_splashRadius. Defined.
Definition set_p_piercedTargets : gset nat -> ProjectileObj -> ProjectileObj.
Proof. setter ProjectileObj_eta p_piercedTargets. Defined.

Definition DefenseObj_eta (d : DefenseObj) : DefenseObj :=
  {| d_x := d_x d; d_y := d_y d; d_type := d_type d; d_config := d_config d;
     d_level := d_level d; d_maxLevel := d_maxLevel d;
     d_experience := d_experience d;
     d_experienceToNextLevel := d_experienceToNextLevel d;
     d_damage := d_damage d; d_range := d_range d; d_fireRate := d_fireRate d;
     d_lastFireTime := d_lastFireTime d; d_target := d_target d;
     d_specialAbilityCooldown := d_specialAbilityCooldown d;
     d_specialAbilityActive := d_specialAbilityActive d;
     d_specialAbilityDuration := d_specialAbilityDuration d;
     d_buffs := d_buffs d; d_debuffs := d_debuffs d;
     d_isActive := d_isActive d; d_gridX := d_gridX d; d_gridY := d_gridY d;
     d_centerX := d_centerX d; d_centerY := d_centerY d |}.

Definition set_d_x : Q -> DefenseObj -> DefenseObj.
Proof. setter DefenseObj_eta d_x. Defined.
Definition set_d_y : Q -> DefenseObj -> DefenseObj.
Proof. setter DefenseObj_eta d_y. Defined.
Definition set_d_type : string -> DefenseObj -> DefenseObj.
Proof. setter DefenseObj_eta d_type. Defined.
Definition set_d_level : Z -> DefenseObj -> DefenseObj.
Proof. setter DefenseObj_eta d_level. Defined.
Definition set_d_experience : Z -> DefenseObj -> DefenseObj.
Proof. setter DefenseObj_eta d_experience. Defined.
Definition set_d_experienceToNextLevel : Z -> DefenseObj -> DefenseObj.
Proof. setter DefenseObj_eta d_experienceToNextLevel. Defined.
Definition set_d_damage : Q -> DefenseObj -> DefenseObj.
Proof. setter DefenseObj_eta d_damage. Defined.
Definition set_d_range : Q -> DefenseObj -> DefenseObj.
Proof. setter DefenseObj_eta d_range. Defined.
Definition set_d_fireRate : Q -> DefenseObj -> DefenseObj.
Proof. setter DefenseObj_eta d_fireRate. Defined.
Definition set_d_lastFireTime : Z -> DefenseObj -> DefenseObj.
Proof. setter DefenseObj_eta d_lastFireTime. Defined.
Definition set_d_target : option nat -> DefenseObj -> DefenseObj.
Proof. setter DefenseObj_eta d_target. Defined.
Definition set_d_specialAbilityCooldown : Q -> DefenseObj -> DefenseObj.
Proof. setter DefenseObj_eta d_specialAbilityCooldown. Defined.
Definition set_d_specialAbilityActive : bool -> DefenseObj -> DefenseObj.
Proof. setter DefenseObj_eta d_specialAbilityActive. Defined.
Definition set_d_specialAbilityDuration : Q -> DefenseObj -> DefenseObj.
Proof. setter DefenseObj_eta d_specialAbilityDuration. Defined.
Definition set_d_isActive : bool -> DefenseObj -> DefenseObj.
Proof. setter DefenseObj_eta d_isActive. Defined.
Definition set_d_buffs : gmap string Effect -> DefenseObj -> DefenseObj.
Proof. setter DefenseObj_eta d_buffs. Defined.
Definition set_d_debuffs : gmap string Effect -> DefenseObj -> DefenseObj.
Proof. setter DefenseObj_eta d_debuffs. Defined.
Definition set_d_gridX : Z -> DefenseObj -> DefenseObj.
Proof. setter DefenseObj_eta d_gridX. Defined.
Definition set_d_gridY : Z -> DefenseObj -> DefenseObj.
Proof. setter DefenseObj_eta d_gridY. Defined.
Definition set_d_centerX : Q -> DefenseObj -> DefenseObj.
Proof. setter DefenseObj_eta d_centerX. Defined.
Definition set_d_centerY : Q -> DefenseObj -> DefenseObj.
Proof. setter DefenseObj_eta d_centerY. Defined.

Definition GameState_eta (g : GameState) : GameState :=
  {| g_width := g_width g; g_height := g_height g;
     g_resources := g_resources g; g_lives := g_lives g;
     g_score := g_score g; g_isGameOver := g_isGameOver g;
     g_enemies := g_enemies g; g_store := g_store g;
     g_nextRef := g_nextRef g; g_projectiles := g_projectiles g;
     g_defenses := g_defenses g; g_path := g_path g;
     g_waveConfigs := g_waveConfigs g; g_currentWave := g_currentWave g;
     g_waveInProgress := g_waveInProgress g;
     g_enemiesSpawned := g_enemiesSpawned g;
     g_enemiesToSpawn := g_enemiesToSpawn g; g_isVictory := g_isVictory g |}.

Definition set_g_resources : Resources -> GameState -> GameState.
Proof. setter GameState_eta g_resources. Defined.
Definition set_g_lives : Z -> GameState -> GameState.
Proof. setter GameState_eta g_lives. Defined.
Definition set_g_score : Z -> GameState -> GameState.
Proof. setter GameState_eta g_score. Defined.
Definition set_g_isGameOver : bool -> GameState -> GameState.
Proof. setter GameState_eta g_isGameOver. Defined.
Definition set_g_enemies : list nat -> GameState -> GameState.
Proof. setter GameState_eta g_enemies. Defined.
Definition set_g_store : gmap nat EnemyObj -> GameState -> GameState.
Proof. setter GameState_eta g_store. Defined.
Definition set_g_nextRef : nat -> GameState -> GameState.
Proof. setter GameState_eta g_nextRef. Defined.
Definition set_g_projectiles : list ProjectileObj -> GameState -> GameState.
Proof. setter GameState_eta g_projectiles. Defined.
Definition set_g_defenses : list DefenseObj -> GameState -> GameState.
Proof. setter GameState_eta g_defenses. Defined.
Definition set_g_enemiesSpawned : Z -> GameState -> GameState.
Proof. setter GameState_eta g_enemiesSpawned. Defined.
Definition set_g_enemiesToSpawn : Z -> GameState -> GameState.
Proof. setter GameState_eta g_enemiesToSpawn. Defined.
Definition set_g_currentWave : nat -> GameState -> GameState.
Proof. setter GameState_eta g_currentWave. Defined.
Definition set_g_waveInProgress : bool -> GameState -> GameState.
Proof. setter GameState_eta g_waveInProgress. Defined.
Definition set_g_isVictory : bool -> GameState -> GameState.
Proof. setter GameState_eta g_isVictory. Defined.

(** ** [Utils] *)

Module Utils.
Section WithHost.
Context `{Host}.

(** [Utils.distance]. *)
Definition distance (x1 y1 x2 y2 : Q) : Q :=
  Math_sqrt ((x2 - x1) * (x2 - x1) + (y2 - y1) * (y2 - y1)).

(** [Utils.circleCollision].  [Game] passes [enemy.radius] as [r2]; with
    [r2] undefined the sum is [NaN] and the comparison is false. *)
Definition circleCollision (x1 y1 r1 x2 y2 : Q) (r2 : option Q) : bool :=
  match r2 with
  | Some r => JS.lt (distance x1 y1 x2 y2) (r1 + r)
  | None => false
  end.

(** [Utils.clamp]. *)
Definition clamp (value min max : Q) : Q := Qmax min (Qmin max value).

(** [Utils.randomInt]; [random] is the value of its call of
    [Math.random()]. *)
Definition randomInt (random : Q) (min max : Z) : Z :=
  (JS.floor (random * inject_Z (max - min + 1)) + min)%Z.

(** [Utils.pointInRect]. *)
Definition pointInRect (px py rx ry rw rh : Q) : bool :=
  JS.ge px rx && JS.le px (rx + rw) && JS.ge py ry && JS.le py (ry + rh).

End WithHost.
End Utils.

(** [f] applied in place to the enemy object behind reference [r]. *)
Definition update_enemy (r : nat) (f : EnemyObj -> EnemyObj)
    (g : GameState) : GameState :=
  match g_store g !! r with
  | Some e => set_g_store (<[r := f e]> (g_store g)) g
  | None => g
  end.

(** [game.enemies.push(enemy)] for a newly constructed [enemy], which gets
    the next reference. *)
Definition push_enemy (enemy : EnemyObj) (g : GameState) : GameState :=
  let r := g_nextRef g in
  set_g_enemies (g_enemies g ++ [r])
    (set_g_store (<[r := enemy]> (g_store g)) (set_g_nextRef (S r) g)).

(** ** [Defense]: state, upgrades, buffs and effective stats *)

(** What [Defense.getSaveData] returns. *)
Record DefenseSave := {
  sd_x : Q;
  sd_y : Q;
  sd_type : string;
  sd_level : Z;
  sd_experience : Z;
  sd_experienceToNextLevel : Z;
  sd_buffs : list (string * Effect);
  sd_debuffs : list (string * Effect)
}.

Module Defense.
Section WithHost.
Context `{Host}.

(** The body of the constructor once [CONFIG.DEFENSE_TYPES[type]] is known. *)
Definition init (x y : Q) (type : string) (config : DefenseConfig) : DefenseObj :=
  {| d_x := x; d_y := y; d_type := type; d_config := config;
     d_level := 1; d_maxLevel := 5;
     d_experience := 0; d_experienceToNextLevel := 100;
     d_damage := dc_damage config; d_range := dc_range config;
     d_fireRate := dc_fireRate config;
     d_lastFireTime := 0; d_target := None;
     d_specialAbilityCooldown := 0; d_specialAbilityActive := false;
     d_specialAbilityDuration := 0;
     d_buffs := ∅; d_debuffs := ∅; d_isActive := true;
     d_gridX := JS.floor (x / GRID_SIZE); d_gridY := JS.floor (y / GRID_SIZE);
     d_centerX := x + GRID_SIZE / 2; d_centerY := y + GRID_SIZE / 2 |}.

(** [new Defense(game, x, y, type)]. *)
Definition new (x y : Q) (type : string) : option DefenseObj :=
  match JS.prop CONFIG.DEFENSE_TYPES type with
  | Some config => Some (init x y type config)
  | None => None
  end.

Definition canUpgrade (d : DefenseObj) : bool := (d_level d <? d_maxLevel d)%Z.

(** [Defense.getUpgradeCost]. *)
Definition getUpgradeCost (d : DefenseObj) : Resources :=
  let baseCost := inject_Z (dharma (dc_cost (d_config d))) in
  let multiplier := Qpower 1.5 (d_level d) in
  {| dharma := JS.floor (baseCost * multiplier);
     bandwidth :=
       JS.floor (inject_Z (bandwidth (dc_cost (d_config d))) * multiplier * 0.5);
     anonymity :=
       JS.floor (inject_Z (anonymity (dc_cost (d_config d))) * multiplier * 0.3) |}.

(** The [while] loop of [Defense.addExperience].  Every iteration raises
    the level and the loop stops at [maxLevel], so [maxLevel - level]
    iterations are enough: see [addExperience_loop_done]. *)
Fixpoint addExperienceLoop (fuel : nat) (d : DefenseObj) : DefenseObj :=
  match fuel with
  | O => d
  | S fuel' =>
      if (d_experienceToNextLevel d <=? d_experience d)%Z && canUpgrade d then
        let d := set_d_experience (d_experience d - d_experienceToNextLevel d) d in
        let d :=
          set_d_experienceToNextLevel
            (JS.floor (inject_Z (d_experienceToNextLevel d) * 1.5)) d in
        addExperienceLoop fuel' (set_d_level (d_level d + 1) d)
      else d
  end.

(** [Defense.addExperience]. *)
Definition addExperience (amount : Z) (d : DefenseObj) : DefenseObj :=
  let d := set_d_experience (d_experience d + amount) d in
  addExperienceLoop (Z.to_nat (d_maxLevel d - d_level d)) d.

(** The three assignments [upgrade] and [loadSaveData] both make:
    "update stats based on level". *)
Definition levelDamage (d : DefenseObj) : Q :=
  inject_Z (JS.floor (dc_damage (d_config d) * (1 + inject_Z (d_level d) * 0.2))).
Definition levelRange (d : DefenseObj) : Q :=
  dc_range (d_config d) * (1 + inject_Z (d_level d) * 0.1).
Definition levelFireRate (d : DefenseObj) : Q :=
  Qmax 200 (dc_fireRate (d_config d) * (1 - inject_Z (d_level d) * 0.1)).

(** [Defense.upgrade]. *)
Definition upgrade (d : DefenseObj) : DefenseObj :=
  if negb (canUpgrade d) then d
  else
    let d := set_d_level (d_level d + 1) d in
    let d := set_d_damage (levelDamage d) d in
    let d := set_d_range (levelRange d) d in
    let d := set_d_fireRate (levelFireRate d) d in
    addExperience 50 d.

(** [Defense.applyBuff], [removeBuff], [hasBuff] and the debuff twins. *)
Definition applyBuff (now : Z) (buffType : string) (duration : Q)
    (d : DefenseObj) : DefenseObj :=
  set_d_buffs
    (<[buffType := {| eff_type := buffType; eff_duration := duration;
                      eff_startTime := now |}]> (d_buffs d)) d.

Definition removeBuff (buffType : string) (d : DefenseObj) : DefenseObj :=
  set_d_buffs (delete buffType (d_buffs d)) d.

Definition hasBuff (buffType : string) (d : DefenseObj) : bool :=
  bool_decide (is_Some (d_buffs d !! buffType)).

Definition applyDebuff (now : Z) (debuffType : string) (duration : Q)
    (d : DefenseObj) : DefenseObj :=
  set_d_debuffs
    (<[debuffType := {| eff_type := debuffType; eff_duration := duration;
                        eff_startTime := now |}]> (d_debuffs d)) d.

Definition removeDebuff (debuffType : string) (d : DefenseObj) : DefenseObj :=
  set_d_debuffs (delete debuffType (d_debuffs d)) d.

Definition hasDebuff (debuffType : string) (d : DefenseObj) : bool :=
  bool_decide (is_Some (d_debuffs d !! debuffType)).

(** [Defense.getDamage]. *)
Definition getDamage (d : DefenseObj) : Z :=
  let damage := d_damage d in
  let damage := if hasBuff "boosted" d then damage * 1.5 else damage in
  let damage := if hasDebuff "weakened" d then damage * 0.7 else damage in
  JS.floor damage.

(** [Defense.getRange]. *)
Definition getRange (d : DefenseObj) : Q :=
  let range := d_range d in
  let range := if hasBuff "boosted" d then range * 1.2 else range in
  if hasDebuff "blinded" d then range * 0.8 else range.

(** [Defense.getFireRate]. *)
Definition getFireRate (d : DefenseObj) : Q :=
  let fireRate := d_fireRate d in
  let fireRate := if hasBuff "boosted" d then fireRate * 0.7 else fireRate in
  let fireRate := if hasDebuff "slowed" d then fireRate * 1.3 else fireRate in
  Qmax 100 fireRate.

(** [Defense.getProjectileSpeed]. *)
Definition getProjectileSpeed (d : DefenseObj) : Q :=
  let speed := dc_projectileSpeed (d_config d) in
  if hasBuff "boosted" d then speed * 1.3 else speed.

(** [Defense.getSaveData]. *)
Definition getSaveData (d : DefenseObj) : DefenseSave :=
  {| sd_x := d_x d; sd_y := d_y d; sd_type := d_type d; sd_level := d_level d;
     sd_experience := d_experience d;
     sd_experienceToNextLevel := d_experienceToNextLevel d;
     sd_buffs := map_to_list (d_buffs d);
     sd_debuffs := map_to_list (d_debuffs d) |}.

(** [Defense.loadSaveData]. *)
Definition loadSaveData (saveData : DefenseSave) (d : DefenseObj) : DefenseObj :=
  let d := set_d_x (sd_x saveData) d in
  let d := set_d_y (sd_y saveData) d in
  let d := set_d_type (sd_type saveData) d in
  let d := set_d_level (sd_level saveData) d in
  let d := set_d_experience (sd_experience saveData) d in
  let d := set_d_experienceToNextLevel (sd_experienceToNextLevel saveData) d in
  let d := set_d_centerX (d_x d + GRID_SIZE / 2) d in
  let d := set_d_centerY (d_y d + GRID_SIZE / 2) d in
  let d := set_d_gridX (JS.floor (d_x d / GRID_SIZE)) d in
  let d := set_d_gridY (JS.floor (d_y d / GRID_SIZE)) d in
  let d := set_d_buffs (list_to_map (sd_buffs saveData)) d in
  let d := set_d_debuffs (list_to_map (sd_debuffs saveData)) d in
  let d := set_d_damage (levelDamage d) d in
  let d := set_d_range (levelRange d) d in
  set_d_fireRate (levelFireRate d) d.

(** [Defense.isValidTarget]. *)
Definition isValidTarget (g : GameState) (target : option nat)
    (d : DefenseObj) : bool :=
  match target with
  | None => false
  | Some t =>
      match g_store g !! t with
      | None => false
      | Some e =>
          if e_isDead e then false
          else JS.le (Utils.distance (d_centerX d) (d_centerY d) (e_x e) (e_y e))
                     (d_range d)
      end
  end.

(** The body of the loop of [Defense.findBestTarget] for one enemy;
    [best] is [(bestTarget, bestScore)] and [None] the initial
    [(null, -Infinity)]. *)
Definition considerTarget (d : DefenseObj) (g : GameState)
    (best : option (nat * Q)) (r : nat) : option (nat * Q) :=
  match g_store g !! r with
  | None => best
  | Some enemy =>
      let distance :=
        Utils.distance (d_centerX d) (d_centerY d) (e_x enemy) (e_y enemy) in
      if JS.le distance (d_range d) then
        let score := 0 in
        let score := score + e_progress enemy * 100 in
        let score := score + (1 - e_health enemy / e_maxHealth enemy) * 50 in
        let score := score + e_speed enemy * 0.5 in
        let score := score + (d_range d - distance) * 0.1 in
        match best with
        | None => Some (r, score)
        | Some (_, bestScore) =>
            if JS.gt score bestScore then Some (r, score) else best
        end
      else best
  end.

(** [Defense.findBestTarget]. *)
Definition findBestTarget (d : DefenseObj) (g : GameState) : option nat :=
  fst <$> fold_left (considerTarget d g) (g_enemies g) None.

End WithHost.
End Defense.

(** ** [DefenseManager]: targeting *)

Module DefenseManager.
Section WithHost.
Context `{Host}.

(** [DefenseManager.getDefensesInRange]. *)
Definition getDefensesInRange (g : GameState) (x y range : Q) : list DefenseObj :=
  List.filter
    (fun defense =>
       let distance :=
         Utils.distance x y (d_x defense + GRID_SIZE / 2)
                            (d_y defense + GRID_SIZE / 2) in
       JS.le distance range)
    (g_defenses g).

(** [DefenseManager.getNearestDefense]; the caller passes [maxRange]. *)
Definition getNearestDefense (g : GameState) (x y maxRange : Q)
    : option DefenseObj :=
  fst
    (fold_left
       (fun '(nearest, nearestDistance) defense =>
          let distance :=
            Utils.distance x y (d_x defense + GRID_SIZE / 2)
                               (d_y defense + GRID_SIZE / 2) in
          if JS.lt distance nearestDistance
          then (Some defense, distance)
          else (nearest, nearestDistance))
       (g_defenses g) (None, maxRange)).

(** The body of the loop of [DefenseManager.findBestTarget]. *)
Definition considerTarget (defense : DefenseObj) (g : GameState)
    (best : option (nat * Q)) (r : nat) : option (nat * Q) :=
  let defenseX := d_x defense + GRID_SIZE / 2 in
  let defenseY := d_y defense + GRID_SIZE / 2 in
  let range := Defense.getRange defense in
  match g_store g !! r with
  | None => best
  | Some enemy =>
      let distance := Utils.distance defenseX defenseY (e_x enemy) (e_y enemy) in
      if JS.le distance range then
        let score := 0 in
        let score := score + e_progress enemy * 100 in
        let score := score + (1 - e_health enemy / e_maxHealth enemy) * 50 in
        let score := score + e_speed enemy * 0.5 in
        let score := score + inject_Z (dharma (e_reward enemy)) * 2 in
        let score := score + (range - distance) * 0.1 in
        match best with
        | None => Some (r, score)
        | Some (_, bestScore) =>
            if JS.gt score bestScore then Some (r, score) else best
        end
      else best
  end.

(** [DefenseManager.findBestTarget]. *)
Definition findBestTarget (defense : DefenseObj) (g : GameState) : option nat :=
  fst <$> fold_left (considerTarget defense g) (g_enemies g) None.

End WithHost.
End DefenseManager.

(** ** [Level]: queries on the path *)

Module LevelPath.
Section WithHost.
Context `{Host}.

(** [Level.getPathLength]. *)
Fixpoint getPathLength (path : list Point) : Q :=
  match path with
  | start :: (finish :: _) as rest =>
      Utils.distance (pt_x start) (pt_y start) (pt_x finish) (pt_y finish)
      + getPathLength rest
  | _ => 0
  end.

(** The loop of [Level.getPathPosition] from the segment that starts the
    list, with [currentLength] walked so far; [None] when no segment
    reaches [targetLength]. *)
Fixpoint walkPath (path : list Point) (targetLength currentLength : Q)
    : option Point :=
  match path with
  | start :: (finish :: _) as rest =>
      let segmentLength :=
        Utils.distance (pt_x start) (pt_y start) (pt_x finish) (pt_y finish) in
      if JS.ge (currentLength + segmentLength) targetLength then
        let t := (targetLength - currentLength) / segmentLength in
        Some {| pt_x := pt_x start + (pt_x finish - pt_x start) * t;
                pt_y := pt_y start + (pt_y finish - pt_y start) * t |}
      else walkPath rest targetLength (currentLength + segmentLength)
  | _ => None
  end.

(** [Level.getPathPosition]. *)
Definition getPathPosition (path : list Point) (progress : Q) : Point :=
  match path with
  | [] => {| pt_x := 0; pt_y := 0 |}
  | first :: _ =>
      let totalLength := getPathLength path in
      let targetLength := totalLength * progress in
      match walkPath path targetLength 0 with
      | Some position => position
      | None => List.last path first
      end
  end.

(** [Level.pointToLineDistance]. *)
Definition pointToLineDistance (px py x1 y1 x2 y2 : Q) : Q :=
  let A := px - x1 in
  let B := py - y1 in
  let C := x2 - x1 in
  let D := y2 - y1 in
  let dot := A * C + B * D in
  let lenSq := C * C + D * D in
  let param := if negb (Qeq_bool lenSq 0) then dot / lenSq else -1 in
  let '(xx, yy) :=
    if JS.lt param 0 then (x1, y1)
    else if JS.gt param 1 then (x2, y2)
    else (x1 + param * C, y1 + param * D) in
  let dx := px - xx in
  let dy := py - yy in
  Math_sqrt (dx * dx + dy * dy).

(** [this.pathWidth] of a [Level]. *)
Definition pathWidth : Q := 40.

(** [Level.isOnPath]. *)
Fixpoint isOnPath (path : list Point) (x y : Q) : bool :=
  match path with
  | start :: (finish :: _) as rest =>
      let dist :=
        pointToLineDistance x y (pt_x start) (pt_y start)
                                (pt_x finish) (pt_y finish) in
      if JS.le dist (pathWidth / 2) then true else isOnPath rest x y
  | _ => false
  end.

End WithHost.
End LevelPath.

(** ** [Enemy] *)

Module Enemy.

Definition defaultResistance : list (string * Q) :=
  [ ("fire", 1); ("ice", 1); ("electric", 1); ("poison", 1) ].

(** [Enemy.updateTarget], with [path] for [this.game.level.path]. *)
Definition updateTarget (path : list Point) (e : EnemyObj) : EnemyObj :=
  if (0 <? length path)%nat then
    if (e_pathIndex e <? length path - 1)%nat then
      let i := S (e_pathIndex e) in
      match path !! i with
      | Some pt =>
          set_e_progress
            (inject_Z (Z.of_nat i) / inject_Z (Z.of_nat (length path - 1)))
            (set_e_targetY (pt_y pt)
               (set_e_targetX (pt_x pt) (set_e_pathIndex i e)))
      | None => e
      end
    else set_e_reachedEnd true e
  else e.

(** The body of the constructor once [CONFIG.ENEMY_TYPES[type]] is known. *)
Definition init (path : list Point) (x y : Q) (type : string)
    (config : EnemyConfig) : EnemyObj :=
  updateTarget path
    {| e_x := x; e_y := y; e_type := type;
       e_health := ec_health config; e_maxHealth := ec_health config;
       e_speed := ec_speed config; e_baseSpeed := ec_speed config;
       e_damage := 1; e_reward := ec_reward config;
       e_pathIndex := 0; e_progress := 0; e_targetX := x; e_targetY := y;
       e_reachedEnd := false; e_isDead := false; e_deathTime := 0;
       e_resistance := defaultResistance;
       e_specialAbilityCooldown := 0; e_specialAbilityActive := false;
       e_specialAbilityDuration := 0; e_statusEffects := ∅;
       e_targetPriority := 0; e_threatLevel := 1;
       e_radius := None; e_scoreValue := None; e_boss := None |}.

(** [new Enemy(game, x, y, type)]: reading [this.config.health] throws when
    [type] is not a key of [CONFIG.ENEMY_TYPES]. *)
Definition new (g : GameState) (x y : Q) (type : string) : option EnemyObj :=
  match JS.prop CONFIG.ENEMY_TYPES type with
  | Some config => Some (init (g_path g) x y type config)
  | None => None
  end.

(** [Enemy.applyStatusEffect]; [now] is [Date.now()]. *)
Definition applyStatusEffect (now : Z) (effectType : string) (duration : Q)
    (e : EnemyObj) : EnemyObj :=
  set_e_statusEffects
    (<[effectType := {| eff_type := effectType; eff_duration := duration;
                        eff_startTime := now |}]> (e_statusEffects e)) e.

Definition hasStatusEffect (effectType : string) (e : EnemyObj) : bool :=
  bool_decide (is_Some (e_statusEffects e !! effectType)).

Definition removeStatusEffect (effectType : string) (e : EnemyObj) : EnemyObj :=
  set_e_statusEffects (delete effectType (e_statusEffects e)) e.

(** [Enemy.die]. *)
Definition die (now : Z) (e : EnemyObj) : EnemyObj :=
  set_e_statusEffects ∅ (set_e_deathTime now (set_e_isDead true e)).

(** [Enemy.takeDamage(amount, damageType = 'fire')]. *)
Definition takeDamage (now : Z) (amount : Q) (damageType : string)
    (e : EnemyObj) : EnemyObj :=
  let resistance := JS.or_undefined (JS.prop (e_resistance e) damageType) 1 in
  let actualDamage := amount * resistance in
  let e := set_e_health (e_health e - actualDamage) e in
  if JS.le (e_health e) 0 then die now e else e.

Section WithHost.
Context `{Host}.

(** [Enemy.updateStatusEffects]. *)
Definition updateStatusEffects (deltaTime : Q) (e : EnemyObj) : EnemyObj :=
  set_e_statusEffects (tickEffects deltaTime (e_statusEffects e)) e.

(** [Enemy.updateSpecialAbilities].  [deactivateSpecialAbility] is not a
    method of [Enemy] or [Boss]: the call throws. *)
Definition updateSpecialAbilities (deltaTime : Q) (e : EnemyObj)
    : option EnemyObj :=
  let continue e :=
    Some (if JS.gt (e_specialAbilityCooldown e) 0
          then set_e_specialAbilityCooldown
                 (e_specialAbilityCooldown e - deltaTime) e
          else e) in
  if e_specialAbilityActive e then
    let e :=
      set_e_specialAbilityDuration (e_specialAbilityDuration e - deltaTime) e in
    if JS.le (e_specialAbilityDuration e) 0 then None else continue e
  else continue e.

(** [Enemy.updateNormalMovement]. *)
Definition updateNormalMovement (path : list Point) (deltaTime speed : Q)
    (e : EnemyObj) : EnemyObj :=
  let dx := e_targetX e - e_x e in
  let dy := e_targetY e - e_y e in
  let distance := Math_sqrt (dx * dx + dy * dy) in
  if JS.gt distance 2 then
    let moveX := (dx / distance) * speed * deltaTime * 0.001 in
    let moveY := (dy / distance) * speed * deltaTime * 0.001 in
    set_e_y (e_y e + moveY) (set_e_x (e_x e + moveX) e)
  else updateTarget path e.

(** [Enemy.updateErraticMovement]; [random1] and [random2] are its two
    calls of [Math.random()]. *)
Definition updateErraticMovement (path : list Point) (random1 random2 : Q)
    (deltaTime speed : Q) (e : EnemyObj) : EnemyObj :=
  let randomX := (random1 - 0.5) * speed * 0.3 in
  let randomY := (random2 - 0.5) * speed * 0.3 in
  let e := updateNormalMovement path deltaTime speed e in
  let e := set_e_x (e_x e + randomX * deltaTime * 0.001) e in
  set_e_y (e_y e + randomY * deltaTime * 0.001) e.

(** [Enemy.updatePersistentMovement]. *)
Definition updatePersistentMovement (g : GameState) (deltaTime speed : Q)
    (e : EnemyObj) : EnemyObj :=
  let currentSpeed := speed in
  let nearestDefense :=
    DefenseManager.getNearestDefense g (e_x e) (e_y e) 200 in
  let currentSpeed :=
    match nearestDefense with
    | Some _ => currentSpeed * 1.5
    | None => currentSpeed
    end in
  updateNormalMovement (g_path g) deltaTime currentSpeed e.

(** [Enemy.updateStealthMovement]; [random] is the value [Math.random()]
    returns when the first conjunct lets it be called. *)
Definition updateStealthMovement (now : Z) (random : Q) (path : list Point)
    (deltaTime speed : Q) (e : EnemyObj) : EnemyObj :=
  let e :=
    if negb (hasStatusEffect "stealthed" e) && JS.lt random 0.01
    then applyStatusEffect now "stealthed" 2000 e
    else e in
  updateNormalMovement path deltaTime speed e.

(** [Enemy.updateAdaptiveMovement]. *)
Definition updateAdaptiveMovement (g : GameState) (deltaTime speed : Q)
    (e : EnemyObj) : EnemyObj :=
  let nearbyDefenses :=
    DefenseManager.getDefensesInRange g (e_x e) (e_y e) 300 in
  let e :=
    if (0 <? length nearbyDefenses)%nat then
      let '(avoidX, avoidY) :=
        fold_left
          (fun '(avoidX, avoidY) defense =>
             let dx := e_x e - d_centerX defense in
             let dy := e_y e - d_centerY defense in
             let distance := Math_sqrt (dx * dx + dy * dy) in
             if JS.gt distance 0 then
               (avoidX + (dx / distance) * (200 / distance),
                avoidY + (dy / distance) * (200 / distance))
             else (avoidX, avoidY))
          nearbyDefenses (0, 0) in
      set_e_y (e_y e + avoidY * deltaTime * 0.001)
        (set_e_x (e_x e + avoidX * deltaTime * 0.001) e)
    else e in
  updateNormalMovement (g_path g) deltaTime speed e.

(** [Enemy.updateQuantumMovement]. *)
Definition updateQuantumMovement (random : Q) (path : list Point)
    (deltaTime speed : Q) (e : EnemyObj) : EnemyObj :=
  if JS.lt random 0.005 then
    let pathPosition := LevelPath.getPathPosition path (e_progress e + 0.1) in
    set_e_y (pt_y pathPosition) (set_e_x (pt_x pathPosition) e)
  else updateNormalMovement path deltaTime speed e.

(** [Enemy.updateCorruptedMovement] for the enemy behind [this]: it moves,
    then heals the other corrupted monks within 100 and corrupts the
    defenses within 80. *)
Definition updateCorruptedMovement (now : Z) (deltaTime speed : Q)
    (this : nat) (g : GameState) : GameState :=
  let g := update_enemy this
             (updateNormalMovement (g_path g) deltaTime (speed * 0.7)) g in
  match g_store g !! this with
  | None => g
  | Some self =>
      let g :=
        fold_left
          (fun g r =>
             match g_store g !! r with
             | None => g
             | Some enemy =>
                 if negb (Nat.eqb r this)
                    && String.eqb (e_type enemy) "corruptedMonk" then
                   let distance :=
                     Utils.distance (e_x self) (e_y self) (e_x enemy) (e_y enemy) in
                   if JS.le distance 100 then
                     update_enemy r
                       (fun enemy =>
                          set_e_health
                            (Qmin (e_maxHealth enemy)
                                  (e_health enemy + deltaTime * 0.01)) enemy) g
                   else g
                 else g
             end)
          (g_enemies g) g in
      set_g_defenses
        (map
           (fun defense =>
              let distance :=
                Utils.distance (e_x self) (e_y self)
                               (d_centerX defense) (d_centerY defense) in
              if JS.le distance 80
              then Defense.applyDebuff now "corrupted" 1000 defense
              else defense)
           (g_defenses g)) g
  end.

(** [Enemy.updateMovement]; [random k] is the [k]-th value of
    [Math.random()] in this call. *)
Definition updateMovement (now : Z) (random : nat -> Q) (deltaTime : Q)
    (this : nat) (g : GameState) : GameState :=
  match g_store g !! this with
  | None => g
  | Some e =>
      if e_reachedEnd e then g
      else
        let currentSpeed := e_speed e in
        let currentSpeed :=
          if hasStatusEffect "slowed" e then currentSpeed * 0.5
          else currentSpeed in
        let currentSpeed :=
          if hasStatusEffect "hasted" e then currentSpeed * 1.5
          else currentSpeed in
        let type := e_type e in
        if String.eqb type "scriptKiddie" then
          update_enemy this
            (updateErraticMovement (g_path g) (random 0%nat) (random 1%nat)
               deltaTime currentSpeed) g
        else if String.eqb type "federalAgent" then
          update_enemy this (updatePersistentMovement g deltaTime currentSpeed) g
        else if String.eqb type "corporateSaboteur" then
          update_enemy this
            (updateStealthMovement now (random 0%nat) (g_path g)
               deltaTime currentSpeed) g
        else if String.eqb type "aiSurveillance" then
          update_enemy this (updateAdaptiveMovement g deltaTime currentSpeed) g
        else if String.eqb type "quantumHacker" then
          update_enemy this
            (updateQuantumMovement (random 0%nat) (g_path g)
               deltaTime currentSpeed) g
        else if String.eqb type "corruptedMonk" then
          updateCorruptedMovement now deltaTime currentSpeed this g
        else
          update_enemy this
            (updateNormalMovement (g_path g) deltaTime currentSpeed) g
  end.

(** [Enemy.updateAI]. *)
Definition updateAI (e : EnemyObj) : EnemyObj :=
  let targetPriority := e_progress e * 100 in
  let targetPriority :=
    targetPriority + (1 - e_health e / e_maxHealth e) * 50 in
  let targetPriority := targetPriority + e_speed e * 0.5 in
  let targetPriority :=
    targetPriority + inject_Z (dharma (e_reward e)) * 2 in
  set_e_threatLevel (1 + e_maxHealth e / 20 + e_speed e / 50)
    (set_e_targetPriority targetPriority e).

(** [Enemy.checkEndReached]. *)
Definition checkEndReached (now : Z) (this : nat) (g : GameState) : GameState :=
  match g_store g !! this with
  | None => g
  | Some e =>
      if e_reachedEnd e then
        let g := set_g_lives (g_lives g - e_damage e) g in
        update_enemy this (fun e => set_e_deathTime now (set_e_isDead true e)) g
      else g
  end.

(** [Enemy.update]. *)
Definition update (now : Z) (random : nat -> Q) (deltaTime : Q)
    (this : nat) (g : GameState) : option GameState :=
  match g_store g !! this with
  | None => Some g
  | Some e =>
      if e_isDead e then Some g
      else
        let e := updateStatusEffects deltaTime e in
        match updateSpecialAbilities deltaTime e with
        | None => None
        | Some e =>
            let g := set_g_store (<[this := e]> (g_store g)) g in
            let g := updateMovement now random deltaTime this g in
            let g := update_enemy this updateAI g in
            Some (checkEndReached now this g)
        end
  end.

End WithHost.

End Enemy.

(** ** [Boss] *)

Module Boss.

(** [Boss.initializeBossBehavior]. *)
Definition initializeBossBehavior (e : EnemyObj) (b : BossExt) : EnemyObj :=
  if String.eqb (e_type e) "raidTeam" then
    set_e_boss
      (Some (set_b_empBlastTimer 8000 (set_b_minionSpawnTimer 3000 b)))
      (set_e_specialAbilityCooldown 5000 e)
  else if String.eqb (e_type e) "megaCorpTitan" then
    set_e_boss
      (Some (set_b_shieldHealth (b_maxShieldHealth b)
               (set_b_shieldActive true (set_b_shieldRegenTimer 6000 b))))
      (set_e_specialAbilityCooldown 4000 e)
  else set_e_boss (Some b) e.

(** The body of the constructor after [super(game, x, y, type)] returned
    [base], once [CONFIG.BOSS_TYPES[type]] is known. *)
Definition init (base : EnemyObj) (bossConfig : BossConfig) : EnemyObj :=
  let e :=
    set_e_reward (bc_reward bossConfig)
      (set_e_damage 5
         (set_e_baseSpeed (bc_speed bossConfig)
            (set_e_speed (bc_speed bossConfig)
               (set_e_maxHealth (bc_health bossConfig)
                  (set_e_health (bc_health bossConfig) base))))) in
  let e :=
    set_e_specialAbilityDuration 0
      (set_e_specialAbilityActive false (set_e_specialAbilityCooldown 0 e)) in
  initializeBossBehavior e
    {| b_phases := bc_phases bossConfig; b_currentPhase := 1;
       b_phaseHealthThreshold :=
         e_maxHealth e / inject_Z (bc_phases bossConfig);
       b_size := bc_size bossConfig;
       b_minionSpawnTimer := 0; b_empBlastTimer := 0;
       b_shieldRegenTimer := 0;
       b_shieldActive := false; b_shieldHealth := 0;
       b_maxShieldHealth := 100 |}.

(** [new Boss(game, x, y, type)]: the [Enemy] constructor runs first and
    looks [type] up in [CONFIG.ENEMY_TYPES]; then [this.bossConfig.health]
    needs [type] in [CONFIG.BOSS_TYPES]. *)
Definition new (g : GameState) (x y : Q) (type : string) : option EnemyObj :=
  match Enemy.new g x y type with
  | Some base =>
      match JS.prop CONFIG.BOSS_TYPES type with
      | Some bossConfig => Some (init base bossConfig)
      | None => None
      end
  | None => None
  end.

(** [Boss.onPhaseChange]. *)
Definition onPhaseChange (e : EnemyObj) : EnemyObj :=
  set_e_specialAbilityCooldown 0
    (set_e_damage (JS.floor (inject_Z (e_damage e) * 1.3))
       (set_e_speed (e_speed e * 1.2) e)).

(** [Boss.updatePhases].  The methods of [Boss] act on an object that has
    the [Boss] fields; on any other object they are not defined and the
    embedding leaves it as it is. *)
Definition updatePhases (e : EnemyObj) : EnemyObj :=
  match e_boss e with
  | None => e
  | Some b =>
      let newPhase :=
        JS.ceil ((1 - e_health e / e_maxHealth e) * inject_Z (b_phases b)) in
      if (b_currentPhase b <? newPhase)%Z
      then onPhaseChange (set_e_boss (Some (set_b_currentPhase newPhase b)) e)
      else e
  end.

(** [Boss.takeDamage(amount, damageType = 'fire')]. *)
Definition takeDamage (now : Z) (amount : Q) (damageType : string)
    (e : EnemyObj) : EnemyObj :=
  match e_boss e with
  | None => e
  | Some b =>
      let '(b, amount) :=
        if b_shieldActive b && JS.gt (b_shieldHealth b) 0 then
          let shieldDamage := Qmin amount (b_shieldHealth b) in
          let b := set_b_shieldHealth (b_shieldHealth b - shieldDamage) b in
          let amount := amount - shieldDamage in
          if JS.le (b_shieldHealth b) 0
          then (set_b_shieldHealth 0 (set_b_shieldActive false b), amount)
          else (b, amount)
        else (b, amount) in
      let e := set_e_boss (Some b) e in
      if JS.gt amount 0 then Enemy.takeDamage now amount damageType e else e
  end.

Section WithHost.
Context `{Host}.

(** The [Boss] fields of [this], changed by [f]. *)
Definition update_boss (this : nat) (f : BossExt -> BossExt)
    (g : GameState) : GameState :=
  update_enemy this
    (fun e => match e_boss e with
              | Some b => set_e_boss (Some (f b)) e
              | None => e
              end) g.

(** The loop of [Boss.spawnMinions] from minion [i] on; [None] if
    [new Enemy] throws. *)
Fixpoint spawnMinionsFrom (count : nat) (minionCount : Z) (x y : Q) (i : Z)
    (g : GameState) : option GameState :=
  match count with
  | O => Some g
  | S count' =>
      let spawnRadius := 50 in
      let angle := (Math_PI * 2 * inject_Z i) / inject_Z minionCount in
      let spawnX := x + Math_cos angle * spawnRadius in
      let spawnY := y + Math_sin angle * spawnRadius in
      match Enemy.new g spawnX spawnY "scriptKiddie" with
      | None => None
      | Some minion =>
          let minion := set_e_health 15 minion in
          let minion := set_e_maxHealth 15 minion in
          let minion := set_e_speed 60 minion in
          spawnMinionsFrom count' minionCount x y (i + 1) (push_enemy minion g)
      end
  end.

(** [Boss.spawnMinions]. *)
Definition spawnMinions (this : nat) (g : GameState) : option GameState :=
  match g_store g !! this with
  | None => Some g
  | Some e =>
      match e_boss e with
      | None => Some g
      | Some b =>
          let minionCount := (3 + b_currentPhase b)%Z in
          spawnMinionsFrom (Z.to_nat minionCount) minionCount
            (e_x e) (e_y e) 0 g
      end
  end.

(** [Boss.performEMPBlast]. *)
Definition performEMPBlast (now : Z) (this : nat) (g : GameState) : GameState :=
  match g_store g !! this with
  | None => g
  | Some e =>
      set_g_defenses
        (map
           (fun defense =>
              let distance :=
                Utils.distance (e_x e) (e_y e)
                               (d_centerX defense) (d_centerY defense) in
              if JS.le distance 200
              then Defense.applyDebuff now "emp" 3000 defense
              else defense)
           (g_defenses g)) g
  end.

(** [Boss.regenerateShield]. *)
Definition regenerateShield (b : BossExt) : BossExt :=
  let b := if negb (b_shieldActive b) then set_b_shieldActive true b else b in
  set_b_shieldHealth (Qmin (b_maxShieldHealth b) (b_shieldHealth b + 50)) b.

(** [Boss.performMarketManipulation]. *)
Definition performMarketManipulation (g : GameState) : GameState :=
  let resources := g_resources g in
  let stolenDharma := JS.floor (inject_Z (dharma resources) * 0.1) in
  let stolenBandwidth := JS.floor (inject_Z (bandwidth resources) * 0.1) in
  let stolenAnonymity := JS.floor (inject_Z (anonymity resources) * 0.1) in
  set_g_resources
    {| dharma := Z.max 0 (dharma resources - stolenDharma);
       bandwidth := Z.max 0 (bandwidth resources - stolenBandwidth);
       anonymity := Z.max 0 (anonymity resources - stolenAnonymity) |} g.

(** [Boss.updateRaidTeamBehavior]. *)
Definition updateRaidTeamBehavior (now : Z) (deltaTime : Q) (this : nat)
    (g : GameState) : option GameState :=
  match g_store g !! this with
  | None => Some g
  | Some e =>
      match e_boss e with
      | None => Some g
      | Some b =>
          let afterMinions :=
            if JS.gt (b_minionSpawnTimer b) 0 then
              Some (update_boss this
                      (fun b => set_b_minionSpawnTimer
                                  (b_minionSpawnTimer b - deltaTime) b) g)
            else
              match spawnMinions this g with
              | None => None
              | Some g => Some (update_boss this (set_b_minionSpawnTimer 5000) g)
              end in
          match afterMinions with
          | None => None
          | Some g =>
              if JS.gt (b_empBlastTimer b) 0 then
                Some (update_boss this
                        (fun b => set_b_empBlastTimer
                                    (b_empBlastTimer b - deltaTime) b) g)
              else
                Some (update_boss this (set_b_empBlastTimer 10000)
                        (performEMPBlast now this g))
          end
      end
  end.

(** [Boss.updateMegaCorpTitanBehavior]; [random] is its call of
    [Math.random()]. *)
Definition updateMegaCorpTitanBehavior (random : Q) (deltaTime : Q)
    (this : nat) (g : GameState) : GameState :=
  let g :=
    update_boss this
      (fun b =>
         if JS.gt (b_shieldRegenTimer b) 0
         then set_b_shieldRegenTimer (b_shieldRegenTimer b - deltaTime) b
         else set_b_shieldRegenTimer 8000 (regenerateShield b)) g in
  if JS.lt random 0.01 then performMarketManipulation g else g.

(** [Boss.updateBossBehavior]. *)
Definition updateBossBehavior (now : Z) (random : Q) (deltaTime : Q)
    (this : nat) (g : GameState) : option GameState :=
  match g_store g !! this with
  | None => Some g
  | Some e =>
      if String.eqb (e_type e) "raidTeam" then
        updateRaidTeamBehavior now deltaTime this g
      else if String.eqb (e_type e) "megaCorpTitan" then
        Some (updateMegaCorpTitanBehavior random deltaTime this g)
      else Some g
  end.

(** [Boss.update].  The titan's draw in [updateMegaCorpTitanBehavior]
    comes after the draws of the movement, of which the plain movement of
    a raid team or a titan has none. *)
Definition update (now : Z) (random : nat -> Q) (deltaTime : Q)
    (this : nat) (g : GameState) : option GameState :=
  match g_store g !! this with
  | None => Some g
  | Some e =>
      if e_isDead e then Some g
      else
        let e := Enemy.updateStatusEffects deltaTime e in
        let e := updatePhases e in
        match Enemy.updateSpecialAbilities deltaTime e with
        | None => None
        | Some e =>
            let drawn :=
              if String.eqb (e_type e) "scriptKiddie" then 2%nat
              else if String.eqb (e_type e) "corporateSaboteur"
                      && negb (Enemy.hasStatusEffect "stealthed" e) then 1%nat
              else if String.eqb (e_type e) "quantumHacker" then 1%nat
              else 0%nat in
            let g := set_g_store (<[this := e]> (g_store g)) g in
            let g := Enemy.updateMovement now random deltaTime this g in
            match updateBossBehavior now (random drawn) deltaTime this g with
            | None => None
            | Some g => Some (Enemy.checkEndReached now this g)
            end
        end
  end.

End WithHost.

End Boss.

(** [enemy.takeDamage(...)] on an object that is an [Enemy] or a [Boss]. *)
Definition call_takeDamage (now : Z) (amount : Q) (damageType : string)
    (e : EnemyObj) : EnemyObj :=
  match e_boss e with
  | Some _ => Boss.takeDamage now amount damageType e
  | None => Enemy.takeDamage now amount damageType e
  end.

(** [enemy.update(deltaTime)] on an object that is an [Enemy] or a [Boss]. *)
Definition call_update `{Host} (now : Z) (random : nat -> Q) (deltaTime : Q)
    (this : nat) (g : GameState) : option GameState :=
  match g_store g !! this with
  | None => Some g
  | Some e =>
      match e_boss e with
      | Some _ => Boss.update now random deltaTime this g
      | None => Enemy.update now random deltaTime this g
      end
  end.

(** ** [Projectile] *)

Module Projectile.
Section WithHost.
Context `{Host}.

(** [Projectile.initializeSpecialProperties]. *)
Definition initializeSpecialProperties (p : ProjectileObj) : ProjectileObj :=
  if String.eqb (p_type p) "firewall" then set_p_radius 4 p
  else if String.eqb (p_type p) "encryption" then
    set_p_radius 3 (set_p_piercing true (set_p_speed (p_speed p * 0.8) p))
  else if String.eqb (p_type p) "mirror" then
    set_p_radius 5 (set_p_speed (p_speed p * 1.2) p)
  else if String.eqb (p_type p) "anonymity" then
    set_p_radius 3 (set_p_homing true p)
  else if String.eqb (p_type p) "distributor" then
    set_p_radius 6 (set_p_splashRadius 50 (set_p_splash true p))
  else p.

(** [Projectile.updateVelocity]. *)
Definition updateVelocity (g : GameState) (p : ProjectileObj) : ProjectileObj :=
  match p_target p with
  | None => p
  | Some t =>
      match g_store g !! t with
      | None => p
      | Some target =>
          if e_isDead target then p
          else
            let dx := e_x target - p_x p in
            let dy := e_y target - p_y p in
            let distance := Math_sqrt (dx * dx + dy * dy) in
            if JS.gt distance 0 then
              set_p_vy ((dy / distance) * p_speed p)
                (set_p_vx ((dx / distance) * p_speed p) p)
            else p
      end
  end.

(** [new Projectile(game, x, y, target, damage, speed, color, type)]. *)
Definition new (g : GameState) (x y : Q) (target : option nat)
    (damage speed : Q) (type : string) : ProjectileObj :=
  updateVelocity g
    (initializeSpecialProperties
       {| p_x := x; p_y := y; p_target := target; p_damage := damage;
          p_speed := speed; p_type := type; p_vx := 0; p_vy := 0;
          p_radius := 4; p_isActive := true; p_piercing := false;
          p_homing := false; p_splash := false; p_splashRadius := 0;
          p_piercedTargets := ∅ |}).

(** [Projectile.applyBuff]: a [switch] with four cases and no default. *)
Definition applyBuff (buffType : string) (duration : Q)
    (p : ProjectileObj) : ProjectileObj :=
  if String.eqb buffType "speed" then set_p_speed (p_speed p * 1.5) p
  else if String.eqb buffType "damage" then set_p_damage (p_damage p * 1.5) p
  else if String.eqb buffType "piercing" then set_p_piercing true p
  else if String.eqb buffType "homing" then set_p_homing true p
  else p.

(** [Projectile.applySplashDamage]; [t] is [this.target]. *)
Definition applySplashDamage (now : Z) (t : nat) (p : ProjectileObj)
    (g : GameState) : GameState :=
  fold_left
    (fun g r =>
       if Nat.eqb r t then g
       else
         match g_store g !! r with
         | None => g
         | Some enemy =>
             let distance := Utils.distance (p_x p) (p_y p) (e_x enemy) (e_y enemy) in
             if JS.le distance (p_splashRadius p) then
               let splashDamage := p_damage p * 0.5 in
               update_enemy r (call_takeDamage now splashDamage "fire") g
             else g
         end)
    (g_enemies g) g.

(** [Projectile.boostNearbyDefenses]. *)
Definition boostNearbyDefenses (now : Z) (p : ProjectileObj)
    (g : GameState) : GameState :=
  let range := 100 in
  set_g_defenses
    (map
       (fun defense =>
          let distance :=
            Utils.distance (p_x p) (p_y p) (d_centerX defense) (d_centerY defense) in
          if JS.le distance range
          then Defense.applyBuff now "boosted" 1000 defense
          else defense)
       (g_defenses g)) g.

(** [Projectile.applySpecialEffects]; the [mirror] case only draws. *)
Definition applySpecialEffects (now : Z) (t : nat) (p : ProjectileObj)
    (g : GameState) : GameState :=
  if String.eqb (p_type p) "encryption" then
    update_enemy t (Enemy.applyStatusEffect now "scrambled" 1000) g
  else if String.eqb (p_type p) "anonymity" then
    update_enemy t (Enemy.applyStatusEffect now "stealthed" 500) g
  else if String.eqb (p_type p) "distributor" then
    boostNearbyDefenses now p g
  else g.

(** [Projectile.hit]. *)
Definition hit (now : Z) (p : ProjectileObj) (g : GameState)
    : ProjectileObj * GameState :=
  match p_target p with
  | None => (p, g)
  | Some t =>
      match g_store g !! t with
      | None => (p, g)
      | Some target =>
          if e_isDead target then (p, g)
          else if p_piercing p && bool_decide (t ∈ p_piercedTargets p) then (p, g)
          else
            let g := update_enemy t (call_takeDamage now (p_damage p) "fire") g in
            let p :=
              if p_piercing p
              then set_p_piercedTargets ({[t]} ∪ p_piercedTargets p) p
              else p in
            let g := if p_splash p then applySplashDamage now t p g else g in
            let g := applySpecialEffects now t p g in
            let p := if p_piercing p then p else set_p_isActive false p in
            (p, g)
      end
  end.

(** [Projectile.findNewTarget]. *)
Definition findNewTarget (p : ProjectileObj) (g : GameState) : ProjectileObj :=
  if negb (p_homing p) then p
  else
    let nearest :=
      fold_left
        (fun (nearest : option (nat * Q)) r =>
           match g_store g !! r with
           | None => nearest
           | Some enemy =>
               if e_isDead enemy then nearest
               else
                 let distance :=
                   Utils.distance (p_x p) (p_y p) (e_x enemy) (e_y enemy) in
                 match nearest with
                 | None => Some (r, distance)
                 | Some (_, nearestDistance) =>
                     if JS.lt distance nearestDistance
                     then Some (r, distance) else nearest
                 end
           end)
        (g_enemies g) None in
    set_p_target (fst <$> nearest) p.

(** [Projectile.checkCollisions].  With [target.radius] undefined the sum
    of the radii is [NaN] and the comparison is false. *)
Definition checkCollisions (now : Z) (p : ProjectileObj) (g : GameState)
    : ProjectileObj * GameState :=
  let retarget := (findNewTarget p g, g) in
  match p_target p with
  | None => retarget
  | Some t =>
      match g_store g !! t with
      | None => retarget
      | Some target =>
          if e_isDead target then retarget
          else
            let distance :=
              Utils.distance (p_x p) (p_y p) (e_x target) (e_y target) in
            match e_radius target with
            | Some radius =>
                if JS.le distance (radius + p_radius p) then hit now p g
                else (p, g)
            | None => (p, g)
            end
      end
  end.

(** [Projectile.checkBounds]. *)
Definition checkBounds (g : GameState) (p : ProjectileObj) : ProjectileObj :=
  let margin := 50 in
  if JS.lt (p_x p) (- margin) || JS.gt (p_x p) (g_width g + margin)
     || JS.lt (p_y p) (- margin) || JS.gt (p_y p) (g_height g + margin)
  then set_p_isActive false p
  else p.

(** [Projectile.update]. *)
Definition update (now : Z) (deltaTime : Q) (p : ProjectileObj)
    (g : GameState) : ProjectileObj * GameState :=
  if negb (p_isActive p) then (p, g)
  else
    let p := if p_homing p then updateVelocity g p else p in
    let p := set_p_x (p_x p + p_vx p * deltaTime * 0.001) p in
    let p := set_p_y (p_y p + p_vy p * deltaTime * 0.001) p in
    let '(p, g) := checkCollisions now p g in
    (checkBounds g p, g).

End WithHost.
End Projectile.

(** ** [Defense]: the update, firing and special abilities *)

Module DefenseActions.
Section WithHost.
Context `{Host}.

(** The defense at index [this] of [game.defenses], changed by [f]. *)
Definition update_defense (this : nat) (f : DefenseObj -> DefenseObj)
    (g : GameState) : GameState :=
  set_g_defenses (alter f this (g_defenses g)) g.

(** [Defense.updateBuffs] and [Defense.updateDebuffs]. *)
Definition updateBuffs (deltaTime : Q) (d : DefenseObj) : DefenseObj :=
  set_d_buffs (tickEffects deltaTime (d_buffs d)) d.

Definition updateDebuffs (deltaTime : Q) (d : DefenseObj) : DefenseObj :=
  set_d_debuffs (tickEffects deltaTime (d_debuffs d)) d.

(** [Defense.deactivateSpecialAbility]. *)
Definition deactivateSpecialAbility (d : DefenseObj) : DefenseObj :=
  set_d_specialAbilityDuration 0 (set_d_specialAbilityActive false d).

(** [Defense.updateSpecialAbility]. *)
Definition updateSpecialAbility (deltaTime : Q) (d : DefenseObj) : DefenseObj :=
  let d :=
    if d_specialAbilityActive d then
      let d :=
        set_d_specialAbilityDuration (d_specialAbilityDuration d - deltaTime) d in
      if JS.le (d_specialAbilityDuration d) 0
      then deactivateSpecialAbility d else d
    else d in
  if JS.gt (d_specialAbilityCooldown d) 0
  then set_d_specialAbilityCooldown (d_specialAbilityCooldown d - deltaTime) d
  else d.

(** [Defense.updateTargeting]; the rest of the method turns the turret. *)
Definition updateTargeting (g : GameState) (d : DefenseObj) : DefenseObj :=
  if String.eqb (dc_special (d_config d)) "decoy" then d
  else if negb (Defense.isValidTarget g (d_target d) d)
  then set_d_target (Defense.findBestTarget d g) d
  else d.

(** [Defense.scrambleNearbyEnemies]: [applyDebuff] is not a method of an
    enemy, so the call throws at the first enemy in range. *)
Definition scrambleNearbyEnemies (d : DefenseObj) (g : GameState)
    : option GameState :=
  let range := d_range d * 0.5 in
  if existsb
       (fun r =>
          match g_store g !! r with
          | None => false
          | Some enemy =>
              JS.le (Utils.distance (d_centerX d) (d_centerY d)
                                    (e_x enemy) (e_y enemy)) range
          end)
       (g_enemies g)
  then None
  else Some g.

(** [Defense.cloakNearbyDefenses] and [Defense.boostNearbyDefenses]. *)
Definition buffNearbyDefenses (now : Z) (factor : Q) (buffType : string)
    (duration : Q) (this : nat) (d : DefenseObj) (g : GameState) : GameState :=
  let range := d_range d * factor in
  set_g_defenses
    (imap
       (fun j defense =>
          if negb (Nat.eqb j this) then
            let distance :=
              Utils.distance (d_centerX d) (d_centerY d)
                             (d_centerX defense) (d_centerY defense) in
            if JS.le distance range
            then Defense.applyBuff now buffType duration defense
            else defense
          else defense)
       (g_defenses g)) g.

Definition cloakNearbyDefenses (now : Z) (this : nat) (d : DefenseObj)
    (g : GameState) : GameState :=
  buffNearbyDefenses now 0.7 "cloaked" 3000 this d g.

Definition boostNearbyDefenses (now : Z) (this : nat) (d : DefenseObj)
    (g : GameState) : GameState :=
  buffNearbyDefenses now 0.8 "boosted" 2000 this d g.

(** [Defense.applyFireEffects]; the [mirror] case only draws. *)
Definition applyFireEffects (now : Z) (this : nat) (d : DefenseObj)
    (g : GameState) : option GameState :=
  if String.eqb (d_type d) "encryption" then scrambleNearbyEnemies d g
  else if String.eqb (d_type d) "anonymity" then
    Some (cloakNearbyDefenses now this d g)
  else if String.eqb (d_type d) "distributor" then
    Some (boostNearbyDefenses now this d g)
  else Some g.

(** [Defense.fire]. *)
Definition fire (now : Z) (this : nat) (g : GameState) : option GameState :=
  match g_defenses g !! this with
  | None => Some g
  | Some d =>
      match d_target d with
      | None => Some g
      | Some _ =>
          let projectile :=
            Projectile.new g (d_centerX d) (d_centerY d) (d_target d)
              (inject_Z (Defense.getDamage d)) (Defense.getProjectileSpeed d)
              (d_type d) in
          let g := set_g_projectiles (g_projectiles g ++ [projectile]) g in
          applyFireEffects now this d g
      end
  end.

(** [Defense.updateFiring]; [now] is [Date.now()]. *)
Definition updateFiring (now : Z) (this : nat) (g : GameState)
    : option GameState :=
  match g_defenses g !! this with
  | None => Some g
  | Some d =>
      if String.eqb (dc_special (d_config d)) "decoy" then Some g
      else
        let currentTime := now in
        let fireRate := Defense.getFireRate d in
        if Defense.isValidTarget g (d_target d) d
           && JS.ge (inject_Z (currentTime - d_lastFireTime d)) fireRate
        then
          match fire now this g with
          | None => None
          | Some g => Some (update_defense this (set_d_lastFireTime currentTime) g)
          end
        else Some g
  end.

(** [Defense.update]. *)
Definition update (now : Z) (deltaTime : Q) (this : nat) (g : GameState)
    : option GameState :=
  match g_defenses g !! this with
  | None => Some g
  | Some d =>
      if negb (d_isActive d) then Some g
      else
        let d := updateBuffs deltaTime d in
        let d := updateDebuffs deltaTime d in
        let d := updateSpecialAbility deltaTime d in
        let d := updateTargeting g d in
        let g := update_defense this (fun _ => d) g in
        updateFiring now this g
  end.

(** [Defense.encryptAllProjectiles]. *)
Definition encryptAllProjectiles (g : GameState) : GameState :=
  set_g_projectiles
    (map (Projectile.applyBuff "encrypted" 3000) (g_projectiles g)) g.

(** [Defense.createCloakField]. *)
Definition createCloakField (now : Z) (d : DefenseObj) (g : GameState)
    : GameState :=
  let range := d_range d * 1.5 in
  set_g_defenses
    (map
       (fun defense =>
          let distance :=
            Utils.distance (d_centerX d) (d_centerY d)
                           (d_centerX defense) (d_centerY defense) in
          if JS.le distance range
          then Defense.applyBuff now "cloaked" (d_specialAbilityDuration d) defense
          else defense)
       (g_defenses g)) g.

(** [Defense.applySpecialAbilityEffects].  The barrier of the firewall is
    drawn only, and [game.resourceBoost], which the distributor sets, is
    read nowhere. *)
Definition applySpecialAbilityEffects (now : Z) (this : nat) (g : GameState)
    : GameState :=
  match g_defenses g !! this with
  | None => g
  | Some d =>
      if String.eqb (d_type d) "encryption" then encryptAllProjectiles g
      else if String.eqb (d_type d) "mirror" then
        update_defense this
          (fun d => Defense.applyBuff now "reflection"
                      (d_specialAbilityDuration d) d) g
      else if String.eqb (d_type d) "anonymity" then createCloakField now d g
      else g
  end.

(** [Defense.activateSpecialAbility]. *)
Definition activateSpecialAbility (now : Z) (this : nat) (g : GameState)
    : GameState :=
  match g_defenses g !! this with
  | None => g
  | Some d =>
      if negb (JS.le (d_specialAbilityCooldown d) 0) then g
      else
        let g :=
          update_defense this
            (fun d =>
               set_d_specialAbilityCooldown 30000
                 (set_d_specialAbilityDuration 5000
                    (set_d_specialAbilityActive true d))) g in
        applySpecialAbilityEffects now this g
  end.

End WithHost.
End DefenseActions.

(** ** [Level]: the wave plan and spawning *)

(** A call [spawnEnemy(type, health)] that [spawnEnemyGroup] hands to
    [setTimeout], with its delay from the start of the wave. *)
Record SpawnCall := {
  sc_after : Q;
  sc_type : string;
  sc_health : option Q
}.

Module Level.

Definition maxWaves : nat := 20.

Definition ofNat (n : nat) : Q := inject_Z (Z.of_nat n).

(** The inner loop of [generateWaveConfigs] for a regular wave [i], from
    index [j] on; [random k] is the value of the [k]-th call of
    [Math.random()] and the second component counts the calls. *)
Fixpoint regularGroups (i : nat) (enemySpawnDelay : Q) (len : nat)
    (enemyTypes : list string) (j : nat) (random : nat -> Q) (k : nat)
    : list EnemyGroup * nat :=
  match enemyTypes with
  | [] => ([], k)
  | enemyType :: rest =>
      let difficulty := ofNat i / 10 in
      let baseCount := JS.floor (3 + ofNat i * 0.5) in
      let variance := JS.floor (ofNat i * 0.3) in
      let count := (baseCount + JS.floor (random k * inject_Z variance))%Z in
      let '(groups, k') :=
        regularGroups i enemySpawnDelay len rest (S j) random (S k) in
      if (Z.of_nat j <=? JS.floor (difficulty * ofNat len))%Z then
        ({| grp_type := enemyType; grp_count := Z.max 1 count;
            grp_delay := enemySpawnDelay;
            grp_health := Some (1 + difficulty * 0.5) |} :: groups, k')
      else (groups, k')
  end.

(** The body of the outer loop of [generateWaveConfigs]: the plan of wave
    [i]. *)
Definition waveConfig (i : nat) (random : nat -> Q) (k : nat)
    : WaveConfig * nat :=
  let bossWave := Nat.eqb (i mod 5) 0 in
  if bossWave then
    let bossType := if (i <=? 10)%nat then "raidTeam" else "megaCorpTitan" in
    ({| wc_wave := i;
        wc_enemies :=
          [ {| grp_type := bossType; grp_count := 1; grp_delay := 2000;
               grp_health := Some (1 + (ofNat i - 5) * 0.2) |};
            {| grp_type := "scriptKiddie"; grp_count := 5 + Z.of_nat i;
               grp_delay := 500; grp_health := None |} ];
        wc_delayBetweenWaves := CONFIG.WAVE_DELAY;
        wc_bossWave := bossWave |}, k)
  else
    let enemyTypes := JS.keys CONFIG.ENEMY_TYPES in
    let '(groups, k') :=
      regularGroups i CONFIG.ENEMY_SPAWN_DELAY (length enemyTypes)
        enemyTypes 0 random k in
    ({| wc_wave := i; wc_enemies := groups;
        wc_delayBetweenWaves := CONFIG.WAVE_DELAY;
        wc_bossWave := bossWave |}, k').

Fixpoint waveConfigsFrom (waves : list nat) (random : nat -> Q) (k : nat)
    : list WaveConfig :=
  match waves with
  | [] => []
  | i :: rest =>
      let '(config, k') := waveConfig i random k in
      config :: waveConfigsFrom rest random k'
  end.

(** [Level.generateWaveConfigs]. *)
Definition generateWaveConfigs (random : nat -> Q) : list WaveConfig :=
  waveConfigsFrom (seq 1 maxWaves) random 0.

(** [Level.spawnEnemy(enemyType, healthMultiplier = 1)].  The lookup in
    [CONFIG.ENEMY_TYPES] comes first and returns for an unknown type. *)
Definition spawnEnemy (enemyType : string) (healthMultiplier : option Q)
    (g : GameState) : option GameState :=
  let healthMultiplier := default 1 healthMultiplier in
  match JS.prop CONFIG.ENEMY_TYPES enemyType with
  | None => Some g
  | Some enemyConfig =>
      match g_path g !! 0%nat with
      | None => None
      | Some start =>
          let made :=
            match JS.prop CONFIG.BOSS_TYPES enemyType with
            | Some bossConfig =>
                match Boss.new g (pt_x start) (pt_y start) enemyType with
                | Some enemy =>
                    let enemy :=
                      set_e_health (bc_health bossConfig * healthMultiplier) enemy in
                    Some (set_e_maxHealth (e_health enemy) enemy)
                | None => None
                end
            | None =>
                match Enemy.new g (pt_x start) (pt_y start) enemyType with
                | Some enemy =>
                    let enemy :=
                      set_e_health (ec_health enemyConfig * healthMultiplier) enemy in
                    Some (set_e_maxHealth (e_health enemy) enemy)
                | None => None
                end
            end in
          match made with
          | None => None
          | Some enemy =>
              let g := push_enemy enemy g in
              Some (set_g_enemiesSpawned (g_enemiesSpawned g + 1) g)
          end
      end
  end.

(** The timers [spawnEnemyGroup(groupIndex)] sets for the groups from
    [groupIndex] on: spawn [i] of a group [i * delay] after the group
    starts, the next group [count * delay + 1000] after it. *)
Fixpoint spawnEnemyGroup (groups : list EnemyGroup) (start : Q)
    : list SpawnCall :=
  match groups with
  | [] => []
  | enemyGroup :: rest =>
      map (fun i =>
             {| sc_after := start + ofNat i * grp_delay enemyGroup;
                sc_type := grp_type enemyGroup;
                sc_health := grp_health enemyGroup |})
          (seq 0 (Z.to_nat (grp_count enemyGroup)))
      ++ spawnEnemyGroup rest
           (start + inject_Z (grp_count enemyGroup) * grp_delay enemyGroup + 1000)
  end.

(** [Level.startWave]: the new state and the timers it sets. *)
Definition startWave (waveNumber : nat) (g : GameState)
    : GameState * list SpawnCall :=
  if (maxWaves <? waveNumber)%nat then (set_g_isVictory true g, [])
  else
    let g := set_g_currentWave waveNumber g in
    let g := set_g_waveInProgress true g in
    let g := set_g_enemiesSpawned 0 g in
    let g := set_g_enemiesToSpawn 0 g in
    match g_waveConfigs g !! (waveNumber - 1)%nat with
    | None => (g, [])
    | Some waveConfig =>
        let g :=
          fold_left
            (fun g enemyGroup =>
               set_g_enemiesToSpawn (g_enemiesToSpawn g + grp_count enemyGroup) g)
            (wc_enemies waveConfig) g in
        (g, spawnEnemyGroup (wc_enemies waveConfig) 0)
    end.

(** The timers of a wave firing in order; [None] when a callback throws. *)
Fixpoint runSpawns (calls : list SpawnCall) (g : GameState) : option GameState :=
  match calls with
  | [] => Some g
  | call :: rest =>
      match spawnEnemy (sc_type call) (sc_health call) g with
      | Some g' => runSpawns rest g'
      | None => None
      end
  end.

(** [Level.completeWave]; the new value of [this.waveTimer] is
    [CONFIG.WAVE_DELAY].  [checkAchievement('wavesCompleted', ...)] names
    no registered achievement. *)
Definition completeWave (g : GameState) : GameState :=
  let g := set_g_waveInProgress false g in
  let baseBonus := 50%Z in
  let waveBonus := (Z.of_nat (g_currentWave g) * 10)%Z in
  let totalBonus := (baseBonus + waveBonus)%Z in
  set_g_resources
    {| dharma := dharma (g_resources g) + totalBonus;
       bandwidth :=
         bandwidth (g_resources g) + JS.floor (inject_Z totalBonus * 0.5);
       anonymity :=
         anonymity (g_resources g) + JS.floor (inject_Z totalBonus * 0.3) |} g.

(** [Level.update], with [this.waveTimer] passed in and out and the timers
    a started wave sets handed back. *)
Definition update (deltaTime : Q) (waveTimer : Q) (g : GameState)
    : GameState * Q * list SpawnCall :=
  let '(g, waveTimer, calls) :=
    if JS.gt waveTimer 0 then
      let waveTimer := waveTimer - deltaTime in
      if JS.le waveTimer 0 && negb (g_waveInProgress g) then
        let '(g, calls) := startWave (g_currentWave g + 1) g in
        (g, waveTimer, calls)
      else (g, waveTimer, [])
    else (g, waveTimer, []) in
  if g_waveInProgress g
     && (g_enemiesToSpawn g <=? g_enemiesSpawned g)%Z
     && Nat.eqb (length (g_enemies g)) 0
  then (completeWave g, CONFIG.WAVE_DELAY, calls)
  else (g, waveTimer, calls).

End Level.
(** ** [Game]: the economy *)

Module Game.

(** The state the [Game] and [Level] constructors set up, with the canvas
    size, the path and the wave plan of the level given. *)
Definition new (width height : Q) (path : list Point)
    (waveConfigs : list WaveConfig) : GameState :=
  {| g_width := width; g_height := height;
     g_resources := initialResources;
     g_lives := CONFIG.INITIAL_LIVES; g_score := 0; g_isGameOver := false;
     g_enemies := []; g_store := ∅; g_nextRef := 0;
     g_projectiles := []; g_defenses := [];
     g_path := path; g_waveConfigs := waveConfigs; g_currentWave := 0%nat;
     g_waveInProgress := false; g_enemiesSpawned := 0; g_enemiesToSpawn := 0;
     g_isVictory := false |}.

(** [Game.addResources]. *)
Definition addResources (resources : Resources) (g : GameState) : GameState :=
  set_g_resources
    (fold_left
       (fun acc '(resource, amount) =>
          Res.set acc resource (Res.get acc resource + amount)%Z)
       (Res.entries resources) (g_resources g)) g.

(** [Game.canAfford]: the loop returns [false] at the first entry whose
    balance is below the amount. *)
Fixpoint canAffordEntries (r : Resources) (es : list (ResourceKey * Z)) : bool :=
  match es with
  | [] => true
  | (resource, amount) :: rest =>
      if (Res.get r resource <? amount)%Z then false
      else canAffordEntries r rest
  end.

Definition canAfford (cost : Resources) (g : GameState) : bool :=
  canAffordEntries (g_resources g) (Res.entries cost).

(** [Game.spendResources]. *)
Definition spendResources (cost : Resources) (g : GameState) : GameState :=
  set_g_resources
    (fold_left
       (fun acc '(resource, amount) =>
          Res.set acc resource (Res.get acc resource - amount)%Z)
       (Res.entries cost) (g_resources g)) g.

Section WithHost.
Context `{Host}.

(** [Game.gameOver]. *)
Definition gameOver (g : GameState) : GameState := set_g_isGameOver true g.

(** [Game.onEnemyKilled].  [checkAchievement('enemiesKilled', ...)] names
    no registered achievement and returns at once. *)
Definition onEnemyKilled (enemy : EnemyObj) (g : GameState) : GameState :=
  let g := addResources (e_reward enemy) g in
  let scoreValue :=
    match e_scoreValue enemy with
    | Some v => if (v =? 0)%Z then 10%Z else v
    | None => 10%Z
    end in
  set_g_score (g_score g + scoreValue)%Z g.

(** [Game.onEnemyReachedEnd]. *)
Definition onEnemyReachedEnd (enemy : EnemyObj) (g : GameState) : GameState :=
  let g := set_g_lives (g_lives g - 1) g in
  if (g_lives g <=? 0)%Z then gameOver g else g.

(** The loop of [Game.updateEnemies] over the indices below [n], from the
    highest down; [random i] are the draws of [enemies[i].update]. *)
Fixpoint updateEnemiesBelow (n : nat) (now : Z) (random : nat -> nat -> Q)
    (deltaTime : Q) (g : GameState) : option GameState :=
  match n with
  | O => Some g
  | S i =>
      match g_enemies g !! i with
      | None => updateEnemiesBelow i now random deltaTime g
      | Some r =>
          match call_update now (random i) deltaTime r g with
          | None => None
          | Some g =>
              match g_store g !! r with
              | None => updateEnemiesBelow i now random deltaTime g
              | Some enemy =>
                  if e_isDead enemy then
                    let g := onEnemyKilled enemy g in
                    let g := set_g_enemies (delete i (g_enemies g)) g in
                    updateEnemiesBelow i now random deltaTime g
                  else if e_reachedEnd enemy then
                    let g := onEnemyReachedEnd enemy g in
                    let g := set_g_enemies (delete i (g_enemies g)) g in
                    updateEnemiesBelow i now random deltaTime g
                  else updateEnemiesBelow i now random deltaTime g
              end
          end
      end
  end.

(** [Game.updateEnemies]. *)
Definition updateEnemies (now : Z) (random : nat -> nat -> Q) (deltaTime : Q)
    (g : GameState) : option GameState :=
  updateEnemiesBelow (length (g_enemies g)) now random deltaTime g.

(** The loop of [Game.checkProjectileCollisions] over the enemies left. *)
Fixpoint checkCollisionsWith (enemies : list nat) (now : Z)
    (projectile : ProjectileObj) (g : GameState) : ProjectileObj * GameState :=
  match enemies with
  | [] => (projectile, g)
  | r :: rest =>
      match g_store g !! r with
      | None => checkCollisionsWith rest now projectile g
      | Some enemy =>
          if Utils.circleCollision
               (p_x projectile) (p_y projectile) (p_radius projectile)
               (e_x enemy) (e_y enemy) (e_radius enemy)
          then
            let g :=
              update_enemy r
                (call_takeDamage now (p_damage projectile) "fire") g in
            Projectile.hit now projectile g
          else checkCollisionsWith rest now projectile g
      end
  end.

(** [Game.checkProjectileCollisions]. *)
Definition checkProjectileCollisions (now : Z) (projectile : ProjectileObj)
    (g : GameState) : ProjectileObj * GameState :=
  checkCollisionsWith (g_enemies g) now projectile g.

(** The loop of [Game.updateProjectiles]: the array is walked from its
    last element to its first, an inactive projectile is spliced out, and
    the projectiles kept stay in their order. *)
Fixpoint updateProjectilesIn (projectiles : list ProjectileObj) (now : Z)
    (deltaTime : Q) (g : GameState) : list ProjectileObj * GameState :=
  match projectiles with
  | [] => ([], g)
  | projectile :: earlier =>
      let '(kept, g) := updateProjectilesIn earlier now deltaTime g in
      let '(projectile, g) := Projectile.update now deltaTime projectile g in
      if negb (p_isActive projectile) then (kept, g)
      else
        let '(projectile, g) := checkProjectileCollisions now projectile g in
        (projectile :: kept, g)
  end.

(** [Game.updateProjectiles]. *)
Definition updateProjectiles (now : Z) (deltaTime : Q) (g : GameState)
    : GameState :=
  let '(kept, g) := updateProjectilesIn (g_projectiles g) now deltaTime g in
  set_g_projectiles kept g.

(** The loop of [Game.updateDefenses] from index [i] on. *)
Fixpoint updateDefensesFrom (count : nat) (i : nat) (now : Z) (deltaTime : Q)
    (g : GameState) : option GameState :=
  match count with
  | O => Some g
  | S count' =>
      match DefenseActions.update now deltaTime i g with
      | None => None
      | Some g => updateDefensesFrom count' (S i) now deltaTime g
      end
  end.

(** [Game.updateDefenses]. *)
Definition updateDefenses (now : Z) (deltaTime : Q) (g : GameState)
    : option GameState :=
  updateDefensesFrom (length (g_defenses g)) 0 now deltaTime g.

(** [Game.checkGameOver]. *)
Definition checkGameOver (g : GameState) : GameState :=
  if (g_lives g <=? 0)%Z && negb (g_isGameOver g) then gameOver g else g.

End WithHost.

End Game.

(** ** [DefenseManager]: placing, upgrading and saving

    [DefenseManager.defenses] and [game.defenses] get the same defenses
    pushed and removed together; they are the one list [g_defenses]. *)

Module Placement.
Section WithHost.
Context `{Host}.

(** [this.placementCooldown]. *)
Definition placementCooldown : Q := 500.

(** The snap to the grid: [Math.floor(x / GRID_SIZE) * GRID_SIZE]. *)
Definition snap (x : Q) : Q := inject_Z (JS.floor (x / GRID_SIZE)) * GRID_SIZE.

(** [DefenseManager.isValidPlacement]; the type is not used. *)
Definition isValidPlacement (x y : Q) (defenseType : string)
    (g : GameState) : bool :=
  let gridX := snap x in
  let gridY := snap y in
  if JS.lt gridX 0 || JS.ge gridX (g_width g)
     || JS.lt gridY 0 || JS.ge gridY (g_height g) then false
  else if existsb
            (fun defense =>
               Qeq_bool (d_x defense) gridX && Qeq_bool (d_y defense) gridY)
            (g_defenses g) then false
  else if LevelPath.isOnPath (g_path g) gridX gridY then false
  else
    let minSpacing := GRID_SIZE in
    if existsb
         (fun defense =>
            JS.lt (Utils.distance gridX gridY (d_x defense) (d_y defense))
                  minSpacing)
         (g_defenses g) then false
    else true.

(** [DefenseManager.tryPlaceDefense]; [defenseType] is what
    [uiManager.getSelectedDefenseType()] returns and the second components
    are [this.lastPlacementTime] before and after.
    [checkAchievement('defensesBuilt', ...)] names no registered
    achievement. *)
Definition tryPlaceDefense (x y : Q) (defenseType : string)
    (lastPlacementTime : Q) (g : GameState) : GameState * Q :=
  if JS.gt lastPlacementTime 0 then (g, lastPlacementTime)
  else
    match JS.prop CONFIG.DEFENSE_TYPES defenseType with
    | None => (g, lastPlacementTime)
    | Some defenseConfig =>
        if negb (Game.canAfford (dc_cost defenseConfig) g)
        then (g, lastPlacementTime)
        else if negb (isValidPlacement x y defenseType g)
        then (g, lastPlacementTime)
        else
          let gridX := snap x in
          let gridY := snap y in
          let defense := Defense.init gridX gridY defenseType defenseConfig in
          let g := set_g_defenses (g_defenses g ++ [defense]) g in
          let g := Game.spendResources (dc_cost defenseConfig) g in
          (g, placementCooldown)
    end.

(** [DefenseManager.upgradeDefense], for the defense at index [this]. *)
Definition upgradeDefense (this : nat) (g : GameState) : GameState :=
  match g_defenses g !! this with
  | None => g
  | Some defense =>
      if Defense.canUpgrade defense then
        let upgradeCost := Defense.getUpgradeCost defense in
        if Game.canAfford upgradeCost g then
          let g := Game.spendResources upgradeCost g in
          DefenseActions.update_defense this Defense.upgrade g
        else g
      else g
  end.

(** [DefenseManager.getDefenseAt]. *)
Definition getDefenseAt (x y : Q) (g : GameState) : option DefenseObj :=
  List.find
    (fun defense =>
       Utils.pointInRect x y (d_x defense) (d_y defense) GRID_SIZE GRID_SIZE)
    (g_defenses g).

(** [DefenseManager.getSaveData]. *)
Definition getSaveData (g : GameState) : list DefenseSave :=
  map Defense.getSaveData (g_defenses g).

(** The loop of [DefenseManager.loadSaveData]; [None] when [new Defense]
    throws. *)
Fixpoint loadDefenses (saveData : list DefenseSave)
    : option (list DefenseObj) :=
  match saveData with
  | [] => Some []
  | defenseData :: rest =>
      match Defense.new (sd_x defenseData) (sd_y defenseData)
                        (sd_type defenseData) with
      | None => None
      | Some defense =>
          match loadDefenses rest with
          | None => None
          | Some defenses =>
              Some (Defense.loadSaveData defenseData defense :: defenses)
          end
      end
  end.

(** [DefenseManager.loadSaveData]. *)
Definition loadSaveData (saveData : list DefenseSave) (g : GameState)
    : option GameState :=
  match loadDefenses saveData with
  | None => None
  | Some defenses => Some (set_g_defenses defenses g)
  end.

End WithHost.
End Placement.

(** ** Example objects *)

Module Examples.

(** A straight three-point path. *)
Definition path : list Point :=
  [ {| pt_x := 0; pt_y := 400 |}; {| pt_x := 600; pt_y := 400 |};
    {| pt_x := 1200; pt_y := 400 |} ].

(** The object the [Boss] constructor body assigns for a key [type] of
    [CONFIG.BOSS_TYPES].  [CONFIG.ENEMY_TYPES] has no entry for a boss, so
    the inherited fields are started from the boss's own numbers, which
    [Boss.init] assigns in any case. *)
Definition boss (type : string) (bossConfig : BossConfig) : EnemyObj :=
  Boss.init
    (Enemy.init path 0 400 type
       {| ec_health := bc_health bossConfig; ec_speed := bc_speed bossConfig;
          ec_reward := bc_reward bossConfig; ec_size := bc_size bossConfig;
          ec_special := bc_special bossConfig |})
    bossConfig.

Definition titanConfig : BossConfig :=
  {| bc_health := 800; bc_speed := 20; bc_reward := mkResources 200 120 80;
     bc_size := 50; bc_phases := 4; bc_special := "shield" |}.

Definition titan : EnemyObj :=
  Eval vm_compute in (boss "megaCorpTitan" titanConfig).

(** The [Boss] fields of [titan]: the shield is active, at 100 of 100. *)
Definition titanExt : BossExt :=
  {| b_phases := 4; b_currentPhase := 1; b_phaseHealthThreshold := 800 / 4;
     b_size := 50; b_minionSpawnTimer := 0; b_empBlastTimer := 0;
     b_shieldRegenTimer := 6000; b_shieldActive := true;
     b_shieldHealth := 100; b_maxShieldHealth := 100 |}.

(** The plan when every draw is 0, and a new game on [path]. *)
Definition waves : list WaveConfig :=
  Eval vm_compute in (Level.generateWaveConfigs (fun _ => 0)).

Definition game0 : GameState :=
  Eval vm_compute in (Game.new 1200 800 path waves).

(** An enemy of a type of [CONFIG.ENEMY_TYPES], as [new Enemy] makes it at
    the first point of [path]. *)
Definition enemy (type : string) : EnemyObj :=
  default
    (Enemy.init path 0 400 type
       {| ec_health := 0; ec_speed := 0; ec_reward := mkResources 0 0 0;
          ec_size := 0; ec_special := "" |})
    (Enemy.new game0 0 400 type).

(** A defense as [new Defense] makes it on a wide window. *)
Definition defense (x y : Q) (type : string) : DefenseObj :=
  default
    (Defense.init (H := exactHost) x y type
       {| dc_cost := mkResources 0 0 0; dc_damage := 0; dc_range := 0;
          dc_fireRate := 0; dc_projectileSpeed := 0; dc_special := "" |})
    (Defense.new (H := exactHost) x y type).

(** A saboteur that has walked to (20, 400) and is stealthed, with a
    firewall in the cell below the path: its center (20, 460) is 60 away. *)
Definition saboteur : EnemyObj :=
  Eval vm_compute in
    (Enemy.applyStatusEffect 0 "stealthed" 2000
       (set_e_x 20 (enemy "corporateSaboteur"))).

Definition stealthGame : GameState :=
  Eval vm_compute in
    (set_g_defenses [defense 0 440 "firewall"] (push_enemy saboteur game0)).

(** The same game with the firewall locked on the saboteur. *)
Definition aimedGame : GameState :=
  Eval vm_compute in
    (set_g_defenses [set_d_target (Some 0%nat) (defense 0 440 "firewall")]
       (push_enemy (set_e_x 20 (enemy "corporateSaboteur")) game0)).

(** A game whose one enemy is a corrupted monk of health 100 that has
    walked to (20, 400), and the shot a new defense of a type fires at the
    first enemy of a game, arrived at (20, 400). *)
Definition monkGame : GameState :=
  Eval vm_compute in (push_enemy (set_e_x 20 (enemy "corruptedMonk")) game0).

Definition shot (g : GameState) (type : string) : ProjectileObj :=
  let d := defense 0 440 type in
  set_p_y 400
    (set_p_x 20
       (Projectile.new (H := exactHost) g (d_centerX d) (d_centerY d)
          (Some 0%nat) (inject_Z (Defense.getDamage d))
          (Defense.getProjectileSpeed d) type)).

(** A script kiddie standing on the last point of [path], which is its
    target, in a game without defenses. *)
Definition arrived : EnemyObj :=
  Eval vm_compute in
    (set_e_x 1200 (Enemy.updateTarget path (enemy "scriptKiddie"))).

Definition arrivalGame : GameState :=
  Eval vm_compute in (push_enemy arrived game0).

End Examples.


(** Reduce field reads of updated records, and nothing else. *)
Ltac fields :=
  cbn [dharma bandwidth anonymity dc_cost dc_damage dc_range dc_fireRate
       dc_projectileSpeed dc_special ec_health ec_speed ec_reward ec_size
       ec_special bc_health bc_speed bc_reward bc_size bc_phases bc_special
       eff_type eff_duration eff_startTime pt_x pt_y b_phases
       b_currentPhase b_phaseHealthThreshold b_size b_minionSpawnTimer
       b_empBlastTimer b_shieldRegenTimer b_shieldActive b_shieldHealth
       b_maxShieldHealth e_x e_y e_type e_health e_maxHealth e_speed
       e_baseSpeed e_damage e_reward e_pathIndex e_progress e_targetX
       e_targetY e_reachedEnd e_isDead e_deathTime e_resistance
       e_specialAbilityCooldown e_specialAbilityActive
       e_specialAbilityDuration e_statusEffects e_targetPriority
       e_threatLevel e_radius e_scoreValue e_boss p_x p_y p_target p_damage
       p_speed p_type p_vx p_vy p_radius p_isActive p_piercing p_homing
       p_splash p_splashRadius p_piercedTargets d_x d_y d_type d_config
       d_level d_maxLevel d_experience d_experienceToNextLevel d_damage
       d_range d_fireRate d_lastFireTime d_target d_specialAbilityCooldown
       d_specialAbilityActive d_specialAbilityDuration d_buffs d_debuffs
       d_isActive d_gridX d_gridY d_centerX d_centerY grp_type grp_count
       grp_delay grp_health wc_wave wc_enemies wc_delayBetweenWaves
       wc_bossWave g_width g_height g_resources g_lives g_score
       g_isGameOver g_enemies g_store g_nextRef g_projectiles g_defenses
       g_path g_waveConfigs g_currentWave g_waveInProgress g_enemiesSpawned
       g_enemiesToSpawn g_isVictory sd_x sd_y sd_type sd_level
       sd_experience sd_experienceToNextLevel sd_buffs sd_debuffs sc_after
       sc_type sc_health set_b_currentPhase set_b_shieldActive
       set_b_shieldHealth set_b_minionSpawnTimer set_b_empBlastTimer
       set_b_shieldRegenTimer set_e_x set_e_y set_e_health set_e_maxHealth
       set_e_speed set_e_baseSpeed set_e_damage set_e_reward
       set_e_pathIndex set_e_progress set_e_targetX set_e_targetY
       set_e_reachedEnd set_e_isDead set_e_deathTime
       set_e_specialAbilityCooldown set_e_specialAbilityActive
       set_e_specialAbilityDuration set_e_statusEffects
       set_e_targetPriority set_e_threatLevel set_e_boss set_p_x set_p_y
       set_p_target set_p_damage set_p_speed set_p_vx set_p_vy set_p_radius
       set_p_isActive set_p_piercing set_p_homing set_p_splash
       set_p_splashRadius set_p_piercedTargets set_d_x set_d_y set_d_type
       set_d_level set_d_experience set_d_experienceToNextLevel
       set_d_damage set_d_range set_d_fireRate set_d_lastFireTime
       set_d_target set_d_specialAbilityCooldown set_d_specialAbilityActive
       set_d_specialAbilityDuration set_d_isActive set_d_buffs
       set_d_debuffs set_d_gridX set_d_gridY set_d_centerX set_d_centerY
       set_g_resources set_g_lives set_g_score set_g_isGameOver
       set_g_enemies set_g_store set_g_nextRef set_g_projectiles
       set_g_defenses set_g_enemiesSpawned set_g_enemiesToSpawn
       set_g_currentWave set_g_waveInProgress set_g_isVictory].

Tactic Notation "fields" "in" hyp(H) :=
  cbn [dharma bandwidth anonymity dc_cost dc_damage dc_range dc_fireRate
       dc_projectileSpeed dc_special ec_health ec_speed ec_reward ec_size
       ec_special bc_health bc_speed bc_reward bc_size bc_phases bc_special
       eff_type eff_duration eff_startTime pt_x pt_y b_phases
       b_currentPhase b_phaseHealthThreshold b_size b_minionSpawnTimer
       b_empBlastTimer b_shieldRegenTimer b_shieldActive b_shieldHealth
       b_maxShieldHealth e_x e_y e_type e_health e_maxHealth e_speed
       e_baseSpeed e_damage e_reward e_pathIndex e_progress e_targetX
       e_targetY e_reachedEnd e_isDead e_deathTime e_resistance
       e_specialAbilityCooldown e_specialAbilityActive
       e_specialAbilityDuration e_statusEffects e_targetPriority
       e_threatLevel e_radius e_scoreValue e_boss p_x p_y p_target p_damage
       p_speed p_type p_vx p_vy p_radius p_isActive p_piercing p_homing
       p_splash p_splashRadius p_piercedTargets d_x d_y d_type d_config
       d_level d_maxLevel d_experience d_experienceToNextLevel d_damage
       d_range d_fireRate d_lastFireTime d_target d_specialAbilityCooldown
       d_specialAbilityActive d_specialAbilityDuration d_buffs d_debuffs
       d_isActive d_gridX d_gridY d_centerX d_centerY grp_type grp_count
       grp_delay grp_health wc_wave wc_enemies wc_delayBetweenWaves
       wc_bossWave g_width g_height g_resources g_lives g_score
       g_isGameOver g_enemies g_store g_nextRef g_projectiles g_defenses
       g_path g_waveConfigs g_currentWave g_waveInProgress g_enemiesSpawned
       g_enemiesToSpawn g_isVictory sd_x sd_y sd_type sd_level
       sd_experience sd_experienceToNextLevel sd_buffs sd_debuffs sc_after
       sc_type sc_health set_b_currentPhase set_b_shieldActive
       set_b_shieldHealth set_b_minionSpawnTimer set_b_empBlastTimer
       set_b_shieldRegenTimer set_e_x set_e_y set_e_health set_e_maxHealth
       set_e_speed set_e_baseSpeed set_e_damage set_e_reward
       set_e_pathIndex set_e_progress set_e_targetX set_e_targetY
       set_e_reachedEnd set_e_isDead set_e_deathTime
       set_e_specialAbilityCooldown set_e_specialAbilityActive
       set_e_specialAbilityDuration set_e_statusEffects
       set_e_targetPriority set_e_threatLevel set_e_boss set_p_x set_p_y
       set_p_target set_p_damage set_p_speed set_p_vx set_p_vy set_p_radius
       set_p_isActive set_p_piercing set_p_homing set_p_splash
       set_p_splashRadius set_p_piercedTargets set_d_x set_d_y set_d_type
       set_d_level set_d_experience set_d_experienceToNextLevel
       set_d_damage set_d_range set_d_fireRate set_d_lastFireTime
       set_d_target set_d_specialAbilityCooldown set_d_specialAbilityActive
       set_d_specialAbilityDuration set_d_isActive set_d_buffs
       set_d_debuffs set_d_gridX set_d_gridY set_d_centerX set_d_centerY
       set_g_resources set_g_lives set_g_score set_g_isGameOver
       set_g_enemies set_g_store set_g_nextRef set_g_projectiles
       set_g_defenses set_g_enemiesSpawned set_g_enemiesToSpawn
       set_g_currentWave set_g_waveInProgress set_g_isVictory] in H.

(** * Properties *)

(** ** Comparisons *)

Lemma JS_lt_iff (a b : Q) : JS.lt a b = true <-> a < b.
Proof.
  unfold JS.lt. rewrite negb_true_iff, <- not_true_iff_false, Qle_bool_iff.
  split; [apply Qnot_le_lt | apply Qlt_not_le].
Qed.

Lemma JS_le_iff (a b : Q) : JS.le a b = true <-> a <= b.
Proof. apply Qle_bool_iff. Qed.

Lemma JS_lt_false_iff (a b : Q) : JS.lt a b = false <-> b <= a.
Proof.
  unfold JS.lt. rewrite negb_false_iff. apply Qle_bool_iff.
Qed.

Lemma JS_le_false_iff (a b : Q) : JS.le a b = false <-> b < a.
Proof.
  unfold JS.le. rewrite <- not_true_iff_false, Qle_bool_iff.
  split; [apply Qnot_le_lt | apply Qlt_not_le].
Qed.


(** ** The economy *)

Module EconomySpec.

Lemma spendResources_resources (cost : Resources) (g : GameState) :
  g_resources (Game.spendResources cost g) =
  mkResources (dharma (g_resources g) - dharma cost)
              (bandwidth (g_resources g) - bandwidth cost)
              (anonymity (g_resources g) - anonymity cost).
Proof. destruct g as [? ? [] ? ? ? ? ? ? ? ? ? ? ? ? ? ? ?], cost; reflexivity. Qed.

Lemma canAfford_true (cost : Resources) (g : GameState) :
  Game.canAfford cost g = true <->
  (dharma cost <= dharma (g_resources g) /\
   bandwidth cost <= bandwidth (g_resources g) /\
   anonymity cost <= anonymity (g_resources g))%Z.
Proof.
  unfold Game.canAfford, Res.entries; cbn [Game.canAffordEntries Res.get].
  repeat match goal with
         | |- context [(?a <? ?b)%Z] => destruct (Z.ltb_spec a b)
         end; split; intros; try discriminate; try reflexivity; lia.
Qed.

(** C10.  [spendResources] subtracts every component of the cost from its
    balance, with no clamp; when [canAfford] holds the three balances are
    non-negative afterwards; and there are a cost and a state for which
    [canAfford] fails and a balance ends below zero. *)
Theorem spendResources_spec (cost : Resources) (g : GameState) :
  g_resources (Game.spendResources cost g) =
    mkResources (dharma (g_resources g) - dharma cost)
                (bandwidth (g_resources g) - bandwidth cost)
                (anonymity (g_resources g) - anonymity cost)
  /\ (Game.canAfford cost g = true ->
      (0 <= dharma (g_resources (Game.spendResources cost g)) /\
       0 <= bandwidth (g_resources (Game.spendResources cost g)) /\
       0 <= anonymity (g_resources (Game.spendResources cost g)))%Z)
  /\ (exists cost' g',
        Game.canAfford cost' g' = false /\
        (bandwidth (g_resources (Game.spendResources cost' g')) < 0)%Z).
Proof.
  split; [apply spendResources_resources |].
  split.
  - intros Hafford. apply canAfford_true in Hafford.
    rewrite spendResources_resources; cbn [dharma bandwidth anonymity]. lia.
  - exists (mkResources 100 60 30), (Game.new 1200 800 [] []).
    split; [reflexivity | vm_compute; reflexivity].
Qed.

Lemma spendResources_spec_witness :
  Game.canAfford (mkResources 25 0 0) (Game.new 1200 800 [] []) = true /\
  g_resources (Game.spendResources (mkResources 25 0 0) (Game.new 1200 800 [] []))
    = mkResources 75 50 75 /\
  (0 <= dharma (g_resources
          (Game.spendResources (mkResources 25 0 0) (Game.new 1200 800 [] []))))%Z.
Proof.
  split; [reflexivity |].
  split; [reflexivity |].
  apply (proj1 (proj2 (spendResources_spec (mkResources 25 0 0)
                         (Game.new 1200 800 [] [])))).
  reflexivity.
Defined.

End EconomySpec.

(** ** Status effects and buffs *)

Module EffectSpec.

(** C7, as the specification has it, fails: a saboteur stealthed for 2000 ms
    that is hit by an anonymity projectile ([stealthed], 500 ms) is left
    with 500 ms, not with the maximum of the two. *)
Lemma reapply_shortens :
  let e0 := Enemy.init [] 0 0 "corporateSaboteur"
              {| ec_health := 35; ec_speed := 70;
                 ec_reward := mkResources 15 8 5; ec_size := 16;
                 ec_special := "stealth" |} in
  let e1 := Enemy.applyStatusEffect 0 "stealthed" 2000 e0 in
  let e2 := Enemy.applyStatusEffect 10 "stealthed" 500 e1 in
  (eff_duration <$> e_statusEffects e1 !! "stealthed") = Some 2000 /\
  (eff_duration <$> e_statusEffects e2 !! "stealthed") = Some 500 /\
  ~ (500 == Qmax 2000 500).
Proof.
  split; [reflexivity |]. split; [reflexivity |].
  intros Heq. vm_compute in Heq. discriminate.
Qed.

(** C7, amended.  Applying an effect stores the requested duration,
    whatever duration an active effect of that kind had; the effects of
    other kinds are untouched; and the table holds one entry per kind. *)
Theorem apply_overwrites (now : Z) (kind : string) (duration : Q)
    (e : EnemyObj) (d : DefenseObj) :
  let eff := {| eff_type := kind; eff_duration := duration;
                eff_startTime := now |} in
  let e' := Enemy.applyStatusEffect now kind duration e in
  let d1 := Defense.applyBuff now kind duration d in
  let d2 := Defense.applyDebuff now kind duration d in
  (e_statusEffects e' !! kind = Some eff /\
   delete kind (e_statusEffects e') = delete kind (e_statusEffects e) /\
   NoDup (map_to_list (e_statusEffects e')).*1) /\
  (d_buffs d1 !! kind = Some eff /\
   delete kind (d_buffs d1) = delete kind (d_buffs d) /\
   NoDup (map_to_list (d_buffs d1)).*1) /\
  (d_debuffs d2 !! kind = Some eff /\
   delete kind (d_debuffs d2) = delete kind (d_debuffs d) /\
   NoDup (map_to_list (d_debuffs d2)).*1).
Proof.
  cbn zeta.
  repeat split;
    first [ apply lookup_insert_eq
          | apply delete_insert_eq
          | apply NoDup_fst_map_to_list ].
Qed.

End EffectSpec.

(** ** Boss shield *)

(** Case analysis on a comparison of the code, keeping the order fact. *)
Ltac js_case :=
  match goal with
  | |- context [JS.le ?a ?b] =>
      let H := fresh "Hcmp" in
      destruct (JS.le a b) eqn:H;
      [apply JS_le_iff in H | apply JS_le_false_iff in H]
  | |- context [JS.gt ?a ?b] =>
      let H := fresh "Hcmp" in
      unfold JS.gt;
      destruct (JS.lt b a) eqn:H;
      [apply JS_lt_iff in H | apply JS_lt_false_iff in H]
  | |- context [JS.lt ?a ?b] =>
      let H := fresh "Hcmp" in
      destruct (JS.lt a b) eqn:H;
      [apply JS_lt_iff in H | apply JS_lt_false_iff in H]
  end.

Module ShieldSpec.

Lemma defaultResistance_factor (damageType : string) :
  JS.or_undefined (JS.prop Enemy.defaultResistance damageType) 1 == 1.
Proof.
  unfold Enemy.defaultResistance; cbn [JS.prop].
  repeat (destruct (String.eqb damageType _); [reflexivity |]).
  reflexivity.
Qed.

Lemma takeDamage_health (now : Z) (amount : Q) (damageType : string)
    (e : EnemyObj) :
  e_resistance e = Enemy.defaultResistance ->
  e_health (Enemy.takeDamage now amount damageType e) == e_health e - amount.
Proof.
  intros Hres. unfold Enemy.takeDamage. rewrite Hres.
  pose proof (defaultResistance_factor damageType) as Hone.
  remember (JS.or_undefined (JS.prop Enemy.defaultResistance damageType) 1)
    as resistance eqn:Hdef.
  clear Hdef. cbn zeta.
  match goal with
  | |- context [if ?c then _ else _] => destruct c
  end; unfold Enemy.die; fields; rewrite Hone; ring.
Qed.

Lemma takeDamage_boss (now : Z) (amount : Q) (damageType : string)
    (e : EnemyObj) :
  e_boss (Enemy.takeDamage now amount damageType e) = e_boss e.
Proof.
  unfold Enemy.takeDamage. cbn zeta.
  match goal with
  | |- context [if ?c then _ else _] => destruct c
  end; reflexivity.
Qed.

(** C8.  A boss whose shield is active with health [s > 0] and that takes
    [d] damage loses [min d s] of shield and [max 0 (d - s)] of health; the
    shield is switched off and left at 0 exactly when [d] reaches [s]. *)
Theorem shield_absorbs_first (now : Z) (d : Q) (damageType : string)
    (e : EnemyObj) (b : BossExt) :
  e_boss e = Some b ->
  b_shieldActive b = true ->
  0 < b_shieldHealth b ->
  e_resistance e = Enemy.defaultResistance ->
  exists b',
    e_boss (Boss.takeDamage now d damageType e) = Some b' /\
    b_shieldHealth b' == b_shieldHealth b - Qmin d (b_shieldHealth b) /\
    e_health (Boss.takeDamage now d damageType e)
      == e_health e - Qmax 0 (d - b_shieldHealth b) /\
    (b_shieldHealth b <= d -> b_shieldActive b' = false /\ b_shieldHealth b' = 0) /\
    (d < b_shieldHealth b -> b_shieldActive b' = true).
Proof.
  intros Hboss Hactive Hpos Hres.
  unfold Boss.takeDamage. rewrite Hboss, Hactive.
  assert (Hgt : JS.gt (b_shieldHealth b) 0 = true) by (apply JS_lt_iff; exact Hpos).
  rewrite Hgt. cbn [andb].
  destruct (Qlt_le_dec d (b_shieldHealth b)) as [Hlt | Hge].
  - (* the shield holds *)
    assert (Hmin : Qmin d (b_shieldHealth b) == d) by (apply Q.min_l; lra).
    assert (Hmax : Qmax 0 (d - b_shieldHealth b) == 0) by (apply Q.max_l; lra).
    fields.
    js_case; [exfalso; lra |].
    js_case; [exfalso; lra |].
    eexists; split; [reflexivity |]. fields.
    repeat split; intros;
      first [reflexivity | assumption | lra | exfalso; lra].
  - (* the shield breaks *)
    assert (Hmin : Qmin d (b_shieldHealth b) == b_shieldHealth b)
      by (apply Q.min_r; lra).
    assert (Hmax : Qmax 0 (d - b_shieldHealth b) == d - b_shieldHealth b)
      by (apply Q.max_r; lra).
    fields.
    js_case; [| exfalso; lra].
    js_case.
    + rewrite takeDamage_boss. eexists; split; [reflexivity |].
      rewrite takeDamage_health by exact Hres. fields.
      repeat split; intros;
        first [reflexivity | assumption | lra | exfalso; lra].
    + eexists; split; [reflexivity |]. fields.
      repeat split; intros;
        first [reflexivity | assumption | lra | exfalso; lra].
Qed.

(** The scenario of the specification: a titan at full shield (100) hit
    for 120 ends with the shield off and at 0, and with health 780. *)
Lemma shield_absorbs_first_witness :
  exists b',
    e_boss (Boss.takeDamage 0 120 "fire" Examples.titan) = Some b' /\
    b_shieldHealth b' == 100 - Qmin 120 100 /\
    e_health (Boss.takeDamage 0 120 "fire" Examples.titan)
      == 800 - Qmax 0 (120 - 100) /\
    (100 <= 120 -> b_shieldActive b' = false /\ b_shieldHealth b' = 0) /\
    (120 < 100 -> b_shieldActive b' = true).
Proof.
  refine (shield_absorbs_first 0 120 "fire" Examples.titan Examples.titanExt
            _ _ _ _); vm_compute; reflexivity.
Defined.

End ShieldSpec.

(** ** Projectile buffs *)

Module ProjectileBuffSpec.

Lemma set_g_projectiles_same (g : GameState) :
  set_g_projectiles (g_projectiles g) g = g.
Proof. destruct g; reflexivity. Qed.

(** C9.  [applyBuff] with a kind other than [speed], [damage], [piercing]
    and [homing] returns the projectile as it was; so does the
    [encrypted] buff, and the special ability of the encryption defense,
    which applies it to every projectile, leaves the game unchanged. *)
Theorem applyBuff_other_kind (buffType : string) (duration : Q)
    (p : ProjectileObj) (g : GameState) :
  (buffType <> "speed" -> buffType <> "damage" ->
   buffType <> "piercing" -> buffType <> "homing" ->
   Projectile.applyBuff buffType duration p = p)
  /\ Projectile.applyBuff "encrypted" 3000 p = p
  /\ DefenseActions.encryptAllProjectiles g = g.
Proof.
  split; [| split].
  - intros Hs Hd Hp Hh. unfold Projectile.applyBuff.
    destruct (String.eqb_spec buffType "speed"); [contradiction |].
    destruct (String.eqb_spec buffType "damage"); [contradiction |].
    destruct (String.eqb_spec buffType "piercing"); [contradiction |].
    destruct (String.eqb_spec buffType "homing"); [contradiction |].
    reflexivity.
  - reflexivity.
  - unfold DefenseActions.encryptAllProjectiles.
    rewrite (map_ext _ (fun q => q)) by reflexivity.
    rewrite map_id. apply set_g_projectiles_same.
Qed.

Lemma applyBuff_other_kind_witness :
  Projectile.applyBuff "reflection" 5000
    (Examples.shot Examples.game0 "encryption")
  = Examples.shot Examples.game0 "encryption".
Proof.
  apply (proj1 (applyBuff_other_kind "reflection" 5000
                  (Examples.shot Examples.game0 "encryption") Examples.game0));
    discriminate.
Defined.

End ProjectileBuffSpec.

(** ** Damage per projectile *)

Module DamageSpec.
Section WithHost.
Context `{Host}.

Lemma addExperienceLoop_done (fuel : nat) (d : DefenseObj) :
  (d_maxLevel d - d_level d <= Z.of_nat fuel)%Z ->
  let d' := Defense.addExperienceLoop fuel d in
  (d_experienceToNextLevel d' <=? d_experience d')%Z && Defense.canUpgrade d'
  = false.
Proof.
  revert d. induction fuel as [| fuel IH]; intros d Hfuel; cbn zeta.
  - cbn [Defense.addExperienceLoop]. unfold Defense.canUpgrade.
    rewrite andb_false_iff. right. apply Z.ltb_ge. lia.
  - cbn [Defense.addExperienceLoop].
    destruct ((d_experienceToNextLevel d <=? d_experience d)%Z
              && Defense.canUpgrade d) eqn:Hcond; [| exact Hcond].
    apply IH. fields. lia.
Qed.

(** The fuel of [addExperience] never runs out: when it returns, the
    condition of the [while] loop is false. *)
Lemma addExperience_loop_done (amount : Z) (d : DefenseObj) :
  let d' := Defense.addExperience amount d in
  (d_experienceToNextLevel d' <=? d_experience d')%Z && Defense.canUpgrade d'
  = false.
Proof.
  unfold Defense.addExperience. apply addExperienceLoop_done. fields. lia.
Qed.

(** [getDamage] is the floor of the stored [damage] times the two factors. *)
Lemma getDamage_formula (d : DefenseObj) :
  Defense.getDamage d =
  JS.floor (d_damage d
            * (if Defense.hasBuff "boosted" d then 1.5 else 1)
            * (if Defense.hasDebuff "weakened" d then 0.7 else 1)).
Proof.
  unfold Defense.getDamage.
  destruct (Defense.hasBuff "boosted" d), (Defense.hasDebuff "weakened" d);
    cbn zeta; unfold JS.floor; apply Qfloor_comp; ring.
Qed.

(** C5 on the code.  A new encryption defense is at level 1 and delivers
    25 per projectile, where the claim has [floor (25 * 1.2) = 30]; saving
    and loading that very defense makes it 30; and two upgrades bring the
    defense to level 4 with the damage of level 3 (40, where the claim has
    45). *)
Theorem new_defense_damage :
  exists d : DefenseObj,
    Defense.new 0 0 "encryption" = Some d /\
    d_level d = 1%Z /\
    Defense.hasBuff "boosted" d = false /\
    Defense.hasDebuff "weakened" d = false /\
    Defense.getDamage d = 25%Z /\
    JS.floor (25 * (1 + 0.2 * 1)) = 30%Z /\
    Defense.getDamage (Defense.loadSaveData (Defense.getSaveData d) d) = 30%Z /\
    d_level (Defense.upgrade (Defense.upgrade d)) = 4%Z /\
    Defense.getDamage (Defense.upgrade (Defense.upgrade d)) = 40%Z /\
    JS.floor (25 * (1 + 0.2 * 4)) = 45%Z.
Proof.
  eexists. split; [reflexivity |].
  repeat split; vm_compute; reflexivity.
Qed.

End WithHost.
End DamageSpec.

(** ** Boss types *)

Module WaveSpec.

Lemma boss_type_is_no_enemy_type (type : string) (config : EnemyConfig) :
  JS.prop CONFIG.ENEMY_TYPES type = Some config ->
  JS.prop CONFIG.BOSS_TYPES type = None.
Proof.
  unfold CONFIG.ENEMY_TYPES; cbn [JS.prop].
  repeat match goal with
         | |- context [String.eqb type ?s] =>
             destruct (String.eqb_spec type s) as [-> | _];
             [intros _; reflexivity |]
         end.
  discriminate.
Qed.

(** [new Boss(...)] throws for every type: the inherited constructor needs
    the type among the enemies, the boss constructor among the bosses. *)
Lemma Boss_new_throws (g : GameState) (x y : Q) (type : string) :
  Boss.new g x y type = None.
Proof.
  unfold Boss.new, Enemy.new.
  destruct (JS.prop CONFIG.ENEMY_TYPES type) as [config |] eqn:Hcfg;
    [| reflexivity].
  rewrite (boss_type_is_no_enemy_type _ _ Hcfg). reflexivity.
Qed.

(** [spawnEnemy] returns without spawning when handed a boss type. *)
Lemma spawnEnemy_boss_type (healthMultiplier : option Q) (g : GameState) :
  Level.spawnEnemy "raidTeam" healthMultiplier g = Some g /\
  Level.spawnEnemy "megaCorpTitan" healthMultiplier g = Some g.
Proof. split; reflexivity. Qed.

End WaveSpec.

(** ** Target acquisition *)


Module TargetingSpec.


Section WithHost.
Context `{Host}.




End WithHost.


End TargetingSpec.

(** ** Random draws and the clock *)

Module DeterminismSpec.

(** C2, as the specification has it, fails.  With the same enemy, the same
    [deltaTime] and the same clock, a draw of 0.005 leaves the saboteur
    stealthed and a draw of 0.5 does not; with the same state, a firewall
    whose last shot was at 0 fires when [Date.now()] is 2000 and does not
    when it is 500; and the plan of wave 7 has 6 enemies a group when
    every draw is 0 and 7 when every draw is 0.99. *)
Lemma runs_differ :
  Enemy.hasStatusEffect "stealthed"
    (Enemy.updateStealthMovement (H := exactHost) 0 0.005 Examples.path 16 70
       (Examples.enemy "corporateSaboteur")) = true /\
  Enemy.hasStatusEffect "stealthed"
    (Enemy.updateStealthMovement (H := exactHost) 0 0.5 Examples.path 16 70
       (Examples.enemy "corporateSaboteur")) = false /\
  (length <$> (g_projectiles <$>
     DefenseActions.updateFiring (H := exactHost) 2000 0 Examples.aimedGame))
    = Some 1%nat /\
  (length <$> (g_projectiles <$>
     DefenseActions.updateFiring (H := exactHost) 500 0 Examples.aimedGame))
    = Some 0%nat /\
  (map grp_count <$> (wc_enemies <$>
     Level.generateWaveConfigs (fun _ => 0) !! 6%nat))
    = Some [6; 6; 6; 6; 6]%Z /\
  (map grp_count <$> (wc_enemies <$>
     Level.generateWaveConfigs (fun _ => 0.99) !! 6%nat))
    = Some [7; 7; 7; 7; 7]%Z.
Proof. repeat split; vm_compute; reflexivity. Qed.

Lemma variance_bounds (i : nat) :
  (i <= 20)%nat -> (0 <= JS.floor (Level.ofNat i * 0.3) <= 6)%Z.
Proof.
  intros Hi. unfold JS.floor, Level.ofNat.
  assert (H0 : 0 <= inject_Z (Z.of_nat i)).
  { change 0 with (inject_Z 0). rewrite <- Zle_Qle. lia. }
  assert (H20 : inject_Z (Z.of_nat i) <= 20).
  { change 20 with (inject_Z 20). rewrite <- Zle_Qle. lia. }
  split.
  - change 0%Z with (Qfloor (inject_Z 0)). apply Qfloor_resp_le.
    change (inject_Z 0) with 0. lra.
  - change 6%Z with (Qfloor (inject_Z 6)). apply Qfloor_resp_le.
    change (inject_Z 6) with 6. lra.
Qed.

Lemma regularGroups_floors (i : nat) (delay : Q) (len : nat)
    (types : list string) (j : nat) (random1 random2 : nat -> Q) (k : nat) :
  (forall n,
     JS.floor (random1 n * inject_Z (JS.floor (Level.ofNat i * 0.3)))
     = JS.floor (random2 n * inject_Z (JS.floor (Level.ofNat i * 0.3)))) ->
  Level.regularGroups i delay len types j random1 k
  = Level.regularGroups i delay len types j random2 k.
Proof.
  intros Hsame. revert j k.
  induction types as [| type rest IH]; intros j k; cbn [Level.regularGroups].
  - reflexivity.
  - rewrite IH, Hsame. reflexivity.
Qed.

Lemma waveConfigsFrom_floors (waves : list nat) (random1 random2 : nat -> Q)
    (k : nat) :
  Forall (fun i => (i <= 20)%nat) waves ->
  (forall n v, (0 <= v <= 6)%Z ->
     JS.floor (random1 n * inject_Z v) = JS.floor (random2 n * inject_Z v)) ->
  Level.waveConfigsFrom waves random1 k = Level.waveConfigsFrom waves random2 k.
Proof.
  intros Hwaves Hsame. revert k.
  induction Hwaves as [| i rest Hi _ IH]; intros k; cbn [Level.waveConfigsFrom].
  - reflexivity.
  - unfold Level.waveConfig.
    rewrite (regularGroups_floors i _ _ _ _ random1 random2)
      by (intros n; apply Hsame, variance_bounds, Hi).
    destruct (Nat.eqb (i mod 5) 0).
    + rewrite IH. reflexivity.
    + destruct (Level.regularGroups _ _ _ _ _ random2 k) as [groups k'].
      rewrite IH. reflexivity.
Qed.

Section WithHost.
Context `{Host}.

Lemma fire_clock (now1 now2 : Z) (this : nat) (g : GameState) (d : DefenseObj) :
  g_defenses g !! this = Some d ->
  d_type d <> "anonymity" -> d_type d <> "distributor" ->
  DefenseActions.fire now1 this g = DefenseActions.fire now2 this g.
Proof.
  intros Hd Ha Hb. unfold DefenseActions.fire. rewrite Hd.
  destruct (d_target d); [| reflexivity].
  unfold DefenseActions.applyFireEffects.
  destruct (String.eqb (d_type d) "encryption"); [reflexivity |].
  destruct (String.eqb_spec (d_type d) "anonymity"); [contradiction |].
  destruct (String.eqb_spec (d_type d) "distributor"); [contradiction |].
  reflexivity.
Qed.

Lemma stamp_twice (v w : Z) (this : nat) (g : GameState) :
  DefenseActions.update_defense this (set_d_lastFireTime v)
    (DefenseActions.update_defense this (set_d_lastFireTime w) g)
  = DefenseActions.update_defense this (set_d_lastFireTime v) g.
Proof.
  unfold DefenseActions.update_defense. fields.
  unfold set_g_defenses. fields. f_equal.
  apply list_eq. intros i. repeat rewrite list_lookup_alter.
  destruct (decide (this = i)) as [<- | Hne].
  - repeat rewrite list_lookup_alter.
    destruct (decide (this = this)); [| congruence].
    destruct (g_defenses g !! this); reflexivity.
  - repeat rewrite list_lookup_alter.
    destruct (decide (this = i)); [congruence | reflexivity].
Qed.

(** C2, amended.  The wave plan depends on the draws only through
    [floor (draw * variance)], so two sequences of draws that agree on
    these floors for the variances 0 to 6 that occur give the same plan.
    The stealth roll of a saboteur matters only through the comparison
    with 0.01, and not at all for a saboteur already stealthed.  The
    reading of the clock decides a shot only through the comparison of
    [now - lastFireTime] with the fire rate, and it is stored: two
    readings that are both too early leave the state as it is, and two
    readings for which the comparison comes out the same give, for a
    defense whose shot applies no buff (every type but [anonymity] and
    [distributor]), states that are equal once [lastFireTime] of the
    defense is overwritten, while a shot leaves the reading itself in
    [lastFireTime].  In the same way [takeDamage] at two readings gives
    enemies that are equal once [deathTime] is overwritten, and a kill
    leaves the reading in [deathTime]; and [applyStatusEffect] at two
    readings gives effects that are equal once [startTime] is
    overwritten, and leaves the reading in [startTime]. *)
Theorem tick_depends_on_draws_and_clock (random1 random2 : nat -> Q)
    (now now1 now2 stamp : Z) (roll1 roll2 deltaTime speed amount : Q)
    (damageType kind : string) (duration : Q) (path : list Point)
    (e : EnemyObj) (this : nat) (d : DefenseObj) (g : GameState) :
  ((forall n v, (0 <= v <= 6)%Z ->
      JS.floor (random1 n * inject_Z v) = JS.floor (random2 n * inject_Z v)) ->
   Level.generateWaveConfigs random1 = Level.generateWaveConfigs random2)
  /\ (JS.lt roll1 0.01 = JS.lt roll2 0.01 ->
      Enemy.updateStealthMovement now roll1 path deltaTime speed e
      = Enemy.updateStealthMovement now roll2 path deltaTime speed e)
  /\ (Enemy.hasStatusEffect "stealthed" e = true ->
      Enemy.updateStealthMovement now roll1 path deltaTime speed e
      = Enemy.updateStealthMovement now roll2 path deltaTime speed e)
  /\ (g_defenses g !! this = Some d ->
      inject_Z (now1 - d_lastFireTime d) < Defense.getFireRate d ->
      inject_Z (now2 - d_lastFireTime d) < Defense.getFireRate d ->
      DefenseActions.updateFiring now1 this g = Some g
      /\ DefenseActions.updateFiring now2 this g = Some g)
  /\ (g_defenses g !! this = Some d ->
      d_type d <> "anonymity" -> d_type d <> "distributor" ->
      JS.ge (inject_Z (now1 - d_lastFireTime d)) (Defense.getFireRate d)
      = JS.ge (inject_Z (now2 - d_lastFireTime d)) (Defense.getFireRate d) ->
      DefenseActions.update_defense this (set_d_lastFireTime stamp)
        <$> DefenseActions.updateFiring now1 this g
      = DefenseActions.update_defense this (set_d_lastFireTime stamp)
          <$> DefenseActions.updateFiring now2 this g)
  /\ (forall g1 d1,
        DefenseActions.updateFiring now1 this g = Some g1 ->
        length (g_projectiles g1) = S (length (g_projectiles g)) ->
        g_defenses g1 !! this = Some d1 ->
        d_lastFireTime d1 = now1)
  /\ set_e_deathTime stamp (Enemy.takeDamage now1 amount damageType e)
     = set_e_deathTime stamp (Enemy.takeDamage now2 amount damageType e)
  /\ (e_isDead e = false ->
      e_isDead (Enemy.takeDamage now1 amount damageType e) = true ->
      e_deathTime (Enemy.takeDamage now1 amount damageType e) = now1)
  /\ (fun effect => {| eff_type := eff_type effect;
                       eff_duration := eff_duration effect;
                       eff_startTime := stamp |})
       <$> e_statusEffects (Enemy.applyStatusEffect now1 kind duration e)
     = (fun effect => {| eff_type := eff_type effect;
                         eff_duration := eff_duration effect;
                         eff_startTime := stamp |})
         <$> e_statusEffects (Enemy.applyStatusEffect now2 kind duration e)
  /\ eff_startTime
       <$> e_statusEffects (Enemy.applyStatusEffect now1 kind duration e) !! kind
     = Some now1.
Proof.
  split; [| split; [| split; [| split; [| split; [| split; [| split;
    [| split; [| split]]]]]]]].
  - intros Hsame. unfold Level.generateWaveConfigs.
    apply waveConfigsFrom_floors; [| exact Hsame].
    apply Forall_forall. intros i Hi.
    apply elem_of_seq in Hi. unfold Level.maxWaves in Hi. lia.
  - intros Hroll. unfold Enemy.updateStealthMovement. rewrite Hroll.
    reflexivity.
  - intros Hstealthed. unfold Enemy.updateStealthMovement.
    rewrite Hstealthed. reflexivity.
  - intros Hd Hearly1 Hearly2.
    unfold DefenseActions.updateFiring. rewrite Hd.
    apply JS_le_false_iff in Hearly1, Hearly2.
    unfold JS.ge. rewrite Hearly1, Hearly2, !andb_false_r.
    destruct (String.eqb _ _); split; reflexivity.
  - intros Hd Ha Hb Hcmp.
    unfold DefenseActions.updateFiring. rewrite Hd.
    destruct (String.eqb _ _); [reflexivity |].
    rewrite <- Hcmp.
    destruct (_ && _); [| reflexivity].
    rewrite (fire_clock now1 now2 this g d Hd Ha Hb).
    destruct (DefenseActions.fire now2 this g) as [g' |]; [| reflexivity].
    cbn [fmap option_fmap option_map]. rewrite !stamp_twice. reflexivity.
  - intros g1 d1 Hfire Hshot Hd1.
    unfold DefenseActions.updateFiring in Hfire.
    destruct (g_defenses g !! this) as [d0 |];
      [| injection Hfire as <-; lia].
    destruct (String.eqb (dc_special (d_config d0)) "decoy");
      [injection Hfire as <-; lia |].
    destruct (_ && _); [| injection Hfire as <-; lia].
    destruct (DefenseActions.fire now1 this g) as [g2 |]; [| discriminate].
    injection Hfire as <-.
    unfold DefenseActions.update_defense in Hd1. fields in Hd1.
    rewrite list_lookup_alter in Hd1.
    destruct (decide (this = this)) as [_ | Hne]; [| congruence].
    destruct (g_defenses g2 !! this) as [d2 |]; [| discriminate].
    injection Hd1 as <-. reflexivity.
  - unfold Enemy.takeDamage. cbv zeta.
    destruct (JS.le _ 0); reflexivity.
  - intros Halive. unfold Enemy.takeDamage. cbv zeta.
    destruct (JS.le _ 0); [intros _; reflexivity |].
    fields. intros Hdead. congruence.
  - unfold Enemy.applyStatusEffect. fields. rewrite !fmap_insert.
    reflexivity.
  - unfold Enemy.applyStatusEffect. fields. rewrite lookup_insert_eq.
    reflexivity.
Qed.

End WithHost.

Lemma small_draws (n : nat) (v : Z) :
  (0 <= v <= 6)%Z ->
  JS.floor ((fun _ : nat => 0) n * inject_Z v)
  = JS.floor ((fun _ : nat => 0.1) n * inject_Z v).
Proof.
  intros Hv.
  assert (Hcases : v = 0%Z \/ v = 1%Z \/ v = 2%Z \/ v = 3%Z \/ v = 4%Z
                   \/ v = 5%Z \/ v = 6%Z) by lia.
  destruct Hcases as [-> | [-> | [-> | [-> | [-> | [-> | ->]]]]]];
    reflexivity.
Qed.

(** Draws of 0 and draws of 0.1 give the same plan; a roll of 0.5 and one
    of 0.75 move a saboteur alike, and a saboteur already stealthed is
    moved alike by 0.005 and 0.5; the firewall of [aimedGame], whose last
    shot was at 0 and whose fire rate is 1000, fires neither at 500 nor at
    700, and at 2000 and 3000 it fires shots that differ in
    [lastFireTime] alone, which the first leaves at 2000; a script kiddie
    of health 20 that takes 25 at 7 has [deathTime] 7. *)
Lemma tick_depends_on_draws_and_clock_witness :
  Level.generateWaveConfigs (fun _ => 0) = Level.generateWaveConfigs (fun _ => 0.1)
  /\ Enemy.updateStealthMovement (H := exactHost) 0 0.5 Examples.path 16 70
       (Examples.enemy "corporateSaboteur")
     = Enemy.updateStealthMovement (H := exactHost) 0 0.75 Examples.path 16 70
         (Examples.enemy "corporateSaboteur")
  /\ Enemy.updateStealthMovement (H := exactHost) 0 0.005 Examples.path 16 70
       Examples.saboteur
     = Enemy.updateStealthMovement (H := exactHost) 0 0.5 Examples.path 16 70
         Examples.saboteur
  /\ (DefenseActions.updateFiring (H := exactHost) 500 0 Examples.aimedGame
      = Some Examples.aimedGame
      /\ DefenseActions.updateFiring (H := exactHost) 700 0 Examples.aimedGame
         = Some Examples.aimedGame)
  /\ DefenseActions.update_defense 0 (set_d_lastFireTime 0)
       <$> DefenseActions.updateFiring (H := exactHost) 2000 0 Examples.aimedGame
     = DefenseActions.update_defense 0 (set_d_lastFireTime 0)
         <$> DefenseActions.updateFiring (H := exactHost) 3000 0 Examples.aimedGame
  /\ d_lastFireTime
       (set_d_lastFireTime 2000
          (set_d_target (Some 0%nat) (Examples.defense 0 440 "firewall")))
     = 2000%Z
  /\ e_deathTime (Enemy.takeDamage 7 25 "fire" (Examples.enemy "scriptKiddie"))
     = 7%Z.
Proof.
  pose proof (tick_depends_on_draws_and_clock (H := exactHost)
                (fun _ => 0) (fun _ => 0.1) 0 500 700 0 0.5 0.75 16 70 25
                "fire" "stealthed" 2000 Examples.path (Examples.enemy "corporateSaboteur")
                0%nat
                (set_d_target (Some 0%nat) (Examples.defense 0 440 "firewall"))
                Examples.aimedGame)
    as (Hdraws & Hroll & _ & Hearly & _).
  pose proof (tick_depends_on_draws_and_clock (H := exactHost)
                (fun _ => 0) (fun _ => 0.1) 0 2000 3000 0 0.005 0.5 16 70 25
                "fire" "stealthed" 2000 Examples.path Examples.saboteur 0%nat
                (set_d_target (Some 0%nat) (Examples.defense 0 440 "firewall"))
                Examples.aimedGame)
    as (_ & _ & Hstealthed & _ & Hlate & Hstored & _).
  pose proof (tick_depends_on_draws_and_clock (H := exactHost)
                (fun _ => 0) (fun _ => 0.1) 0 7 9 0 0.005 0.5 16 70 25
                "fire" "stealthed" 2000 Examples.path (Examples.enemy "scriptKiddie") 0%nat
                (set_d_target (Some 0%nat) (Examples.defense 0 440 "firewall"))
                Examples.aimedGame)
    as (_ & _ & _ & _ & _ & _ & _ & Hdeath & _).
  split; [apply Hdraws; exact small_draws |].
  split; [apply Hroll; vm_compute; reflexivity |].
  split; [apply Hstealthed; vm_compute; reflexivity |].
  split; [apply Hearly; vm_compute; reflexivity |].
  split; [apply Hlate; [vm_compute; reflexivity | discriminate | discriminate
                        | vm_compute; reflexivity] |].
  split.
  - apply (Hstored
             (default Examples.aimedGame
                (DefenseActions.updateFiring (H := exactHost) 2000 0
                   Examples.aimedGame)));
      vm_compute; reflexivity.
  - apply Hdeath; vm_compute; reflexivity.
Defined.

End DeterminismSpec.


(** ** Enemies that reach the end *)

Module ArrivalSpec.

(** C6 on the code.  A script kiddie stands on the last point of the path
    in a new game (20 lives, resources 100, 50, 75).  One call of
    [updateEnemies] removes it, takes one life, and credits its reward
    (5, 2, 1) and 10 points as for a kill. *)
Theorem arrival_is_rewarded :
  let after :=
    Game.updateEnemies (H := exactHost) 0 (fun _ _ => 0.5) 16
      Examples.arrivalGame in
  g_enemies Examples.arrivalGame = [0%nat] /\
  (e_isDead <$> g_store Examples.arrivalGame !! 0%nat) = Some false /\
  (e_health <$> g_store Examples.arrivalGame !! 0%nat) = Some 20 /\
  g_lives Examples.arrivalGame = 20%Z /\
  g_resources Examples.arrivalGame = mkResources 100 50 75 /\
  (g_enemies <$> after) = Some [] /\
  (g_lives <$> after) = Some 19%Z /\
  (g_resources <$> after) = Some (mkResources 105 52 76) /\
  (g_score <$> after) = Some 10%Z /\
  ((fun g => e_health <$> g_store g !! 0%nat) <$> after) = Some (Some 20).
Proof. cbn zeta. repeat split; vm_compute; reflexivity. Qed.

End ArrivalSpec.

(** * Further properties of the code *)

(** ** [Utils]: clamping and random integers *)

Module UtilsSpec.

(** X1.  With [min <= max], [Utils.clamp] returns a value between [min]
    and [max], and the value itself when it already lies between them. *)
Theorem clamp_within (value min max : Q) (Hle : min <= max) :
  min <= Utils.clamp value min max <= max
  /\ (min <= value <= max -> Utils.clamp value min max == value).
Proof.
  unfold Utils.clamp.
  destruct (Q.max_spec min (Qmin max value)) as [[H1 ->] | [H1 ->]];
    destruct (Q.min_spec max value) as [[H2 H3] | [H2 H3]];
    rewrite ?H3 in *; repeat split; intros; lra.
Qed.

Lemma clamp_within_witness :
  3 <= Utils.clamp 7 3 5 <= 5 /\ (3 <= 7 <= 5 -> Utils.clamp 7 3 5 == 7).
Proof. apply (clamp_within 7 3 5); vm_compute; discriminate. Defined.

(** X2.  For a draw in [[0, 1)] and [min <= max], [Utils.randomInt]
    returns an integer between [min] and [max], both included. *)
Theorem randomInt_bounds (random : Q) (min max : Z)
    (Hlo : 0 <= random) (Hhi : random < 1) (Hle : (min <= max)%Z) :
  (min <= Utils.randomInt random min max <= max)%Z.
Proof.
  unfold Utils.randomInt, JS.floor.
  set (k := (max - min + 1)%Z).
  assert (Hk : 0 < inject_Z k).
  { change 0 with (inject_Z 0). rewrite <- Zlt_Qlt. lia. }
  assert (H0 : (0 <= Qfloor (random * inject_Z k))%Z).
  { change 0%Z with (Qfloor (inject_Z 0)). apply Qfloor_resp_le.
    change (inject_Z 0) with 0. nra. }
  assert (H1 : (Qfloor (random * inject_Z k) < k)%Z).
  { rewrite Zlt_Qlt. apply Qle_lt_trans with (random * inject_Z k);
      [apply Qfloor_le | nra]. }
  lia.
Qed.

Lemma randomInt_bounds_witness :
  (2 <= Utils.randomInt (9 # 10) 2 6 <= 6)%Z.
Proof. apply (randomInt_bounds (9 # 10) 2 6); [discriminate | reflexivity | lia]. Defined.

End UtilsSpec.

(** ** The economy: rewards, costs and theft *)

Module EconomyMore.

(** X3.  Spending an amount right after it was added gives the state
    back, and so does adding it right after it was spent. *)
Theorem add_then_spend (r : Resources) (g : GameState) :
  Game.spendResources r (Game.addResources r g) = g
  /\ Game.addResources r (Game.spendResources r g) = g.
Proof.
  destruct g as [? ? [] ? ? ? ? ? ? ? ? ? ? ? ? ? ? ?], r.
  unfold Game.spendResources, Game.addResources, Res.entries.
  cbn [fold_left Res.get Res.set]. unfold set_g_resources. fields.
  split; f_equal; f_equal; lia.
Qed.

Lemma tenth_floor (z : Z) : JS.floor (inject_Z z * 0.1) = (z / 10)%Z.
Proof.
  unfold JS.floor, inject_Z, Qmult, Qfloor; cbn [Qnum Qden].
  rewrite Z.mul_1_r. reflexivity.
Qed.

(** X4.  [Boss.performMarketManipulation] takes from a non-negative
    balance its tenth rounded down: the balance stays non-negative, does
    not grow and keeps at least nine tenths. *)
Theorem market_manipulation (g : GameState) (k : ResourceKey)
    (Hpos : (0 <= Res.get (g_resources g) k)%Z) :
  Res.get (g_resources (Boss.performMarketManipulation g)) k
  = (Res.get (g_resources g) k - Res.get (g_resources g) k / 10)%Z
  /\ (0 <= Res.get (g_resources (Boss.performMarketManipulation g)) k
      <= Res.get (g_resources g) k)%Z
  /\ (9 * Res.get (g_resources g) k
      <= 10 * Res.get (g_resources (Boss.performMarketManipulation g)) k)%Z.
Proof.
  unfold Boss.performMarketManipulation. fields.
  rewrite !tenth_floor.
  destruct k; cbn [Res.get] in *; fields;
    match goal with
    | |- context [(?b / 10)%Z] =>
        pose proof (Z.div_mod b 10 ltac:(lia));
        pose proof (Z.mod_pos_bound b 10 ltac:(lia))
    end; lia.
Qed.

Lemma market_manipulation_witness :
  Res.get (g_resources (Boss.performMarketManipulation Examples.game0)) Bandwidth
  = (Res.get (g_resources Examples.game0) Bandwidth
     - Res.get (g_resources Examples.game0) Bandwidth / 10)%Z
  /\ (0 <= Res.get (g_resources (Boss.performMarketManipulation Examples.game0))
             Bandwidth
      <= Res.get (g_resources Examples.game0) Bandwidth)%Z
  /\ (9 * Res.get (g_resources Examples.game0) Bandwidth
      <= 10 * Res.get (g_resources (Boss.performMarketManipulation Examples.game0))
                Bandwidth)%Z.
Proof. apply (market_manipulation Examples.game0 Bandwidth). vm_compute. discriminate. Defined.

(** X5.  [Boss.performMarketManipulation] raises a negative balance to
    zero. *)
Theorem market_manipulation_negative (g : GameState) (k : ResourceKey)
    (Hneg : (Res.get (g_resources g) k < 0)%Z) :
  Res.get (g_resources (Boss.performMarketManipulation g)) k = 0%Z.
Proof.
  unfold Boss.performMarketManipulation. fields.
  rewrite !tenth_floor.
  destruct k; cbn [Res.get] in *; fields;
    match goal with
    | |- context [(?b / 10)%Z] =>
        pose proof (Z.div_mod b 10 ltac:(lia));
        pose proof (Z.mod_pos_bound b 10 ltac:(lia))
    end; lia.
Qed.

Lemma market_manipulation_negative_witness :
  Res.get
    (g_resources
       (Boss.performMarketManipulation
          (Game.spendResources (mkResources 130 0 0) Examples.game0)))
    Dharma
  = 0%Z.
Proof.
  apply (market_manipulation_negative
           (Game.spendResources (mkResources 130 0 0) Examples.game0) Dharma).
  vm_compute. reflexivity.
Defined.

End EconomyMore.

(** ** [Defense]: levels and saved games *)

Module DefenseSpec.
Section WithHost.
Context `{Host}.

Lemma addExperienceLoop_level (fuel : nat) (d : DefenseObj) :
  (d_level d <= d_maxLevel d)%Z ->
  d_maxLevel (Defense.addExperienceLoop fuel d) = d_maxLevel d
  /\ (d_level d <= d_level (Defense.addExperienceLoop fuel d)
      <= d_maxLevel d)%Z.
Proof.
  revert d. induction fuel as [| fuel IH]; intros d Hle; cbn [Defense.addExperienceLoop]; cbv zeta.
  - lia.
  - destruct (_ && _) eqn:Hc; [| lia].
    apply andb_prop in Hc as [_ Hup].
    unfold Defense.canUpgrade in Hup. apply Z.ltb_lt in Hup. fields.
    match goal with
    | |- context [Defense.addExperienceLoop fuel ?d'] =>
        destruct (IH d') as [Hm Hl]; [fields; lia |];
        fields in Hm; fields in Hl
    end.
    rewrite Hm. lia.
Qed.

(** X6.  A defense whose level is at most [maxLevel] keeps it so under
    [addExperience] and [upgrade]; neither lowers the level nor changes
    [maxLevel], and [upgrade] raises the level of a defense below
    [maxLevel]. *)
Theorem level_stays_within_max (amount : Z) (d : DefenseObj)
    (Hle : (d_level d <= d_maxLevel d)%Z) :
  (d_level d <= d_level (Defense.addExperience amount d) <= d_maxLevel d)%Z
  /\ d_maxLevel (Defense.addExperience amount d) = d_maxLevel d
  /\ (d_level d <= d_level (Defense.upgrade d) <= d_maxLevel d)%Z
  /\ d_maxLevel (Defense.upgrade d) = d_maxLevel d
  /\ ((d_level d < d_maxLevel d)%Z ->
      (d_level d < d_level (Defense.upgrade d))%Z).
Proof.
  assert (Hadd : forall a d0, (d_level d0 <= d_maxLevel d0)%Z ->
            d_maxLevel (Defense.addExperience a d0) = d_maxLevel d0
            /\ (d_level d0 <= d_level (Defense.addExperience a d0)
                <= d_maxLevel d0)%Z).
  { intros a d0 H0. unfold Defense.addExperience. cbv zeta. fields.
    match goal with
    | |- context [Defense.addExperienceLoop ?f ?d'] =>
        destruct (addExperienceLoop_level f d') as [Hm Hl]; [fields; lia |];
        fields in Hm; fields in Hl
    end.
    split; assumption. }
  destruct (Hadd amount d Hle) as [Hm Hl].
  unfold Defense.upgrade, Defense.canUpgrade. cbv zeta.
  destruct (Z.ltb_spec (d_level d) (d_maxLevel d)) as [Hlt | Hge]; cbn [negb]; fields.
  - match goal with
    | |- context [Defense.addExperience 50 ?d'] =>
        destruct (Hadd 50%Z d') as [Hm' Hl']; [fields; lia |];
        fields in Hm'; fields in Hl'
    end.
    repeat split; try lia; try assumption.
  - repeat split; try lia; try assumption.
Qed.

End WithHost.

Lemma level_stays_within_max_witness :
  (d_level (Examples.defense 0 0 "firewall")
   <= d_level (Defense.addExperience 400 (Examples.defense 0 0 "firewall"))
   <= d_maxLevel (Examples.defense 0 0 "firewall"))%Z
  /\ d_maxLevel (Defense.addExperience 400 (Examples.defense 0 0 "firewall"))
     = d_maxLevel (Examples.defense 0 0 "firewall")
  /\ (d_level (Examples.defense 0 0 "firewall") <= d_level (Defense.upgrade (Examples.defense 0 0 "firewall"))
      <= d_maxLevel (Examples.defense 0 0 "firewall"))%Z
  /\ d_maxLevel (Defense.upgrade (Examples.defense 0 0 "firewall")) = d_maxLevel (Examples.defense 0 0 "firewall")
  /\ ((d_level (Examples.defense 0 0 "firewall") < d_maxLevel (Examples.defense 0 0 "firewall"))%Z ->
      (d_level (Examples.defense 0 0 "firewall") < d_level (Defense.upgrade (Examples.defense 0 0 "firewall")))%Z).
Proof.
  apply (level_stays_within_max 400 (Examples.defense 0 0 "firewall")).
  vm_compute. discriminate.
Defined.

Section WithHost.
Context `{Host}.

(** X7.  [loadSaveData] of what [getSaveData] wrote restores, on any
    defense, the position, the type, the level, the experience and both
    maps of effects of the saved defense; damage, range and fire rate are
    computed anew from the level and the configuration of the defense
    loaded into. *)
Theorem save_then_load (d d' : DefenseObj) :
  let r := Defense.loadSaveData (Defense.getSaveData d) d' in
  d_x r = d_x d /\ d_y r = d_y d /\ d_type r = d_type d
  /\ d_level r = d_level d /\ d_experience r = d_experience d
  /\ d_experienceToNextLevel r = d_experienceToNextLevel d
  /\ d_buffs r = d_buffs d /\ d_debuffs r = d_debuffs d
  /\ d_config r = d_config d'
  /\ d_damage r
     = inject_Z (JS.floor (dc_damage (d_config d')
                           * (1 + inject_Z (d_level d) * 0.2)))
  /\ d_range r = dc_range (d_config d') * (1 + inject_Z (d_level d) * 0.1)
  /\ d_fireRate r
     = Qmax 200 (dc_fireRate (d_config d') * (1 - inject_Z (d_level d) * 0.1)).
Proof.
  unfold Defense.loadSaveData, Defense.getSaveData,
    Defense.levelDamage, Defense.levelRange, Defense.levelFireRate.
  fields. rewrite !list_to_map_to_list.
  repeat split; reflexivity.
Qed.

Lemma loadDefenses_spec (ds : list DefenseObj) :
  Forall (fun d => JS.prop CONFIG.DEFENSE_TYPES (d_type d) = Some (d_config d)) ds ->
  exists rs,
    Placement.loadDefenses (map Defense.getSaveData ds) = Some rs
    /\ Forall2
         (fun d r =>
            r = Defense.loadSaveData (Defense.getSaveData d)
                  (Defense.init (d_x d) (d_y d) (d_type d) (d_config d)))
         ds rs.
Proof.
  induction 1 as [| d ds Hd _ [rs [Hrs Hall]]]; cbn [map Placement.loadDefenses].
  - exists []. split; [reflexivity | constructor].
  - unfold Defense.new. cbn [Defense.getSaveData sd_x sd_y sd_type].
    rewrite Hd, Hrs. eexists. split; [reflexivity |].
    constructor; [reflexivity | assumption].
Qed.

(** X8.  When every defense has the configuration [CONFIG.DEFENSE_TYPES]
    gives for its type, [DefenseManager.loadSaveData] of what
    [DefenseManager.getSaveData] wrote does not throw and gives as many
    defenses, each with the position, type, configuration, level,
    experience and effects of the one saved; each is active again, has no
    target, and its damage is the floor of the configured damage times
    [1 + 0.2 * level]. *)
Theorem manager_save_then_load (g g' : GameState)
    (Hconfig : Forall (fun d => JS.prop CONFIG.DEFENSE_TYPES (d_type d)
                                = Some (d_config d)) (g_defenses g)) :
  exists g'',
    Placement.loadSaveData (Placement.getSaveData g) g' = Some g''
    /\ Forall2
         (fun d r =>
            d_x r = d_x d /\ d_y r = d_y d /\ d_type r = d_type d
            /\ d_config r = d_config d /\ d_level r = d_level d
            /\ d_experience r = d_experience d
            /\ d_buffs r = d_buffs d /\ d_debuffs r = d_debuffs d
            /\ d_isActive r = true /\ d_target r = None
            /\ d_damage r
               = inject_Z (JS.floor (dc_damage (d_config d)
                                     * (1 + inject_Z (d_level d) * 0.2))))
         (g_defenses g) (g_defenses g'').
Proof.
  destruct (loadDefenses_spec _ Hconfig) as [rs [Hrs Hall]].
  unfold Placement.loadSaveData, Placement.getSaveData. rewrite Hrs.
  eexists. split; [reflexivity |]. fields.
  eapply Forall2_impl; [exact Hall |].
  intros d r ->.
  pose proof (save_then_load d (Defense.init (d_x d) (d_y d) (d_type d) (d_config d)))
    as Hs.
  cbv zeta in Hs.
  destruct Hs as (? & ? & ? & ? & ? & ? & ? & ? & Hc & Hd & _).
  unfold Defense.init in Hc, Hd; fields in Hc; fields in Hd.
  repeat split; try assumption.
Qed.

End WithHost.

Lemma manager_save_then_load_witness :
  exists g'',
    Placement.loadSaveData (H := exactHost)
      (Placement.getSaveData
         (set_g_defenses [(Examples.defense 0 0 "firewall")] Examples.game0))
      Examples.game0 = Some g''
    /\ Forall2
         (fun d r =>
            d_x r = d_x d /\ d_y r = d_y d /\ d_type r = d_type d
            /\ d_config r = d_config d /\ d_level r = d_level d
            /\ d_experience r = d_experience d
            /\ d_buffs r = d_buffs d /\ d_debuffs r = d_debuffs d
            /\ d_isActive r = true /\ d_target r = None
            /\ d_damage r
               = inject_Z (JS.floor (dc_damage (d_config d)
                                     * (1 + inject_Z (d_level d) * 0.2))))
         [(Examples.defense 0 0 "firewall")] (g_defenses g'').
Proof.
  apply (manager_save_then_load (H := exactHost)
           (set_g_defenses [(Examples.defense 0 0 "firewall")] Examples.game0) Examples.game0).
  repeat constructor.
Defined.

End DefenseSpec.

(** ** [Enemy]: the walk along the path, effects running out, and the
    update that throws *)

Module EnemySpec.

(** X9.  On a path with at least one point, [k] calls of
    [Enemy.updateTarget] move [pathIndex] forward by [k], stopping at the
    last index; [reachedEnd] is set by the first call made at the last
    index and by no call before. *)
Theorem walks_path_in_order (path : list Point) (e : EnemyObj) (k : nat)
    (Hpath : (0 < length path)%nat)
    (Hindex : (e_pathIndex e <= length path - 1)%nat) :
  e_pathIndex (Nat.iter k (Enemy.updateTarget path) e)
  = Nat.min (e_pathIndex e + k) (length path - 1)
  /\ e_reachedEnd (Nat.iter k (Enemy.updateTarget path) e)
     = e_reachedEnd e || (length path <=? e_pathIndex e + k)%nat.
Proof.
  induction k as [| k [IHi IHr]];
    [change (Nat.iter 0 (Enemy.updateTarget path) e) with e
    | rewrite !Nat.iter_succ].
  - split; [lia |].
    destruct (Nat.leb_spec (length path) (e_pathIndex e + 0)); [lia |].
    rewrite orb_false_r. reflexivity.
  - set (e' := Nat.iter k (Enemy.updateTarget path) e) in *.
    unfold Enemy.updateTarget.
    destruct (Nat.ltb_spec 0 (length path)); [| lia].
    destruct (Nat.ltb_spec (e_pathIndex e') (length path - 1)) as [Hlt | Hge].
    + destruct (lookup_lt_is_Some_2 path (S (e_pathIndex e'))) as [pt Hpt];
        [lia |].
      rewrite Hpt. fields. split; [lia |].
      rewrite IHr.
      destruct (Nat.leb_spec (length path) (e_pathIndex e + k)); [lia |].
      destruct (Nat.leb_spec (length path) (e_pathIndex e + S k)); [lia |].
      reflexivity.
    + fields. split; [lia |].
      destruct (Nat.leb_spec (length path) (e_pathIndex e + S k)); [| lia].
      rewrite orb_true_r. reflexivity.
Qed.

Lemma walks_path_in_order_witness :
  e_pathIndex (Nat.iter 5 (Enemy.updateTarget Examples.path)
                 (Examples.enemy "scriptKiddie"))
  = Nat.min (e_pathIndex (Examples.enemy "scriptKiddie") + 5)
            (length Examples.path - 1)
  /\ e_reachedEnd (Nat.iter 5 (Enemy.updateTarget Examples.path)
                     (Examples.enemy "scriptKiddie"))
     = e_reachedEnd (Examples.enemy "scriptKiddie")
       || (length Examples.path
           <=? e_pathIndex (Examples.enemy "scriptKiddie") + 5)%nat.
Proof.
  apply (walks_path_in_order Examples.path (Examples.enemy "scriptKiddie") 5);
    vm_compute; lia.
Defined.


Lemma tickEffects_lookup (dt : Q) (effects : gmap string Effect) (k : string) :
  tickEffects dt effects !! k =
  match effects !! k with
  | None => None
  | Some effect =>
      if JS.le (eff_duration effect - dt) 0 then None
      else Some {| eff_type := eff_type effect;
                   eff_duration := eff_duration effect - dt;
                   eff_startTime := eff_startTime effect |}
  end.
Proof.
  unfold tickEffects. rewrite lookup_omap.
  destruct (effects !! k); reflexivity.
Qed.

Lemma ticks_absent (dts : list Q) (effects : gmap string Effect) (k : string) :
  effects !! k = None -> fold_left (fun m dt => tickEffects dt m) dts effects !! k = None.
Proof.
  revert effects. induction dts as [| dt dts IH]; intros effects Hk;
    cbn [fold_left]; [assumption |].
  apply IH. rewrite tickEffects_lookup, Hk. reflexivity.
Qed.

Lemma total_nonneg (dts : list Q) :
  Forall (fun dt => 0 <= dt) dts -> 0 <= fold_right Qplus 0 dts.
Proof.
  induction 1 as [| dt dts Hdt _ IH]; cbn [fold_right]; lra.
Qed.

(** X10.  Under updates whose time steps are not negative, an effect
    of positive duration stays, with its duration lowered by the time
    gone, as long as the time gone is below its duration, and is deleted
    from then on. *)
Theorem effect_runs_out (dts : list Q) (effects : gmap string Effect)
    (k : string) (effect : Effect)
    (Hsteps : Forall (fun dt => 0 <= dt) dts)
    (Hk : effects !! k = Some effect)
    (Hpos : 0 < eff_duration effect) :
  (fold_right Qplus 0 dts < eff_duration effect ->
   exists effect',
     fold_left (fun m dt => tickEffects dt m) dts effects !! k = Some effect'
     /\ eff_duration effect' == eff_duration effect - fold_right Qplus 0 dts
     /\ eff_type effect' = eff_type effect
     /\ eff_startTime effect' = eff_startTime effect)
  /\ (eff_duration effect <= fold_right Qplus 0 dts -> fold_left (fun m dt => tickEffects dt m) dts effects !! k = None).
Proof.
  revert effects effect Hk Hpos.
  induction Hsteps as [| dt dts Hdt Hsteps IH]; intros effects effect Hk Hpos;
    cbn [fold_left fold_right].
  - split.
    + intros _. exists effect. repeat split; [assumption | lra].
    + intros Hle. lra.
  - pose proof (total_nonneg dts Hsteps) as Hnn.
    pose proof (tickEffects_lookup dt effects k) as Hstep.
    rewrite Hk in Hstep.
    destruct (JS.le (eff_duration effect - dt) 0) eqn:Hcmp.
    + apply JS_le_iff in Hcmp.
      split; [intros Hlt; lra |].
      intros _. apply ticks_absent. assumption.
    + apply JS_le_false_iff in Hcmp.
      destruct (IH _ _ Hstep) as [IHlt IHge]; [cbn [eff_duration]; assumption |].
      cbn [eff_duration eff_type eff_startTime] in IHlt, IHge.
      split.
      * intros Hlt. destruct IHlt as (effect' & H1 & H2 & H3 & H4); [lra |].
        exists effect'. repeat split; try assumption. rewrite H2. ring.
      * intros Hge. apply IHge. lra.
Qed.

Lemma effect_runs_out_witness :
  (fold_right Qplus 0 [16; 16] < 40 ->
   exists effect',
     fold_left (fun m dt => tickEffects dt m) [16; 16]
       {[ "slowed" := {| eff_type := "slowed"; eff_duration := 40;
                         eff_startTime := 0 |} ]} !! "slowed" = Some effect'
     /\ eff_duration effect' == 40 - fold_right Qplus 0 [16; 16]
     /\ eff_type effect' = "slowed"
     /\ eff_startTime effect' = 0%Z)
  /\ (40 <= fold_right Qplus 0 [16; 16] ->
      fold_left (fun m dt => tickEffects dt m) [16; 16]
        {[ "slowed" := {| eff_type := "slowed"; eff_duration := 40;
                          eff_startTime := 0 |} ]} !! "slowed" = None).
Proof.
  apply (effect_runs_out [16; 16]
           {[ "slowed" := {| eff_type := "slowed"; eff_duration := 40;
                             eff_startTime := 0 |} ]}
           "slowed"
           {| eff_type := "slowed"; eff_duration := 40; eff_startTime := 0 |}).
  - repeat constructor; discriminate.
  - vm_compute. reflexivity.
  - reflexivity.
Defined.

End EnemySpec.

(** ** The update of an enemy that throws *)

Module UpdateSpec.
Section WithHost.
Context `{Host}.

Lemma updateSpecialAbilities_None (dt : Q) (e : EnemyObj) :
  Enemy.updateSpecialAbilities dt e = None <->
  e_specialAbilityActive e = true /\ e_specialAbilityDuration e - dt <= 0.
Proof.
  unfold Enemy.updateSpecialAbilities.
  destruct (e_specialAbilityActive e); fields.
  - js_case; split; try discriminate; try tauto.
    + intros [_ Hle]. lra.
  - split; [discriminate | intros [Hf _]; discriminate].
Qed.

Lemma updatePhases_ability (e : EnemyObj) :
  e_specialAbilityActive (Boss.updatePhases e) = e_specialAbilityActive e
  /\ e_specialAbilityDuration (Boss.updatePhases e) = e_specialAbilityDuration e.
Proof.
  unfold Boss.updatePhases, Boss.onPhaseChange.
  destruct (e_boss e); [| split; reflexivity].
  destruct (_ <? _)%Z; split; reflexivity.
Qed.

Lemma spawnMinionsFrom_returns (count : nat) (minionCount : Z) (x y : Q)
    (i : Z) (g : GameState) :
  is_Some (Boss.spawnMinionsFrom count minionCount x y i g).
Proof.
  revert i g. induction count as [| count IH]; intros i g;
    cbn [Boss.spawnMinionsFrom]; [eexists; reflexivity |].
  unfold Enemy.new.
  assert (Hnew : exists c, JS.prop CONFIG.ENEMY_TYPES "scriptKiddie" = Some c)
    by (eexists; reflexivity).
  destruct Hnew as [c ->].
  apply IH.
Qed.

Lemma updateBossBehavior_returns (now : Z) (random dt : Q) (r : nat)
    (g : GameState) :
  is_Some (Boss.updateBossBehavior now random dt r g).
Proof.
  unfold Boss.updateBossBehavior.
  destruct (g_store g !! r) as [e |]; [| eexists; reflexivity].
  destruct (String.eqb (e_type e) "raidTeam").
  - unfold Boss.updateRaidTeamBehavior.
    destruct (g_store g !! r) as [e' |]; [| eexists; reflexivity].
    destruct (e_boss e') as [b |]; [| eexists; reflexivity].
    destruct (JS.gt (b_minionSpawnTimer b) 0).
    + destruct (JS.gt (b_empBlastTimer b) 0); eexists; reflexivity.
    + unfold Boss.spawnMinions.
      destruct (g_store g !! r) as [e'' |];
        [| destruct (JS.gt (b_empBlastTimer b) 0); eexists; reflexivity].
      destruct (e_boss e'') as [b'' |];
        [| destruct (JS.gt (b_empBlastTimer b) 0); eexists; reflexivity].
      destruct (spawnMinionsFrom_returns
                  (Z.to_nat (3 + b_currentPhase b'')) (3 + b_currentPhase b'')
                  (e_x e'') (e_y e'') 0 g) as [g' ->].
      destruct (JS.gt (b_empBlastTimer b) 0); eexists; reflexivity.
  - destruct (String.eqb (e_type e) "megaCorpTitan"); eexists; reflexivity.
Qed.

(** X11.  The update of an enemy or a boss throws exactly when the enemy
    is not dead and has a special ability active whose remaining duration
    is used up by this time step; the method it then calls does not
    exist. *)
Theorem update_throws_iff (now : Z) (random : nat -> Q) (dt : Q) (r : nat)
    (g : GameState) (e : EnemyObj) (Hr : g_store g !! r = Some e) :
  call_update now random dt r g = None <->
  e_isDead e = false /\ e_specialAbilityActive e = true
  /\ e_specialAbilityDuration e - dt <= 0.
Proof.
  unfold call_update. rewrite Hr.
  destruct (e_boss e) as [b |].
  - unfold Boss.update. rewrite Hr.
    destruct (e_isDead e); [split; [discriminate | intros [? _]; discriminate] |].
    destruct (updatePhases_ability (Enemy.updateStatusEffects dt e)) as [Ha Hd].
    pose proof (updateSpecialAbilities_None dt
                  (Boss.updatePhases (Enemy.updateStatusEffects dt e))) as Hnone.
    rewrite Ha, Hd in Hnone. unfold Enemy.updateStatusEffects in Hnone at 2 3.
    fields in Hnone.
    destruct (Enemy.updateSpecialAbilities dt
                (Boss.updatePhases (Enemy.updateStatusEffects dt e))) as [e' |].
    + match goal with
      | |- context [Boss.updateBossBehavior ?a ?b ?c ?d ?g'] =>
          destruct (updateBossBehavior_returns a b c d g') as [g'' ->]
      end.
      split; [discriminate |]. intros [_ Hc]. apply Hnone in Hc. discriminate.
    + split; [intros _; split; [reflexivity | apply Hnone; reflexivity] |
              reflexivity].
  - unfold Enemy.update. rewrite Hr.
    destruct (e_isDead e); [split; [discriminate | intros [? _]; discriminate] |].
    pose proof (updateSpecialAbilities_None dt
                  (Enemy.updateStatusEffects dt e)) as Hnone.
    unfold Enemy.updateStatusEffects in Hnone at 2 3. fields in Hnone.
    destruct (Enemy.updateSpecialAbilities dt (Enemy.updateStatusEffects dt e)).
    + split; [discriminate |]. intros [_ Hc]. apply Hnone in Hc. discriminate.
    + split; [intros _; split; [reflexivity | apply Hnone; reflexivity] |
              reflexivity].
Qed.

End WithHost.

Lemma update_throws_iff_witness :
  call_update (H := exactHost) 0 (fun _ => 0) 16 0 Examples.stealthGame = None
  <-> e_isDead Examples.saboteur = false
      /\ e_specialAbilityActive Examples.saboteur = true
      /\ e_specialAbilityDuration Examples.saboteur - 16 <= 0.
Proof.
  apply (update_throws_iff (H := exactHost) 0 (fun _ => 0) 16 0
           Examples.stealthGame Examples.saboteur).
  vm_compute. reflexivity.
Defined.

End UpdateSpec.

(** ** [Projectile]: piercing shots, and enemies without a radius *)

Module ProjectileSpec.
Section WithHost.
Context `{Host}.

Lemma applySplashDamage_target (now : Z) (t : nat) (p : ProjectileObj)
    (g : GameState) :
  g_store (Projectile.applySplashDamage now t p g) !! t = g_store g !! t.
Proof.
  unfold Projectile.applySplashDamage. generalize (g_enemies g) as enemies.
  intros enemies. revert g.
  induction enemies as [| r enemies IH]; intros g; cbn [fold_left];
    [reflexivity |].
  rewrite IH.
  destruct (Nat.eqb_spec r t) as [-> | Hne]; [reflexivity |].
  destruct (g_store g !! r) as [enemy |] eqn:Hr; [| reflexivity].
  destruct (JS.le _ _); [| reflexivity].
  unfold update_enemy. rewrite Hr. fields.
  apply lookup_insert_ne. exact Hne.
Qed.

Lemma applySpecialEffects_health (now : Z) (t : nat) (p : ProjectileObj)
    (g : GameState) :
  e_health <$> g_store (Projectile.applySpecialEffects now t p g) !! t
  = e_health <$> g_store g !! t.
Proof.
  unfold Projectile.applySpecialEffects, update_enemy.
  destruct (String.eqb (p_type p) "encryption").
  { destruct (g_store g !! t) as [e |] eqn:Ht; [| rewrite Ht; reflexivity].
    fields. rewrite lookup_insert_eq. reflexivity. }
  destruct (String.eqb (p_type p) "anonymity").
  { destruct (g_store g !! t) as [e |] eqn:Ht; [| rewrite Ht; reflexivity].
    fields. rewrite lookup_insert_eq. reflexivity. }
  destruct (String.eqb (p_type p) "distributor"); reflexivity.
Qed.

(** A hit that is not stopped by the pierced set: the target takes the
    damage once, and the projectile is marked or switched off. *)
Lemma hit_lands (now : Z) (p : ProjectileObj) (g : GameState) (t : nat)
    (target : EnemyObj) :
  p_target p = Some t -> g_store g !! t = Some target ->
  e_isDead target = false ->
  p_piercing p && bool_decide (t ∈ p_piercedTargets p) = false ->
  e_health <$> g_store (snd (Projectile.hit now p g)) !! t
  = Some (e_health (call_takeDamage now (p_damage p) "fire" target))
  /\ fst (Projectile.hit now p g)
     = (if p_piercing p
        then set_p_piercedTargets ({[t]} ∪ p_piercedTargets p) p
        else set_p_isActive false p).
Proof.
  intros Ht Hs Halive Hfresh. unfold Projectile.hit.
  rewrite Ht, Hs, Halive, Hfresh. cbv zeta.
  assert (Hdamaged :
            e_health
              <$> g_store (update_enemy t
                             (call_takeDamage now (p_damage p) "fire") g) !! t
            = Some (e_health (call_takeDamage now (p_damage p) "fire" target))).
  { unfold update_enemy. rewrite Hs. fields. rewrite lookup_insert_eq.
    reflexivity. }
  set (g1 := update_enemy t (call_takeDamage now (p_damage p) "fire") g) in *.
  fields. destruct (p_piercing p) eqn:Hp; fields; rewrite ?Hp; cbn [fst snd].
  - split; [| reflexivity].
    rewrite applySpecialEffects_health.
    destruct (p_splash p); [rewrite applySplashDamage_target |]; exact Hdamaged.
  - split; [| reflexivity].
    rewrite applySpecialEffects_health.
    destruct (p_splash p); [rewrite applySplashDamage_target |]; exact Hdamaged.
Qed.

(** A piercing projectile whose target is in its pierced set. *)
Lemma hit_pierced (now : Z) (p : ProjectileObj) (g : GameState) (t : nat) :
  p_target p = Some t -> p_piercing p = true -> t ∈ p_piercedTargets p ->
  Projectile.hit now p g = (p, g).
Proof.
  intros Ht Hp Hin. unfold Projectile.hit. rewrite Ht.
  destruct (g_store g !! t) as [target |]; [| reflexivity].
  destruct (e_isDead target); [reflexivity |].
  rewrite Hp, bool_decide_eq_true_2 by exact Hin. reflexivity.
Qed.

(** X12.  A piercing projectile damages a target once: the first [hit]
    on a live target that is not in the pierced set takes the damage off
    the target once, puts the target into the set and leaves the
    projectile active as it was; after that [hit] changes nothing, in any
    state of the game and whether or not the target is still alive. *)
Theorem piercing_hits_once (now now' : Z) (p : ProjectileObj) (g : GameState)
    (t : nat) (target : EnemyObj)
    (Htarget : p_target p = Some t) (Hstore : g_store g !! t = Some target)
    (Halive : e_isDead target = false)
    (Hpiercing : p_piercing p = true) (Hfresh : t ∉ p_piercedTargets p) :
  e_health <$> g_store (snd (Projectile.hit now p g)) !! t
  = Some (e_health (call_takeDamage now (p_damage p) "fire" target))
  /\ t ∈ p_piercedTargets (fst (Projectile.hit now p g))
  /\ p_isActive (fst (Projectile.hit now p g)) = p_isActive p
  /\ forall g',
       Projectile.hit now' (fst (Projectile.hit now p g)) g'
       = (fst (Projectile.hit now p g), g').
Proof.
  destruct (hit_lands now p g t target Htarget Hstore Halive) as [Hh Hp].
  { rewrite Hpiercing, bool_decide_eq_false_2 by exact Hfresh. reflexivity. }
  rewrite Hpiercing in Hp. rewrite Hp.
  split; [exact Hh |]. fields.
  split; [set_solver |]. split; [reflexivity |].
  intros g'. apply (hit_pierced now' _ g' t); fields;
    [exact Htarget | exact Hpiercing | set_solver].
Qed.

Lemma updateTarget_radius (path : list Point) (e : EnemyObj) :
  e_radius (Enemy.updateTarget path e) = e_radius e.
Proof.
  unfold Enemy.updateTarget.
  destruct (0 <? length path)%nat; [| reflexivity].
  destruct (e_pathIndex e <? length path - 1)%nat; [| reflexivity].
  destruct (path !! S (e_pathIndex e)); reflexivity.
Qed.

Lemma new_enemy_radius (g : GameState) (x y : Q) (type : string)
    (e : EnemyObj) :
  Enemy.new g x y type = Some e -> e_radius e = None.
Proof.
  unfold Enemy.new. destruct (JS.prop CONFIG.ENEMY_TYPES type); [| discriminate].
  intros [= <-]. unfold Enemy.init. rewrite updateTarget_radius. reflexivity.
Qed.

(** X13.  No enemy [Level.spawnEnemy] puts into the game has a [radius]:
    when no enemy of the game has one before the call, none has one
    after it. *)
Theorem spawned_enemies_have_no_radius (type : string) (health : option Q)
    (g g' : GameState)
    (Hnone : forall r e, g_store g !! r = Some e -> e_radius e = None)
    (Hspawn : Level.spawnEnemy type health g = Some g') :
  forall r e, g_store g' !! r = Some e -> e_radius e = None.
Proof.
  unfold Level.spawnEnemy in Hspawn.
  destruct (JS.prop CONFIG.ENEMY_TYPES type) as [config |];
    [| injection Hspawn as <-; exact Hnone].
  destruct (g_path g !! 0%nat) as [start |]; [| discriminate].
  destruct (JS.prop CONFIG.BOSS_TYPES type) as [bossConfig |].
  - destruct (Boss.new g (pt_x start) (pt_y start) type) as [enemy |] eqn:Hnew;
      [| discriminate].
    injection Hspawn as <-. unfold push_enemy. fields.
    intros r e. destruct (decide (r = g_nextRef g)) as [-> | Hne].
    + rewrite lookup_insert_eq. intros [= <-]. fields.
      unfold Boss.new in Hnew.
      destruct (Enemy.new g (pt_x start) (pt_y start) type) as [base |] eqn:Hb;
        [| discriminate].
      destruct (JS.prop CONFIG.BOSS_TYPES type); [| discriminate].
      injection Hnew as <-. apply new_enemy_radius in Hb.
      unfold Boss.init, Boss.initializeBossBehavior. fields.
      repeat match goal with
             | |- context [if ?c then _ else _] => destruct c
             end; fields; exact Hb.
    + rewrite lookup_insert_ne by congruence. apply Hnone.
  - destruct (Enemy.new g (pt_x start) (pt_y start) type) as [enemy |] eqn:Hnew;
      [| discriminate].
    injection Hspawn as <-. unfold push_enemy. fields.
    intros r e. destruct (decide (r = g_nextRef g)) as [-> | Hne].
    + rewrite lookup_insert_eq. intros [= <-]. fields.
      eapply new_enemy_radius; eassumption.
    + rewrite lookup_insert_ne by congruence. apply Hnone.
Qed.

Lemma checkCollisions_no_radius (now : Z) (p : ProjectileObj) (g : GameState) :
  (forall r e, g_store g !! r = Some e -> e_radius e = None) ->
  snd (Projectile.checkCollisions now p g) = g.
Proof.
  intros Hnone. unfold Projectile.checkCollisions.
  destruct (p_target p) as [t |]; [| reflexivity].
  destruct (g_store g !! t) as [target |] eqn:Hs; [| reflexivity].
  destruct (e_isDead target); [reflexivity |].
  rewrite (Hnone _ _ Hs). reflexivity.
Qed.

Lemma update_no_radius (now : Z) (dt : Q) (p : ProjectileObj) (g : GameState) :
  (forall r e, g_store g !! r = Some e -> e_radius e = None) ->
  snd (Projectile.update now dt p g) = g.
Proof.
  intros Hnone. unfold Projectile.update.
  destruct (negb (p_isActive p)); [reflexivity |]. cbv zeta.
  match goal with
  | |- context [Projectile.checkCollisions now ?p' g] =>
      pose proof (checkCollisions_no_radius now p' g Hnone) as Hc;
      destruct (Projectile.checkCollisions now p' g) as [p1 g1]
  end.
  cbn [snd] in Hc |- *. exact Hc.
Qed.

Lemma checkCollisionsWith_no_radius (enemies : list nat) (now : Z)
    (p : ProjectileObj) (g : GameState) :
  (forall r e, g_store g !! r = Some e -> e_radius e = None) ->
  Game.checkCollisionsWith enemies now p g = (p, g).
Proof.
  intros Hnone. induction enemies as [| r rest IH];
    cbn [Game.checkCollisionsWith]; [reflexivity |].
  destruct (g_store g !! r) as [enemy |] eqn:Hs; [| exact IH].
  rewrite (Hnone _ _ Hs). cbn [Utils.circleCollision]. exact IH.
Qed.

Lemma updateProjectilesIn_no_radius (projectiles : list ProjectileObj)
    (now : Z) (dt : Q) (g : GameState) :
  (forall r e, g_store g !! r = Some e -> e_radius e = None) ->
  snd (Game.updateProjectilesIn projectiles now dt g) = g.
Proof.
  intros Hnone. induction projectiles as [| p earlier IH];
    cbn [Game.updateProjectilesIn]; [reflexivity |].
  destruct (Game.updateProjectilesIn earlier now dt g) as [kept g1].
  cbn [snd] in IH. subst g1.
  pose proof (update_no_radius now dt p g Hnone) as Hu.
  destruct (Projectile.update now dt p g) as [p1 g1].
  cbn [snd] in Hu. subst g1.
  destruct (negb (p_isActive p1)); [reflexivity |].
  unfold Game.checkProjectileCollisions.
  rewrite checkCollisionsWith_no_radius by exact Hnone. reflexivity.
Qed.

(** X14.  When no enemy has a [radius], [Game.updateProjectiles] hits
    nothing: it changes the list of projectiles and nothing else, so no
    enemy loses health to a projectile. *)
Theorem projectiles_never_hit (now : Z) (dt : Q) (g : GameState)
    (Hnone : forall r e, g_store g !! r = Some e -> e_radius e = None) :
  exists kept, Game.updateProjectiles now dt g = set_g_projectiles kept g.
Proof.
  unfold Game.updateProjectiles.
  pose proof (updateProjectilesIn_no_radius (g_projectiles g) now dt g Hnone)
    as Hs.
  destruct (Game.updateProjectilesIn (g_projectiles g) now dt g) as [kept g1].
  cbn [snd] in Hs. subst g1. exists kept. reflexivity.
Qed.

End WithHost.

Lemma piercing_hits_once_witness :
  (e_health
     <$> g_store (snd (Projectile.hit (H := exactHost) 0
                         (Examples.shot Examples.monkGame "encryption")
                         Examples.monkGame)) !! 0%nat
   = Some (e_health
             (call_takeDamage 0
                (p_damage (Examples.shot Examples.monkGame "encryption"))
                "fire" (set_e_x 20 (Examples.enemy "corruptedMonk"))))
   /\ 0%nat ∈ p_piercedTargets
                (fst (Projectile.hit (H := exactHost) 0
                        (Examples.shot Examples.monkGame "encryption")
                        Examples.monkGame))
   /\ p_isActive (fst (Projectile.hit (H := exactHost) 0
                         (Examples.shot Examples.monkGame "encryption")
                         Examples.monkGame))
      = p_isActive (Examples.shot Examples.monkGame "encryption")
   /\ forall g',
        Projectile.hit (H := exactHost) 16
          (fst (Projectile.hit (H := exactHost) 0
                  (Examples.shot Examples.monkGame "encryption")
                  Examples.monkGame)) g'
        = (fst (Projectile.hit (H := exactHost) 0
                  (Examples.shot Examples.monkGame "encryption")
                  Examples.monkGame), g'))
  /\ (e_health <$> g_store Examples.monkGame !! 0%nat) = Some 100
  /\ p_damage (Examples.shot Examples.monkGame "encryption") = 25
  /\ ((fun e => (e_health e, e_isDead e))
        <$> g_store (snd (Projectile.hit (H := exactHost) 0
                            (Examples.shot Examples.monkGame "encryption")
                            Examples.monkGame)) !! 0%nat)
     = Some (75, false).
Proof.
  split; [| repeat split; vm_compute; reflexivity].
  apply (piercing_hits_once (H := exactHost) 0 16
           (Examples.shot Examples.monkGame "encryption") Examples.monkGame
           0%nat (set_e_x 20 (Examples.enemy "corruptedMonk")));
    try (vm_compute; reflexivity).
  vm_compute. set_solver.
Defined.

Lemma spawned_enemies_have_no_radius_witness :
  exists e,
    g_store (default Examples.game0
               (Level.spawnEnemy "scriptKiddie" None Examples.game0)) !! 0%nat
    = Some e
    /\ e_radius e = None.
Proof.
  eexists. split; [vm_compute; reflexivity |].
  refine (spawned_enemies_have_no_radius "scriptKiddie" None Examples.game0
            (default Examples.game0
               (Level.spawnEnemy "scriptKiddie" None Examples.game0))
            _ _ 0%nat _ _).
  - intros r e Hr.
    change (g_store Examples.game0) with (∅ : gmap nat EnemyObj) in Hr.
    rewrite lookup_empty in Hr. discriminate.
  - vm_compute. reflexivity.
  - vm_compute. reflexivity.
Defined.

Lemma projectiles_never_hit_witness :
  exists kept,
    Game.updateProjectiles (H := exactHost) 0 16
      (set_g_projectiles [Examples.shot Examples.stealthGame "firewall"]
         Examples.stealthGame)
    = set_g_projectiles kept
        (set_g_projectiles [Examples.shot Examples.stealthGame "firewall"]
           Examples.stealthGame).
Proof.
  apply (projectiles_never_hit (H := exactHost) 0 16
           (set_g_projectiles [Examples.shot Examples.stealthGame "firewall"]
              Examples.stealthGame)).
  intros r e Hr.
  change (({[0%nat := Examples.saboteur]} : gmap nat EnemyObj) !! r = Some e)
    in Hr.
  apply lookup_singleton_Some in Hr as [_ <-]. reflexivity.
Defined.

End ProjectileSpec.

(** ** Projectile hits *)

Module HitSpec.
Section WithHost.
Context `{Host}.




End WithHost.


End HitSpec.

(** ** [Level]: the shape of the plan, spawning, and the end of a wave *)

Module LevelSpec.

Lemma waveConfigsFrom_Forall (P : nat -> WaveConfig -> Prop) (waves : list nat)
    (random : nat -> Q) (k : nat) :
  (forall i k', In i waves -> P i (fst (Level.waveConfig i random k'))) ->
  Forall2 P waves (Level.waveConfigsFrom waves random k).
Proof.
  revert k. induction waves as [| i rest IH]; intros k HP;
    cbn [Level.waveConfigsFrom]; [constructor |].
  pose proof (HP i k (or_introl eq_refl)) as Hi.
  destruct (Level.waveConfig i random k) as [config k'].
  constructor; [exact Hi |].
  apply IH. intros j k'' Hj. apply HP. right. exact Hj.
Qed.

Lemma waveConfig_flags (i : nat) (random : nat -> Q) (k : nat) :
  wc_wave (fst (Level.waveConfig i random k)) = i
  /\ wc_bossWave (fst (Level.waveConfig i random k)) = Nat.eqb (i mod 5) 0.
Proof.
  unfold Level.waveConfig.
  destruct (Nat.eqb (i mod 5) 0); [split; reflexivity |].
  destruct (Level.regularGroups _ _ _ _ _ _ _). split; reflexivity.
Qed.

(** X15.  Whatever the draws, the plan [generateWaveConfigs] makes has 20
    waves, numbered 1 to 20 in order, and the boss waves are the waves
    whose number is a multiple of 5 and no others. *)
Theorem plan_shape (random : nat -> Q) :
  map wc_wave (Level.generateWaveConfigs random) = seq 1 20
  /\ map wc_bossWave (Level.generateWaveConfigs random)
     = map (fun i => Nat.eqb (i mod 5) 0) (seq 1 20).
Proof.
  unfold Level.generateWaveConfigs, Level.maxWaves.
  assert (Hall : Forall2
            (fun i config => wc_wave config = i
                             /\ wc_bossWave config = Nat.eqb (i mod 5) 0)
            (seq 1 20) (Level.waveConfigsFrom (seq 1 20) random 0)).
  { apply waveConfigsFrom_Forall. intros i k _. apply waveConfig_flags. }
  induction Hall as [| i config waves configs [Hw Hb] _ [IHw IHb]];
    [split; reflexivity |].
  cbn [map]. rewrite Hw, Hb, IHw, IHb. split; reflexivity.
Qed.

Lemma regularGroups_counts (i : nat) (delay : Q) (len : nat)
    (types : list string) (j : nat) (random : nat -> Q) (k : nat) :
  Forall (fun grp => (1 <= grp_count grp)%Z
                     /\ In (grp_type grp) types)
         (fst (Level.regularGroups i delay len types j random k)).
Proof.
  revert j k. induction types as [| type rest IH]; intros j k;
    cbn [Level.regularGroups]; [constructor |].
  specialize (IH (S j) (S k)).
  destruct (Level.regularGroups i delay len rest (S j) random (S k))
    as [groups k'].
  cbn [fst] in IH.
  assert (IH' : Forall (fun grp => (1 <= grp_count grp)%Z
                                   /\ In (grp_type grp) (type :: rest)) groups).
  { eapply Forall_impl; [exact IH |]. intros grp [? ?].
    split; [assumption | right; assumption]. }
  destruct (_ <=? _)%Z; cbn [fst]; [| exact IH'].
  constructor; [| exact IH'].
  fields. split; [lia | left; reflexivity].
Qed.

Lemma ofNat_nonneg (n : nat) : 0 <= Level.ofNat n.
Proof.
  unfold Level.ofNat. change 0 with (inject_Z 0). rewrite <- Zle_Qle. lia.
Qed.

Lemma regularGroups_first (i : nat) (delay : Q) (len : nat) (type : string)
    (rest : list string) (random : nat -> Q) (k : nat) :
  fst (Level.regularGroups i delay len (type :: rest) 0 random k) <> [].
Proof.
  cbn [Level.regularGroups].
  destruct (Level.regularGroups i delay len rest 1 random (S k)) as [groups k'].
  assert (Hfloor : (0 <= JS.floor (Level.ofNat i / 10 * Level.ofNat len))%Z).
  { unfold JS.floor. change 0%Z with (Qfloor (inject_Z 0)).
    apply Qfloor_resp_le. change (inject_Z 0) with 0.
    pose proof (ofNat_nonneg i). pose proof (ofNat_nonneg len).
    apply Qmult_le_0_compat; [| assumption].
    unfold Qdiv. apply Qmult_le_0_compat; [assumption | discriminate]. }
  destruct (Z.leb_spec (Z.of_nat 0) (JS.floor (Level.ofNat i / 10 * Level.ofNat len)));
    [cbn [fst]; discriminate | cbn [Z.of_nat] in *; lia].
Qed.

Lemma waveConfig_groups (i : nat) (random : nat -> Q) (k : nat) :
  wc_enemies (fst (Level.waveConfig i random k)) <> []
  /\ Forall (fun grp => (1 <= grp_count grp)%Z)
            (wc_enemies (fst (Level.waveConfig i random k))).
Proof.
  unfold Level.waveConfig.
  destruct (Nat.eqb (i mod 5) 0).
  - cbn [fst wc_enemies]. split; [discriminate |].
    repeat constructor; fields; lia.
  - pose proof (regularGroups_first i CONFIG.ENEMY_SPAWN_DELAY
                  (length (JS.keys CONFIG.ENEMY_TYPES)) "scriptKiddie"
                  (tl (JS.keys CONFIG.ENEMY_TYPES)) random k) as Hne.
    pose proof (regularGroups_counts i CONFIG.ENEMY_SPAWN_DELAY
                  (length (JS.keys CONFIG.ENEMY_TYPES))
                  (JS.keys CONFIG.ENEMY_TYPES) 0 random k) as Hc.
    change ("scriptKiddie" :: tl (JS.keys CONFIG.ENEMY_TYPES))
      with (JS.keys CONFIG.ENEMY_TYPES) in Hne.
    destruct (Level.regularGroups _ _ _ _ _ _ _) as [groups k'].
    cbn [fst wc_enemies] in *. split; [exact Hne |].
    eapply Forall_impl; [exact Hc |]. intros grp [? _]. assumption.
Qed.

(** X16.  Whatever the draws, every wave of the plan has at least one
    group of enemies and every group has a count of at least 1. *)
Theorem every_wave_spawns (random : nat -> Q) :
  Forall (fun config =>
            wc_enemies config <> []
            /\ Forall (fun grp => (1 <= grp_count grp)%Z) (wc_enemies config))
         (Level.generateWaveConfigs random).
Proof.
  unfold Level.generateWaveConfigs.
  assert (Hall : Forall2
            (fun (_ : nat) config =>
               wc_enemies config <> []
               /\ Forall (fun grp => (1 <= grp_count grp)%Z) (wc_enemies config))
            (seq 1 Level.maxWaves)
            (Level.waveConfigsFrom (seq 1 Level.maxWaves) random 0)).
  { apply waveConfigsFrom_Forall. intros i k _. apply waveConfig_groups. }
  induction Hall; constructor; assumption.
Qed.

Lemma count_timers (groups : list EnemyGroup) (start : Q) (g : GameState) :
  Forall (fun grp => (0 <= grp_count grp)%Z) groups ->
  g_enemiesToSpawn
    (fold_left
       (fun g enemyGroup =>
          set_g_enemiesToSpawn (g_enemiesToSpawn g + grp_count enemyGroup) g)
       groups g)
  = (g_enemiesToSpawn g
     + Z.of_nat (length (Level.spawnEnemyGroup groups start)))%Z.
Proof.
  intros Hall. revert start g.
  induction Hall as [| grp groups Hgrp _ IH]; intros start g;
    cbn [fold_left Level.spawnEnemyGroup length]; [lia |].
  rewrite IH with (start := start + inject_Z (grp_count grp) * grp_delay grp + 1000).
  fields. rewrite length_app, length_map, length_seq. lia.
Qed.

(** X17.  For a wave number up to 20 and a plan without negative counts,
    [startWave] sets as many spawn timers as it sets [enemiesToSpawn]
    to. *)
Theorem timers_match_count (n : nat) (g : GameState)
    (Hn : (n <= Level.maxWaves)%nat)
    (Hplan : Forall (fun config =>
                       Forall (fun grp => (0 <= grp_count grp)%Z)
                              (wc_enemies config))
                    (g_waveConfigs g)) :
  Z.of_nat (length (snd (Level.startWave n g)))
  = g_enemiesToSpawn (fst (Level.startWave n g)).
Proof.
  unfold Level.startWave.
  destruct (Nat.ltb_spec Level.maxWaves n); [lia |]. fields.
  destruct (g_waveConfigs g !! (n - 1)%nat) as [config |] eqn:Hc;
    [| reflexivity].
  cbn [fst snd].
  rewrite (count_timers _ 0).
  - fields. lia.
  - rewrite Forall_forall in Hplan. apply Hplan.
    first [eapply list_elem_of_lookup_2, Hc | eapply elem_of_list_lookup_2, Hc].
Qed.

Lemma timers_match_count_witness :
  Z.of_nat (length (snd (Level.startWave 3 Examples.game0)))
  = g_enemiesToSpawn (fst (Level.startWave 3 Examples.game0)).
Proof.
  apply (timers_match_count 3 Examples.game0).
  - vm_compute. lia.
  - pose proof (every_wave_spawns (fun _ => 0)) as Hall.
    change (g_waveConfigs Examples.game0)
      with (Level.generateWaveConfigs (fun _ => 0)).
    eapply Forall_impl; [exact Hall |].
    intros config [_ Hc]. eapply Forall_impl; [exact Hc |].
    intros grp Hgrp. cbv beta in Hgrp. lia.
Defined.

Lemma prop_keys {A : Type} (obj : list (string * A)) (k : string) :
  In k (JS.keys obj) -> exists v, JS.prop obj k = Some v.
Proof.
  induction obj as [| [k' v] obj IH]; cbn [JS.keys map JS.prop In fst];
    [tauto |].
  intros [-> | Hin].
  - rewrite String.eqb_refl. eexists; reflexivity.
  - destruct (String.eqb k k'); [eexists; reflexivity | apply IH, Hin].
Qed.

Lemma spawnEnemy_known (type : string) (config : EnemyConfig)
    (health : option Q) (g : GameState) (start : Point) :
  JS.prop CONFIG.ENEMY_TYPES type = Some config ->
  g_path g !! 0%nat = Some start ->
  Level.spawnEnemy type health g
  = Some (set_g_enemiesSpawned (g_enemiesSpawned g + 1)
            (push_enemy
               (set_e_maxHealth (ec_health config * default 1 health)
                  (set_e_health (ec_health config * default 1 health)
                     (Enemy.init (g_path g) (pt_x start) (pt_y start)
                        type config)))
               g)).
Proof.
  intros Hcfg Hstart. unfold Level.spawnEnemy, Enemy.new.
  rewrite Hcfg, Hstart, (WaveSpec.boss_type_is_no_enemy_type _ _ Hcfg).
  reflexivity.
Qed.

(** X18.  For a type of [CONFIG.ENEMY_TYPES] and a path with a first
    point, [spawnEnemy] adds one enemy at the end of the list of enemies,
    alive, standing on the first point of the path, with the configured
    health times the multiplier as health and as maximum health; it counts
    one more enemy spawned and leaves every other enemy, the resources and
    the lives as they were. *)
Theorem spawn_adds_one_enemy (type : string) (config : EnemyConfig)
    (health : option Q) (g : GameState) (start : Point)
    (Hcfg : JS.prop CONFIG.ENEMY_TYPES type = Some config)
    (Hstart : g_path g !! 0%nat = Some start) :
  exists g' e,
    Level.spawnEnemy type health g = Some g'
    /\ g_enemies g' = (g_enemies g ++ [g_nextRef g])%list
    /\ g_store g' !! g_nextRef g = Some e
    /\ (forall r, r <> g_nextRef g -> g_store g' !! r = g_store g !! r)
    /\ e_x e = pt_x start /\ e_y e = pt_y start /\ e_type e = type
    /\ e_health e = ec_health config * default 1 health
    /\ e_maxHealth e = e_health e
    /\ e_isDead e = false
    /\ g_enemiesSpawned g' = (g_enemiesSpawned g + 1)%Z
    /\ g_resources g' = g_resources g /\ g_lives g' = g_lives g.
Proof.
  rewrite (spawnEnemy_known _ _ _ _ _ Hcfg Hstart).
  eexists _, _. split; [reflexivity |].
  unfold push_enemy. fields.
  split; [reflexivity |].
  split; [apply lookup_insert_eq |].
  split; [intros r Hr; apply lookup_insert_ne; congruence |].
  unfold Enemy.init, Enemy.updateTarget.
  repeat match goal with
         | |- context [if ?c then _ else _] => destruct c
         | |- context [match ?l !! ?i with _ => _ end] => destruct (l !! i)
         end; fields; repeat split; reflexivity.
Qed.

Lemma spawn_adds_one_enemy_witness :
  exists g' e,
    Level.spawnEnemy "federalAgent" (Some 1.5) Examples.game0 = Some g'
    /\ g_enemies g' = (g_enemies Examples.game0 ++ [g_nextRef Examples.game0])%list
    /\ g_store g' !! g_nextRef Examples.game0 = Some e
    /\ (forall r, r <> g_nextRef Examples.game0 ->
                  g_store g' !! r = g_store Examples.game0 !! r)
    /\ e_x e = 0 /\ e_y e = 400 /\ e_type e = "federalAgent"
    /\ e_health e = 40 * default 1 (Some 1.5)
    /\ e_maxHealth e = e_health e
    /\ e_isDead e = false
    /\ g_enemiesSpawned g' = (g_enemiesSpawned Examples.game0 + 1)%Z
    /\ g_resources g' = g_resources Examples.game0
    /\ g_lives g' = g_lives Examples.game0.
Proof.
  apply (spawn_adds_one_enemy "federalAgent"
           {| ec_health := 40; ec_speed := 60; ec_reward := mkResources 10 5 3;
              ec_size := 18; ec_special := "persistent" |}
           (Some 1.5) Examples.game0 {| pt_x := 0; pt_y := 400 |});
    vm_compute; reflexivity.
Defined.

Lemma plan_lookup (random : nat -> Q) (n : nat) :
  (1 <= n <= 20)%nat ->
  exists k,
    Level.generateWaveConfigs random !! (n - 1)%nat
    = Some (fst (Level.waveConfig n random k)).
Proof.
  intros Hn. unfold Level.generateWaveConfigs, Level.maxWaves.
  assert (Hall : Forall2
            (fun i config => exists k, config = fst (Level.waveConfig i random k))
            (seq 1 20) (Level.waveConfigsFrom (seq 1 20) random 0)).
  { apply waveConfigsFrom_Forall. intros i k _. exists k. reflexivity. }
  assert (Hseq : seq 1 20 !! (n - 1)%nat = Some n).
  { rewrite lookup_seq_lt by lia. f_equal. lia. }
  destruct (Forall2_lookup_l _ _ _ _ _ Hall Hseq) as (config & Hc & k & ->).
  exists k. exact Hc.
Qed.

Lemma runSpawns_app (calls1 calls2 : list SpawnCall) (g : GameState) :
  Level.runSpawns (calls1 ++ calls2) g
  = match Level.runSpawns calls1 g with
    | Some g' => Level.runSpawns calls2 g'
    | None => None
    end.
Proof.
  revert g. induction calls1 as [| call calls1 IH]; intros g;
    cbn [Level.runSpawns app]; [reflexivity |].
  destruct (Level.spawnEnemy _ _ g); [apply IH | reflexivity].
Qed.

Lemma runSpawns_known (calls : list SpawnCall) (g : GameState) (start : Point) :
  g_path g !! 0%nat = Some start ->
  Forall (fun call => In (sc_type call) (JS.keys CONFIG.ENEMY_TYPES)) calls ->
  exists g',
    Level.runSpawns calls g = Some g'
    /\ g_enemiesSpawned g' = (g_enemiesSpawned g + Z.of_nat (length calls))%Z
    /\ length (g_enemies g') = (length (g_enemies g) + length calls)%nat
    /\ g_enemiesToSpawn g' = g_enemiesToSpawn g
    /\ g_waveInProgress g' = g_waveInProgress g
    /\ g_currentWave g' = g_currentWave g
    /\ g_path g' = g_path g
    /\ g_resources g' = g_resources g.
Proof.
  intros Hstart Hall. revert g Hstart.
  induction Hall as [| call calls Hcall _ IH]; intros g Hstart;
    cbn [Level.runSpawns length].
  - exists g. repeat split; lia.
  - destruct (prop_keys _ _ Hcall) as [config Hcfg].
    rewrite (spawnEnemy_known _ _ _ _ _ Hcfg Hstart).
    match goal with
    | |- context [Level.runSpawns calls ?g1] =>
        destruct (IH g1) as (g' & Hrun & H1 & H2 & H3 & H4 & H5 & H6 & H7);
        [exact Hstart |]
    end.
    exists g'. split; [exact Hrun |].
    unfold push_enemy in *.
    fields in H1; fields in H2; fields in H3; fields in H4; fields in H5;
      fields in H6; fields in H7.
    rewrite length_app in H2. cbn [length] in H2.
    repeat split; try assumption; lia.
Qed.

Lemma spawnEnemyGroup_types (groups : list EnemyGroup) (start : Q)
    (types : list string) :
  Forall (fun grp => In (grp_type grp) types) groups ->
  Forall (fun call => In (sc_type call) types)
         (Level.spawnEnemyGroup groups start).
Proof.
  intros Hall. revert start.
  induction Hall as [| grp groups Hgrp _ IH]; intros start;
    cbn [Level.spawnEnemyGroup]; [constructor |].
  apply Forall_app. split; [| apply IH].
  apply Forall_forall. intros call Hin.
  apply list_elem_of_fmap in Hin as (i & -> & _). exact Hgrp.
Qed.

(** X19.  A wave that is no boss wave, started on a path with a first
    point, spawns every enemy it announced: when all its timers have
    fired, [enemiesSpawned] equals [enemiesToSpawn], which is at least 1,
    and that many enemies were added.  From a state with these counts in
    which no enemy is left, [Level.update] ends the wave, pays the bonus
    of [50 + 10 * wave] dharma and sets the timer to [WAVE_DELAY]. *)
Theorem regular_wave_completes (random : nat -> Q) (n : nat) (g : GameState)
    (start : Point)
    (Hn : (1 <= n <= 20)%nat) (Hregular : (n mod 5 <> 0)%nat)
    (Hplan : g_waveConfigs g = Level.generateWaveConfigs random)
    (Hstart : g_path g !! 0%nat = Some start) :
  exists g2,
    Level.runSpawns (snd (Level.startWave n g)) (fst (Level.startWave n g))
    = Some g2
    /\ (1 <= g_enemiesToSpawn g2)%Z
    /\ g_enemiesSpawned g2 = g_enemiesToSpawn g2
    /\ Z.of_nat (length (g_enemies g2))
       = (Z.of_nat (length (g_enemies g)) + g_enemiesToSpawn g2)%Z
    /\ forall (g3 : GameState) (dt wt : Q),
         g_waveInProgress g3 = true ->
         g_enemiesSpawned g3 = g_enemiesSpawned g2 ->
         g_enemiesToSpawn g3 = g_enemiesToSpawn g2 ->
         g_currentWave g3 = n ->
         g_enemies g3 = [] ->
         Level.update dt wt g3 = (Level.completeWave g3, CONFIG.WAVE_DELAY, [])
         /\ g_waveInProgress (Level.completeWave g3) = false
         /\ dharma (g_resources (Level.completeWave g3))
            = (dharma (g_resources g3) + 50 + 10 * Z.of_nat n)%Z.
Proof.
  destruct (plan_lookup random n Hn) as [k Hk].
  pose proof (waveConfig_groups n random k) as [Hne Hcounts].
  assert (Htypes : Forall (fun grp => In (grp_type grp) (JS.keys CONFIG.ENEMY_TYPES))
                     (wc_enemies (fst (Level.waveConfig n random k)))).
  { unfold Level.waveConfig.
    destruct (Nat.eqb_spec (n mod 5) 0); [contradiction |].
    pose proof (regularGroups_counts n CONFIG.ENEMY_SPAWN_DELAY
                  (length (JS.keys CONFIG.ENEMY_TYPES))
                  (JS.keys CONFIG.ENEMY_TYPES) 0 random k) as Hc.
    destruct (Level.regularGroups _ _ _ _ _ _ _) as [groups k'].
    cbn [fst wc_enemies] in *.
    eapply Forall_impl; [exact Hc |]. intros grp [_ ?]. assumption. }
  set (groups := wc_enemies (fst (Level.waveConfig n random k))) in *.
  unfold Level.startWave.
  destruct (Nat.ltb_spec Level.maxWaves n) as [Hgt | _];
    [unfold Level.maxWaves in Hgt; lia |].
  fields. rewrite Hplan, Hk. fold groups. cbn [fst snd].
  set (g0 := set_g_enemiesToSpawn 0 _).
  set (g1 := fold_left _ groups g0).
  assert (Hg1 : g_path g1 = g_path g0 /\ g_enemiesSpawned g1 = g_enemiesSpawned g0
                /\ g_enemies g1 = g_enemies g0
                /\ g_waveInProgress g1 = g_waveInProgress g0).
  { subst g1. generalize g0. clear.
    induction groups as [| grp groups IH]; intros g0; cbn [fold_left];
      [repeat split |].
    destruct (IH (set_g_enemiesToSpawn (g_enemiesToSpawn g0 + grp_count grp) g0))
      as (-> & -> & -> & ->).
    repeat split. }
  destruct Hg1 as (Hp1 & Hs1 & He1 & Hw1).
  assert (Hcount : g_enemiesToSpawn g1
                   = Z.of_nat (length (Level.spawnEnemyGroup groups 0))).
  { subst g1. rewrite (count_timers groups 0 g0).
    - subst g0. fields. lia.
    - eapply Forall_impl; [exact Hcounts |]. intros grp Hgrp.
      cbv beta in Hgrp. lia. }
  assert (Hpos : (1 <= length (Level.spawnEnemyGroup groups 0))%nat).
  { destruct groups as [| grp groups']; [contradiction |].
    apply Forall_cons in Hcounts as [Hgrp _].
    cbn [Level.spawnEnemyGroup]. rewrite length_app, length_map, length_seq.
    lia. }
  destruct (runSpawns_known (Level.spawnEnemyGroup groups 0) g1 start)
    as (g2 & Hrun & H1 & H2 & H3 & H4 & H5 & H6 & H7).
  { rewrite Hp1. subst g0. fields. exact Hstart. }
  { apply spawnEnemyGroup_types. exact Htypes. }
  exists g2. split; [exact Hrun |].
  rewrite Hs1 in H1. rewrite He1 in H2.
  subst g0. fields in H1. fields in H2.
  split; [lia |]. split; [lia |]. split; [lia |].
  intros g3 dt wt Hw Hsp Hto Hcw Hen.
  assert (Hdone : (g_enemiesToSpawn g3 <=? g_enemiesSpawned g3)%Z = true)
    by (apply Z.leb_le; lia).
  split.
  - unfold Level.update.
    destruct (JS.gt wt 0).
    + rewrite Hw, andb_false_r. rewrite Hw, Hdone, Hen. reflexivity.
    + rewrite Hw, Hdone, Hen. reflexivity.
  - unfold Level.completeWave. fields. rewrite Hcw. split; [reflexivity | lia].
Qed.

Lemma regular_wave_completes_witness :
  exists g2,
    Level.runSpawns (snd (Level.startWave 3 Examples.game0))
                    (fst (Level.startWave 3 Examples.game0))
    = Some g2
    /\ (1 <= g_enemiesToSpawn g2)%Z
    /\ g_enemiesSpawned g2 = g_enemiesToSpawn g2
    /\ Z.of_nat (length (g_enemies g2))
       = (Z.of_nat (length (g_enemies Examples.game0)) + g_enemiesToSpawn g2)%Z
    /\ forall (g3 : GameState) (dt wt : Q),
         g_waveInProgress g3 = true ->
         g_enemiesSpawned g3 = g_enemiesSpawned g2 ->
         g_enemiesToSpawn g3 = g_enemiesToSpawn g2 ->
         g_currentWave g3 = 3%nat ->
         g_enemies g3 = [] ->
         Level.update dt wt g3 = (Level.completeWave g3, CONFIG.WAVE_DELAY, [])
         /\ g_waveInProgress (Level.completeWave g3) = false
         /\ dharma (g_resources (Level.completeWave g3))
            = (dharma (g_resources g3) + 50 + 10 * Z.of_nat 3)%Z.
Proof.
  apply (regular_wave_completes (fun _ => 0) 3 Examples.game0
           {| pt_x := 0; pt_y := 400 |}).
  - lia.
  - vm_compute. discriminate.
  - vm_compute. reflexivity.
  - vm_compute. reflexivity.
Defined.

(** X20.  A boss wave never ends through [Level.update]: [spawnEnemy]
    returns at once for the type of the boss, which is no key of
    [CONFIG.ENEMY_TYPES], so when all timers have fired the wave has
    spawned its [5 + wave] script kiddies and no boss, one enemy less than
    [enemiesToSpawn]; in every state with these counts [Level.update]
    changes nothing. *)
Theorem boss_wave_never_completes (random : nat -> Q) (n : nat)
    (g : GameState) (start : Point)
    (Hn : (1 <= n <= 20)%nat) (Hboss : (n mod 5 = 0)%nat)
    (Hplan : g_waveConfigs g = Level.generateWaveConfigs random)
    (Hstart : g_path g !! 0%nat = Some start) :
  exists g2,
    Level.runSpawns (snd (Level.startWave n g)) (fst (Level.startWave n g))
    = Some g2
    /\ g_enemiesToSpawn g2 = (6 + Z.of_nat n)%Z
    /\ g_enemiesSpawned g2 = (5 + Z.of_nat n)%Z
    /\ Z.of_nat (length (g_enemies g2))
       = (Z.of_nat (length (g_enemies g)) + 5 + Z.of_nat n)%Z
    /\ forall (g3 : GameState) (dt wt : Q),
         g_waveInProgress g3 = true ->
         g_enemiesSpawned g3 = g_enemiesSpawned g2 ->
         g_enemiesToSpawn g3 = g_enemiesToSpawn g2 ->
         fst (fst (Level.update dt wt g3)) = g3
         /\ snd (Level.update dt wt g3) = [].
Proof.
  destruct (plan_lookup random n Hn) as [k Hk].
  unfold Level.waveConfig in Hk.
  destruct (Nat.eqb_spec (n mod 5) 0); [| contradiction].
  cbn [fst] in Hk.
  unfold Level.startWave.
  destruct (Nat.ltb_spec Level.maxWaves n) as [Hgt | _];
    [unfold Level.maxWaves in Hgt; lia |].
  fields. rewrite Hplan, Hk. fields. cbn [fst snd fold_left]. fields.
  cbn [Level.spawnEnemyGroup]. fields.
  change (Z.to_nat 1) with 1%nat. cbn [seq map app]. fields.
  cbn [Level.runSpawns]. fields.
  assert (Hb : Level.spawnEnemy (if (n <=? 10)%nat then "raidTeam"
                                 else "megaCorpTitan")
                 (Some (1 + (Level.ofNat n - 5) * 0.2))
               = fun g => Some g).
  { destruct (n <=? 10)%nat; reflexivity. }
  rewrite Hb. rewrite app_nil_r.
  match goal with
  | |- context [Level.runSpawns ?calls ?g1] =>
      destruct (runSpawns_known calls g1 start)
        as (g2 & Hrun & H1 & H2 & H3 & H4 & H5 & H6 & H7);
      [fields; exact Hstart | |]
  end.
  { apply Forall_forall. intros call Hin.
    apply list_elem_of_fmap in Hin as (i & -> & _). left. reflexivity. }
  exists g2. split; [exact Hrun |].
  rewrite length_map, length_seq in H1, H2.
  fields in H1. fields in H2. fields in H3.
  split; [lia |]. split; [lia |]. split; [lia |].
  intros g3 dt wt Hw Hsp Hto.
  assert (Hdone : (g_enemiesToSpawn g3 <=? g_enemiesSpawned g3)%Z = false)
    by (apply Z.leb_gt; lia).
  unfold Level.update.
  destruct (JS.gt wt 0).
  - rewrite Hw, andb_false_r. rewrite Hw, Hdone. split; reflexivity.
  - rewrite Hw, Hdone. split; reflexivity.
Qed.

Lemma boss_wave_never_completes_witness :
  exists g2,
    Level.runSpawns (snd (Level.startWave 5 Examples.game0))
                    (fst (Level.startWave 5 Examples.game0))
    = Some g2
    /\ g_enemiesToSpawn g2 = (6 + Z.of_nat 5)%Z
    /\ g_enemiesSpawned g2 = (5 + Z.of_nat 5)%Z
    /\ Z.of_nat (length (g_enemies g2))
       = (Z.of_nat (length (g_enemies Examples.game0)) + 5 + Z.of_nat 5)%Z
    /\ forall (g3 : GameState) (dt wt : Q),
         g_waveInProgress g3 = true ->
         g_enemiesSpawned g3 = g_enemiesSpawned g2 ->
         g_enemiesToSpawn g3 = g_enemiesToSpawn g2 ->
         fst (fst (Level.update dt wt g3)) = g3
         /\ snd (Level.update dt wt g3) = [].
Proof.
  apply (boss_wave_never_completes (fun _ => 0) 5 Examples.game0
           {| pt_x := 0; pt_y := 400 |}).
  - lia.
  - vm_compute. reflexivity.
  - vm_compute. reflexivity.
  - vm_compute. reflexivity.
Defined.

End LevelSpec.

(** ** Boss waves *)

Module BossWaveSpec.

Lemma updateTarget_kind (path : list Point) (e : EnemyObj) :
  e_type (Enemy.updateTarget path e) = e_type e
  /\ e_boss (Enemy.updateTarget path e) = e_boss e.
Proof.
  unfold Enemy.updateTarget.
  destruct (0 <? length path)%nat; [| split; reflexivity].
  destruct (e_pathIndex e <? length path - 1)%nat; [| split; reflexivity].
  destruct (path !! S (e_pathIndex e)); split; reflexivity.
Qed.

(** The timers of a swarm of script kiddies: each adds one script kiddie,
    which is no boss, under the next reference. *)
Lemma runSpawns_kiddies (calls : list SpawnCall) (g : GameState)
    (start : Point) :
  g_path g !! 0%nat = Some start ->
  Forall (fun call => sc_type call = "scriptKiddie") calls ->
  exists g',
    Level.runSpawns calls g = Some g'
    /\ g_enemies g' = (g_enemies g ++ seq (g_nextRef g) (length calls))%list
    /\ g_nextRef g' = (g_nextRef g + length calls)%nat
    /\ (forall r, (r < g_nextRef g)%nat -> g_store g' !! r = g_store g !! r)
    /\ (forall i, (i < length calls)%nat ->
          exists e,
            g_store g' !! (g_nextRef g + i)%nat = Some e
            /\ e_type e = "scriptKiddie" /\ e_boss e = None).
Proof.
  intros Hstart Hall. revert g Hstart.
  induction Hall as [| call calls Hcall _ IH]; intros g Hstart;
    cbn [Level.runSpawns length].
  - exists g. split; [reflexivity |].
    split; [cbn [seq]; rewrite app_nil_r; reflexivity |].
    split; [lia |]. split; [reflexivity | intros i Hi; lia].
  - assert (Hcfg : exists config,
              JS.prop CONFIG.ENEMY_TYPES "scriptKiddie" = Some config)
      by (eexists; reflexivity).
    destruct Hcfg as [config Hcfg]. rewrite Hcall.
    rewrite (LevelSpec.spawnEnemy_known _ _ _ _ _ Hcfg Hstart).
    match goal with
    | |- context [Level.runSpawns calls ?g1] =>
        destruct (IH g1) as (g' & Hrun & Hen & Hnext & Hold & Hnew);
        [exact Hstart |]
    end.
    unfold push_enemy in Hen, Hnext, Hold, Hnew.
    fields in Hen. fields in Hnext. fields in Hold. fields in Hnew.
    exists g'. split; [exact Hrun |].
    split; [rewrite Hen, <- app_assoc; reflexivity |].
    split; [lia |].
    split.
    + intros r Hr. rewrite Hold by lia.
      apply lookup_insert_ne. lia.
    + intros [| i] Hi.
      * rewrite Nat.add_0_r, Hold by lia. rewrite lookup_insert_eq.
        eexists. split; [reflexivity |]. fields. unfold Enemy.init.
        destruct (updateTarget_kind (g_path g)
                    {| e_x := pt_x start; e_y := pt_y start;
                       e_type := "scriptKiddie";
                       e_health := ec_health config;
                       e_maxHealth := ec_health config;
                       e_speed := ec_speed config;
                       e_baseSpeed := ec_speed config;
                       e_damage := 1; e_reward := ec_reward config;
                       e_pathIndex := 0; e_progress := 0;
                       e_targetX := pt_x start; e_targetY := pt_y start;
                       e_reachedEnd := false; e_isDead := false;
                       e_deathTime := 0;
                       e_resistance := Enemy.defaultResistance;
                       e_specialAbilityCooldown := 0;
                       e_specialAbilityActive := false;
                       e_specialAbilityDuration := 0; e_statusEffects := ∅;
                       e_targetPriority := 0; e_threatLevel := 1;
                       e_radius := None; e_scoreValue := None;
                       e_boss := None |}) as [Ht Hb].
        split; assumption.
      * destruct (Hnew i) as (e & He & Hk); [lia |].
        exists e. split; [| exact Hk].
        rewrite <- He. f_equal. lia.
Qed.

(** C1 on the code.  The plan of a fifth wave [n <= 20] announces one
    boss, a raid team up to wave 10 and a titan after, and a swarm of
    [5 + n] script kiddies.  [spawnEnemy] looks the type up in
    [CONFIG.ENEMY_TYPES] before it reaches its own [new Boss] branch and
    returns for a boss type, and [new Boss] throws for every type.  So
    when the timers of the wave have fired, on any path with a first point
    and whatever the draws, the enemies added are [5 + n] script kiddies
    and no boss. *)
Theorem boss_wave_spawns_no_boss (random : nat -> Q) (n : nat)
    (g : GameState) (start : Point)
    (Hn : (1 <= n <= 20)%nat) (Hboss : (n mod 5 = 0)%nat)
    (Hplan : g_waveConfigs g = Level.generateWaveConfigs random)
    (Hstart : g_path g !! 0%nat = Some start) :
  (exists config,
     g_waveConfigs g !! (n - 1)%nat = Some config
     /\ wc_bossWave config = true
     /\ map (fun grp => (grp_type grp, grp_count grp)) (wc_enemies config)
        = [ (if (n <=? 10)%nat then "raidTeam" else "megaCorpTitan", 1%Z);
            ("scriptKiddie", 5 + Z.of_nat n)%Z ])
  /\ (forall g0 x y type, Boss.new g0 x y type = None)
  /\ (forall g0 health,
        Level.spawnEnemy (if (n <=? 10)%nat then "raidTeam" else "megaCorpTitan")
          health g0 = Some g0)
  /\ exists g2,
       Level.runSpawns (snd (Level.startWave n g)) (fst (Level.startWave n g))
       = Some g2
       /\ g_enemies g2 = (g_enemies g ++ seq (g_nextRef g) (5 + n))%list
       /\ (forall r, (r < g_nextRef g)%nat -> g_store g2 !! r = g_store g !! r)
       /\ forall i, (i < 5 + n)%nat ->
            exists e,
              g_store g2 !! (g_nextRef g + i)%nat = Some e
              /\ e_type e = "scriptKiddie" /\ e_boss e = None.
Proof.
  destruct (LevelSpec.plan_lookup random n Hn) as [k Hk].
  unfold Level.waveConfig in Hk.
  destruct (Nat.eqb_spec (n mod 5) 0); [| contradiction].
  cbn [fst] in Hk.
  assert (Hguard : forall g0 health,
            Level.spawnEnemy
              (if (n <=? 10)%nat then "raidTeam" else "megaCorpTitan")
              health g0 = Some g0).
  { intros g0 health. destruct (n <=? 10)%nat; reflexivity. }
  split.
  { rewrite Hplan, Hk. eexists. split; [reflexivity |].
    split; reflexivity. }
  split; [exact WaveSpec.Boss_new_throws |].
  split; [exact Hguard |].
  unfold Level.startWave.
  destruct (Nat.ltb_spec Level.maxWaves n) as [Hgt | _];
    [unfold Level.maxWaves in Hgt; lia |].
  fields. rewrite Hplan, Hk. fields. cbn [fst snd fold_left]. fields.
  cbn [Level.spawnEnemyGroup]. fields.
  change (Z.to_nat 1) with 1%nat. cbn [seq map app]. fields.
  cbn [Level.runSpawns]. fields.
  rewrite Hguard, app_nil_r.
  match goal with
  | |- context [Level.runSpawns ?calls ?g1] =>
      destruct (runSpawns_kiddies calls g1 start)
        as (g2 & Hrun & Hen & _ & Hold & Hnew);
      [fields; exact Hstart | |]
  end.
  { apply Forall_forall. intros call Hin.
    apply list_elem_of_fmap in Hin as (i & -> & _). reflexivity. }
  rewrite length_map, length_seq in Hen, Hnew.
  fields in Hen. fields in Hold. fields in Hnew.
  replace (Z.to_nat (5 + Z.of_nat n)) with (5 + n)%nat in Hen, Hnew by lia.
  exists g2. split; [exact Hrun |].
  split; [exact Hen |]. split; [exact Hold | exact Hnew].
Qed.

(** Wave 5 of a new game on the three-point path, every draw 0: the plan
    announces a raid team and 10 script kiddies, and the timers leave the
    references 0 to 9, all script kiddies. *)
Lemma boss_wave_spawns_no_boss_witness :
  (exists config,
     g_waveConfigs Examples.game0 !! (5 - 1)%nat = Some config
     /\ wc_bossWave config = true
     /\ map (fun grp => (grp_type grp, grp_count grp)) (wc_enemies config)
        = [ (if (5 <=? 10)%nat then "raidTeam" else "megaCorpTitan", 1%Z);
            ("scriptKiddie", 5 + Z.of_nat 5)%Z ])
  /\ (forall g0 x y type, Boss.new g0 x y type = None)
  /\ (forall g0 health,
        Level.spawnEnemy (if (5 <=? 10)%nat then "raidTeam" else "megaCorpTitan")
          health g0 = Some g0)
  /\ exists g2,
       Level.runSpawns (snd (Level.startWave 5 Examples.game0))
                       (fst (Level.startWave 5 Examples.game0))
       = Some g2
       /\ g_enemies g2
          = (g_enemies Examples.game0
             ++ seq (g_nextRef Examples.game0) (5 + 5))%list
       /\ (forall r, (r < g_nextRef Examples.game0)%nat ->
                     g_store g2 !! r = g_store Examples.game0 !! r)
       /\ forall i, (i < 5 + 5)%nat ->
            exists e,
              g_store g2 !! (g_nextRef Examples.game0 + i)%nat = Some e
              /\ e_type e = "scriptKiddie" /\ e_boss e = None.
Proof.
  apply (boss_wave_spawns_no_boss (fun _ => 0) 5 Examples.game0
           {| pt_x := 0; pt_y := 400 |}).
  - lia.
  - vm_compute. reflexivity.
  - vm_compute. reflexivity.
  - vm_compute. reflexivity.
Defined.

End BossWaveSpec.

(** ** The timer between waves, and the cooldown of a special ability *)

Module CycleSpec.

(** X21.  Between waves, when the timer runs out, [Level.update] starts
    the wave after the current one: with the plan of
    [generateWaveConfigs] and a current wave below 20 the next wave is in
    progress, nothing is spawned yet, at least one enemy is announced and
    one timer is set for each; after wave 20 the game is won and no wave
    is started. *)
Theorem timer_starts_next_wave (random : nat -> Q) (dt wt : Q)
    (g : GameState)
    (Hplan : g_waveConfigs g = Level.generateWaveConfigs random)
    (Hidle : g_waveInProgress g = false)
    (Hwave : (g_currentWave g <= 20)%nat)
    (Hrunning : 0 < wt) (Hout : wt - dt <= 0) :
  if (g_currentWave g <? 20)%nat then
    g_currentWave (fst (fst (Level.update dt wt g))) = S (g_currentWave g)
    /\ g_waveInProgress (fst (fst (Level.update dt wt g))) = true
    /\ g_enemiesSpawned (fst (fst (Level.update dt wt g))) = 0%Z
    /\ (1 <= g_enemiesToSpawn (fst (fst (Level.update dt wt g))))%Z
    /\ Z.of_nat (length (snd (Level.update dt wt g)))
       = g_enemiesToSpawn (fst (fst (Level.update dt wt g)))
    /\ g_isVictory (fst (fst (Level.update dt wt g))) = g_isVictory g
  else
    Level.update dt wt g = (set_g_isVictory true g, wt - dt, []).
Proof.
  unfold Level.update.
  assert (H1 : JS.gt wt 0 = true) by (apply JS_lt_iff; exact Hrunning).
  assert (H2 : JS.le (wt - dt) 0 = true) by (apply JS_le_iff; exact Hout).
  rewrite H1, H2, Hidle. cbn [andb negb].
  unfold Level.startWave.
  destruct (Nat.ltb_spec (g_currentWave g) 20) as [Hlt | Hge].
  - destruct (Nat.ltb_spec Level.maxWaves (g_currentWave g + 1)) as [Hgt | _];
      [unfold Level.maxWaves in Hgt; lia |].
    fields. rewrite Hplan.
    destruct (LevelSpec.plan_lookup random (g_currentWave g + 1)) as [k Hk];
      [lia |].
    rewrite Hk.
    pose proof (LevelSpec.waveConfig_groups (g_currentWave g + 1) random k)
      as [Hne Hcounts].
    set (groups := wc_enemies (fst (Level.waveConfig (g_currentWave g + 1) random k)))
      in *.
    set (g0 := set_g_enemiesToSpawn 0 _).
    assert (Hframe : forall (l : list EnemyGroup) g0,
              let g1 := fold_left
                          (fun g enemyGroup =>
                             set_g_enemiesToSpawn
                               (g_enemiesToSpawn g + grp_count enemyGroup) g)
                          l g0 in
              g_currentWave g1 = g_currentWave g0
              /\ g_waveInProgress g1 = g_waveInProgress g0
              /\ g_enemiesSpawned g1 = g_enemiesSpawned g0
              /\ g_isVictory g1 = g_isVictory g0).
    { induction l as [| grp l IH]; intros g'; cbn [fold_left]; [repeat split |].
      destruct (IH (set_g_enemiesToSpawn (g_enemiesToSpawn g' + grp_count grp) g'))
        as (-> & -> & -> & ->).
      repeat split. }
    destruct (Hframe groups g0) as (Hc & Hw & Hs & Hv).
    assert (Hcount :
              g_enemiesToSpawn
                (fold_left
                   (fun g enemyGroup =>
                      set_g_enemiesToSpawn
                        (g_enemiesToSpawn g + grp_count enemyGroup) g)
                   groups g0)
              = Z.of_nat (length (Level.spawnEnemyGroup groups 0))).
    { rewrite (LevelSpec.count_timers groups 0 g0).
      - subst g0. fields. lia.
      - eapply Forall_impl; [exact Hcounts |]. intros grp Hgrp.
        cbv beta in Hgrp. lia. }
    assert (Hpos : (1 <= length (Level.spawnEnemyGroup groups 0))%nat).
    { destruct groups as [| grp groups']; [contradiction |].
      apply Forall_cons in Hcounts as [Hgrp _].
      cbn [Level.spawnEnemyGroup]. rewrite length_app, length_map, length_seq.
      lia. }
    set (g1 := fold_left _ groups g0) in *.
    subst g0. fields in Hc. fields in Hw. fields in Hs. fields in Hv.
    rewrite Hw.
    assert (Hnot : (g_enemiesToSpawn g1 <=? g_enemiesSpawned g1)%Z = false)
      by (apply Z.leb_gt; lia).
    rewrite Hnot. cbn [andb fst snd].
    repeat split; try assumption; try lia.
  - destruct (Nat.ltb_spec Level.maxWaves (g_currentWave g + 1)) as [_ | Hle];
      [| unfold Level.maxWaves in Hle; lia].
    fields. rewrite Hidle. reflexivity.
Qed.

Lemma timer_starts_next_wave_witness :
  if (g_currentWave Examples.game0 <? 20)%nat then
    g_currentWave (fst (fst (Level.update 16 10 Examples.game0)))
    = S (g_currentWave Examples.game0)
    /\ g_waveInProgress (fst (fst (Level.update 16 10 Examples.game0))) = true
    /\ g_enemiesSpawned (fst (fst (Level.update 16 10 Examples.game0))) = 0%Z
    /\ (1 <= g_enemiesToSpawn (fst (fst (Level.update 16 10 Examples.game0))))%Z
    /\ Z.of_nat (length (snd (Level.update 16 10 Examples.game0)))
       = g_enemiesToSpawn (fst (fst (Level.update 16 10 Examples.game0)))
    /\ g_isVictory (fst (fst (Level.update 16 10 Examples.game0)))
       = g_isVictory Examples.game0
  else
    Level.update 16 10 Examples.game0
    = (set_g_isVictory true Examples.game0, 10 - 16, []).
Proof.
  apply (timer_starts_next_wave (fun _ => 0) 16 10 Examples.game0).
  - vm_compute. reflexivity.
  - vm_compute. reflexivity.
  - vm_compute. lia.
  - reflexivity.
  - discriminate.
Defined.

Section WithHost.
Context `{Host}.

(** X22.  A special ability cannot be activated again while it cools
    down: a second [activateSpecialAbility] right after the first changes
    nothing. *)
Theorem ability_cools_down (now now' : Z) (this : nat) (g : GameState) :
  DefenseActions.activateSpecialAbility now' this
    (DefenseActions.activateSpecialAbility now this g)
  = DefenseActions.activateSpecialAbility now this g.
Proof.
  assert (Hblocked : forall g1 d1,
            g_defenses g1 !! this = Some d1 ->
            0 < d_specialAbilityCooldown d1 ->
            DefenseActions.activateSpecialAbility now' this g1 = g1).
  { intros g1 d1 Hd1 Hpos. unfold DefenseActions.activateSpecialAbility.
    rewrite Hd1.
    assert (Hle : JS.le (d_specialAbilityCooldown d1) 0 = false)
      by (apply JS_le_false_iff; exact Hpos).
    rewrite Hle. reflexivity. }
  unfold DefenseActions.activateSpecialAbility at 2 3.
  destruct (g_defenses g !! this) as [d |] eqn:Hd.
  - destruct (JS.le (d_specialAbilityCooldown d) 0) eqn:Hle; cbn [negb].
    + set (d0 := set_d_specialAbilityCooldown 30000
                   (set_d_specialAbilityDuration 5000
                      (set_d_specialAbilityActive true d))).
      assert (H0 : g_defenses
                     (DefenseActions.update_defense this
                        (fun d => set_d_specialAbilityCooldown 30000
                                    (set_d_specialAbilityDuration 5000
                                       (set_d_specialAbilityActive true d))) g)
                   !! this = Some d0).
      { unfold DefenseActions.update_defense. fields.
        rewrite list_lookup_alter.
        destruct (decide (this = this)); [| congruence].
        rewrite Hd. reflexivity. }
      set (g0 := DefenseActions.update_defense this _ g) in *.
      assert (Hafter : exists d1,
                g_defenses (DefenseActions.applySpecialAbilityEffects now this g0)
                !! this = Some d1
                /\ d_specialAbilityCooldown d1 = 30000).
      { unfold DefenseActions.applySpecialAbilityEffects. rewrite H0.
        destruct (String.eqb (d_type d0) "encryption");
          [exists d0; split; [exact H0 | reflexivity] |].
        destruct (String.eqb (d_type d0) "mirror").
        { unfold DefenseActions.update_defense. fields.
          rewrite list_lookup_alter.
          destruct (decide (this = this)); [| congruence].
          rewrite H0. eexists. split; [reflexivity | reflexivity]. }
        destruct (String.eqb (d_type d0) "anonymity");
          [| exists d0; split; [exact H0 | reflexivity]].
        unfold DefenseActions.createCloakField. fields.
        rewrite list_lookup_fmap, H0. cbn [fmap option_fmap option_map].
        eexists. split; [reflexivity |].
        subst d0.
        match goal with
        | |- context [if ?c then _ else _] => destruct c
        end; reflexivity. }
      destruct Hafter as (d1 & Hd1 & Hcool).
      apply (Hblocked _ d1 Hd1). rewrite Hcool. reflexivity.
    + unfold DefenseActions.activateSpecialAbility. rewrite Hd, Hle.
      reflexivity.
  - unfold DefenseActions.activateSpecialAbility. rewrite Hd. reflexivity.
Qed.

End WithHost.
End CycleSpec.

(** ** [DefenseManager] and targeting *)

Module ManagerSpec.
Section WithHost.
Context `{Host}.

Lemma nearest_fold (x y : Q) (defenses : list DefenseObj)
    (nearest : option DefenseObj) (nearestDistance : Q) :
  let dist defense :=
    Utils.distance x y (d_x defense + GRID_SIZE / 2)
                       (d_y defense + GRID_SIZE / 2) in
  let result :=
    fold_left
      (fun '(nearest, nearestDistance) defense =>
         if JS.lt (dist defense) nearestDistance
         then (Some defense, dist defense)
         else (nearest, nearestDistance))
      defenses (nearest, nearestDistance) in
  snd result <= nearestDistance
  /\ (forall defense, In defense defenses -> snd result <= dist defense)
  /\ (result = (nearest, nearestDistance)
      \/ exists defense,
           result = (Some defense, dist defense)
           /\ In defense defenses /\ dist defense < nearestDistance).
Proof.
  cbv zeta. revert nearest nearestDistance.
  induction defenses as [| defense defenses IH]; intros nearest nearestDistance;
    cbn [fold_left].
  - cbn [snd]. split; [lra |]. split; [intros ? [] | left; reflexivity].
  - js_case.
    + match goal with
      | |- context [fold_left ?f defenses (Some defense, ?dd)] =>
          destruct (IH (Some defense) dd) as (Hle & Hall & Hres)
      end.
      split; [lra |]. split.
      * intros d' [<- | Hin]; [exact Hle | apply Hall, Hin].
      * right. destruct Hres as [-> | (d' & -> & Hin & Hlt)].
        -- exists defense. split; [reflexivity |].
           split; [left; reflexivity | assumption].
        -- exists d'. split; [reflexivity |].
           split; [right; assumption | lra].
    + destruct (IH nearest nearestDistance) as (Hle & Hall & Hres).
      split; [exact Hle |]. split.
      * intros d' [<- | Hin]; [lra | apply Hall, Hin].
      * destruct Hres as [-> | (d' & -> & Hin & Hlt)]; [left; reflexivity |].
        right. exists d'. split; [reflexivity |].
        split; [right; assumption | assumption].
Qed.

(** X23.  [getNearestDefense] returns a defense of the game whose center
    is nearer than [maxRange] and at least as near as the center of every
    other defense; it returns [null] exactly when no center is nearer
    than [maxRange]. *)
Theorem nearest_defense_is_nearest (g : GameState) (x y maxRange : Q) :
  match DefenseManager.getNearestDefense g x y maxRange with
  | Some defense =>
      In defense (g_defenses g)
      /\ Utils.distance x y (d_x defense + GRID_SIZE / 2)
                            (d_y defense + GRID_SIZE / 2) < maxRange
      /\ forall other,
           In other (g_defenses g) ->
           Utils.distance x y (d_x defense + GRID_SIZE / 2)
                              (d_y defense + GRID_SIZE / 2)
           <= Utils.distance x y (d_x other + GRID_SIZE / 2)
                                 (d_y other + GRID_SIZE / 2)
  | None =>
      forall other,
        In other (g_defenses g) ->
        maxRange <= Utils.distance x y (d_x other + GRID_SIZE / 2)
                                       (d_y other + GRID_SIZE / 2)
  end.
Proof.
  unfold DefenseManager.getNearestDefense.
  pose proof (nearest_fold x y (g_defenses g) None maxRange) as Hfold.
  cbv zeta in Hfold. destruct Hfold as (Hle & Hall & Hres).
  destruct Hres as [Hres | (defense & Hres & Hin & Hlt)];
    rewrite Hres in *; cbn [fst snd] in *.
  - exact Hall.
  - split; [exact Hin |]. split; [exact Hlt | exact Hall].
Qed.

Lemma best_fold (d : DefenseObj) (g : GameState) (enemies : list nat)
    (best : option (nat * Q)) :
  let inRange r :=
    exists e,
      g_store g !! r = Some e
      /\ Utils.distance (d_centerX d) (d_centerY d) (e_x e) (e_y e)
         <= d_range d in
  match fold_left (Defense.considerTarget d g) enemies best with
  | Some (r, score) =>
      best = Some (r, score) \/ (In r enemies /\ inRange r)
  | None =>
      best = None /\ forall r, In r enemies -> ~ inRange r
  end.
Proof.
  cbv zeta. revert best.
  induction enemies as [| r enemies IH]; intros best; cbn [fold_left].
  - destruct best as [[r s] |]; [left; reflexivity |].
    split; [reflexivity | intros ? []].
  - specialize (IH (Defense.considerTarget d g best r)).
    destruct (fold_left _ enemies _) as [[r' s'] |].
    + destruct IH as [Hbest | [Hin Hrange]];
        [| right; split; [right; assumption | assumption]].
      unfold Defense.considerTarget in Hbest.
      destruct (g_store g !! r) as [enemy |] eqn:Hs; [| left; assumption].
      destruct (JS.le _ (d_range d)) eqn:Hle; [| left; assumption].
      apply JS_le_iff in Hle.
      assert (Hhere : In r (r :: enemies)
                      /\ exists e, g_store g !! r = Some e
                           /\ Utils.distance (d_centerX d) (d_centerY d)
                                (e_x e) (e_y e) <= d_range d).
      { split; [left; reflexivity | exists enemy; split; [exact Hs | exact Hle]]. }
      destruct best as [[r0 s0] |].
      * destruct (JS.gt _ s0); [| left; assumption].
        injection Hbest as <- _. right. exact Hhere.
      * injection Hbest as <- _. right. exact Hhere.
    + destruct IH as [Hbest Hnone].
      unfold Defense.considerTarget in Hbest.
      destruct (g_store g !! r) as [enemy |] eqn:Hs.
      * destruct (JS.le _ (d_range d)) eqn:Hle.
        -- destruct best as [[r0 s0] |]; [destruct (JS.gt _ s0) |]; discriminate.
        -- apply JS_le_false_iff in Hle. split; [exact Hbest |].
           intros r1 [<- | Hin]; [| apply Hnone, Hin].
           intros (e & He & Hr). rewrite Hs in He. injection He as <-. lra.
      * split; [exact Hbest |].
        intros r1 [<- | Hin]; [| apply Hnone, Hin].
        intros (e & He & _). rewrite Hs in He. discriminate.
Qed.

(** X24.  In a game in which no enemy has a maximum health of 0, the
    target [Defense.findBestTarget] returns is an enemy of the game within
    the range of the defense, and it returns [null] exactly when no enemy
    of the game is within range. *)
Theorem best_target_is_in_range (d : DefenseObj) (g : GameState)
    (Hhealth : forall r e,
       In r (g_enemies g) -> g_store g !! r = Some e ->
       ~ e_maxHealth e == 0) :
  match Defense.findBestTarget d g with
  | Some r =>
      In r (g_enemies g)
      /\ exists e,
           g_store g !! r = Some e
           /\ Utils.distance (d_centerX d) (d_centerY d) (e_x e) (e_y e)
              <= d_range d
  | None =>
      forall r e,
        In r (g_enemies g) -> g_store g !! r = Some e ->
        d_range d < Utils.distance (d_centerX d) (d_centerY d) (e_x e) (e_y e)
  end.
Proof.
  unfold Defense.findBestTarget.
  pose proof (best_fold d g (g_enemies g) None) as Hfold. cbv zeta in Hfold.
  destruct (fold_left _ (g_enemies g) None) as [[r s] |]; cbn [fmap option_fmap option_map fst].
  - destruct Hfold as [Hf | Hok]; [discriminate | exact Hok].
  - destruct Hfold as [_ Hnone]. intros r e Hin He.
    apply Qnot_le_lt. intros Hle. apply (Hnone r Hin).
    exists e. split; assumption.
Qed.

End WithHost.

(** The firewall of [aimedGame] and its saboteur, 60 away and of maximum
    health 35. *)
Lemma best_target_is_in_range_witness :
  match Defense.findBestTarget (H := exactHost)
          (Examples.defense 0 440 "firewall") Examples.aimedGame with
  | Some r =>
      In r (g_enemies Examples.aimedGame)
      /\ exists e,
           g_store Examples.aimedGame !! r = Some e
           /\ Utils.distance (H := exactHost)
                (d_centerX (Examples.defense 0 440 "firewall"))
                (d_centerY (Examples.defense 0 440 "firewall"))
                (e_x e) (e_y e)
              <= d_range (Examples.defense 0 440 "firewall")
  | None =>
      forall r e,
        In r (g_enemies Examples.aimedGame) ->
        g_store Examples.aimedGame !! r = Some e ->
        d_range (Examples.defense 0 440 "firewall")
        < Utils.distance (H := exactHost)
            (d_centerX (Examples.defense 0 440 "firewall"))
            (d_centerY (Examples.defense 0 440 "firewall"))
            (e_x e) (e_y e)
  end.
Proof.
  apply (best_target_is_in_range (H := exactHost)
           (Examples.defense 0 440 "firewall") Examples.aimedGame).
  intros r e _ Hr.
  change (({[0%nat := set_e_x 20 (Examples.enemy "corporateSaboteur")]}
            : gmap nat EnemyObj) !! r = Some e) in Hr.
  apply lookup_singleton_Some in Hr as [_ <-].
  intros Hzero. vm_compute in Hzero. discriminate Hzero.
Defined.
End ManagerSpec.

(** ** Placing and upgrading defenses *)

Module PlacementSpec.
Section WithHost.
Context `{Host}.

Lemma existsb_false {A : Type} (f : A -> bool) (l : list A) :
  existsb f l = false -> forall x, In x l -> f x = false.
Proof.
  intros Hf x Hin. destruct (f x) eqn:Hx; [| reflexivity].
  assert (Ht : existsb f l = true) by (apply existsb_exists; eauto).
  congruence.
Qed.

Lemma isValidPlacement_true (x y : Q) (type : string) (g : GameState) :
  Placement.isValidPlacement x y type g = true ->
  0 <= Placement.snap x /\ Placement.snap x < g_width g
  /\ 0 <= Placement.snap y /\ Placement.snap y < g_height g
  /\ LevelPath.isOnPath (g_path g) (Placement.snap x) (Placement.snap y) = false
  /\ forall other,
       In other (g_defenses g) ->
       ~ (d_x other == Placement.snap x /\ d_y other == Placement.snap y)
       /\ GRID_SIZE <= Utils.distance (Placement.snap x) (Placement.snap y)
                                      (d_x other) (d_y other).
Proof.
  unfold Placement.isValidPlacement. cbv zeta.
  destruct (JS.lt (Placement.snap x) 0) eqn:H1; [discriminate |].
  destruct (JS.ge (Placement.snap x) (g_width g)) eqn:H2; [discriminate |].
  destruct (JS.lt (Placement.snap y) 0) eqn:H3; [discriminate |].
  destruct (JS.ge (Placement.snap y) (g_height g)) eqn:H4; [discriminate |].
  cbn [orb].
  destruct (existsb _ (g_defenses g)) eqn:H5; [discriminate |].
  destruct (LevelPath.isOnPath _ _ _) eqn:H6; [discriminate |].
  destruct (existsb _ (g_defenses g)) eqn:H7 in |- *; [discriminate |].
  intros _.
  apply JS_lt_false_iff in H1. apply JS_le_false_iff in H2.
  apply JS_lt_false_iff in H3. apply JS_le_false_iff in H4.
  do 5 (split; [first [assumption | reflexivity] |]).
  intros other Hin. split.
  - intros [Hx Hy].
    pose proof (existsb_false _ _ H5 other Hin) as Hf. cbv beta in Hf.
    apply Qeq_bool_iff in Hx. apply Qeq_bool_iff in Hy.
    rewrite Hx, Hy in Hf. discriminate.
  - pose proof (existsb_false _ _ H7 other Hin) as Hf. cbv beta in Hf.
    apply JS_lt_false_iff in Hf. exact Hf.
Qed.

(** X25.  [tryPlaceDefense] either changes nothing, or appends one new
    level-1 defense of the selected type at the clicked cell, which then
    lies on the canvas, off the path, on no cell that holds a defense and
    at least [GRID_SIZE] from every defense; it then takes exactly the
    configured cost, which leaves no balance negative, and starts the
    cooldown of 500. *)
Theorem placement_is_valid_and_paid (x y : Q) (type : string) (last : Q)
    (g : GameState) :
  Placement.tryPlaceDefense x y type last g = (g, last)
  \/ exists config defense g',
       Placement.tryPlaceDefense x y type last g
       = (g', Placement.placementCooldown)
       /\ JS.prop CONFIG.DEFENSE_TYPES type = Some config
       /\ last <= 0
       /\ g_defenses g' = (g_defenses g ++ [defense])%list
       /\ d_x defense = Placement.snap x /\ d_y defense = Placement.snap y
       /\ d_type defense = type /\ d_config defense = config
       /\ d_level defense = 1%Z
       /\ 0 <= d_x defense /\ d_x defense < g_width g
       /\ 0 <= d_y defense /\ d_y defense < g_height g
       /\ LevelPath.isOnPath (g_path g) (d_x defense) (d_y defense) = false
       /\ (forall other,
             In other (g_defenses g) ->
             ~ (d_x other == d_x defense /\ d_y other == d_y defense)
             /\ GRID_SIZE <= Utils.distance (d_x defense) (d_y defense)
                                            (d_x other) (d_y other))
       /\ g_resources g'
          = mkResources
              (dharma (g_resources g) - dharma (dc_cost config))
              (bandwidth (g_resources g) - bandwidth (dc_cost config))
              (anonymity (g_resources g) - anonymity (dc_cost config))
       /\ (0 <= dharma (g_resources g') /\ 0 <= bandwidth (g_resources g')
           /\ 0 <= anonymity (g_resources g'))%Z.
Proof.
  unfold Placement.tryPlaceDefense.
  destruct (JS.gt last 0) eqn:Hlast; [left; reflexivity |].
  destruct (JS.prop CONFIG.DEFENSE_TYPES type) as [config |] eqn:Hcfg;
    [| left; reflexivity].
  destruct (Game.canAfford (dc_cost config) g) eqn:Hafford;
    [| left; reflexivity].
  destruct (Placement.isValidPlacement x y type g) eqn:Hvalid;
    [| left; reflexivity].
  cbn [negb]. right.
  apply JS_lt_false_iff in Hlast.
  apply isValidPlacement_true in Hvalid
    as (Hx0 & Hx1 & Hy0 & Hy1 & Hpath & Hothers).
  apply EconomySpec.canAfford_true in Hafford.
  eexists config, _, _. split; [reflexivity |].
  rewrite EconomySpec.spendResources_resources.
  unfold Defense.init. fields.
  repeat split; try assumption; try reflexivity; try lia;
    try (apply Hothers; assumption).
Qed.

(** X26.  [upgradeDefense] changes nothing for a defense at its maximum
    level and for an upgrade the player cannot afford; otherwise it takes
    exactly [getUpgradeCost] and replaces the defense by its upgrade, and
    leaves the other defenses as they were. *)
Theorem upgrade_is_paid_or_refused (this : nat) (g : GameState)
    (defense : DefenseObj) (Hthis : g_defenses g !! this = Some defense) :
  if Defense.canUpgrade defense
     && Game.canAfford (Defense.getUpgradeCost defense) g
  then
    g_defenses (Placement.upgradeDefense this g)
    = <[this := Defense.upgrade defense]> (g_defenses g)
    /\ g_resources (Placement.upgradeDefense this g)
       = mkResources
           (dharma (g_resources g)
            - dharma (Defense.getUpgradeCost defense))
           (bandwidth (g_resources g)
            - bandwidth (Defense.getUpgradeCost defense))
           (anonymity (g_resources g)
            - anonymity (Defense.getUpgradeCost defense))
  else Placement.upgradeDefense this g = g.
Proof.
  unfold Placement.upgradeDefense. rewrite Hthis.
  destruct (Defense.canUpgrade defense); [| reflexivity].
  destruct (Game.canAfford _ g); [| reflexivity]. cbn [andb].
  unfold DefenseActions.update_defense. fields.
  split.
  - assert (Hd : g_defenses (Game.spendResources (Defense.getUpgradeCost defense) g)
                 = g_defenses g) by reflexivity.
    rewrite Hd.
    apply list_eq. intros i. rewrite list_lookup_alter.
    destruct (decide (this = i)) as [<- | Hne].
    + rewrite Hthis, list_lookup_insert_eq
        by (eapply lookup_lt_Some; exact Hthis).
      reflexivity.
    + rewrite list_lookup_insert_ne by congruence. reflexivity.
  - apply EconomySpec.spendResources_resources.
Qed.

(** X27.  A defense that has just fired does not fire again before its
    fire interval has passed: a second [updateFiring] at a time less than
    [getFireRate] after the shot changes nothing. *)
Theorem no_second_shot_within_fire_rate (now now' : Z) (this : nat)
    (g g1 : GameState) (d1 : DefenseObj)
    (Hfire : DefenseActions.updateFiring now this g = Some g1)
    (Hshot : length (g_projectiles g1) = S (length (g_projectiles g)))
    (Hd1 : g_defenses g1 !! this = Some d1)
    (Hsoon : inject_Z (now' - now) < Defense.getFireRate d1) :
  DefenseActions.updateFiring now' this g1 = Some g1.
Proof.
  assert (Hlast : d_lastFireTime d1 = now).
  { unfold DefenseActions.updateFiring in Hfire.
    destruct (g_defenses g !! this) as [d |];
      [| injection Hfire as <-; lia].
    destruct (String.eqb (dc_special (d_config d)) "decoy");
      [injection Hfire as <-; lia |].
    destruct (_ && _); [| injection Hfire as <-; lia].
    destruct (DefenseActions.fire now this g) as [g2 |]; [| discriminate].
    injection Hfire as <-.
    unfold DefenseActions.update_defense in Hd1. fields in Hd1.
    rewrite list_lookup_alter in Hd1.
    destruct (decide (this = this)) as [_ | Hne]; [| congruence].
    destruct (g_defenses g2 !! this) as [d2 |]; [| discriminate].
    injection Hd1 as <-. reflexivity. }
  unfold DefenseActions.updateFiring. rewrite Hd1.
  destruct (String.eqb (dc_special (d_config d1)) "decoy"); [reflexivity |].
  rewrite Hlast.
  assert (Hge : JS.ge (inject_Z (now' - now)) (Defense.getFireRate d1) = false)
    by (apply JS_le_false_iff; exact Hsoon).
  rewrite Hge, andb_false_r. reflexivity.
Qed.

Lemma distance_at_start (Hsqrt : forall q, q == 0 -> Math_sqrt q == 0)
    (x1 y1 x2 y2 : Q) :
  LevelPath.pointToLineDistance x1 y1 x1 y1 x2 y2 == 0.
Proof.
  unfold LevelPath.pointToLineDistance. cbv zeta.
  set (lenSq := (x2 - x1) * (x2 - x1) + (y2 - y1) * (y2 - y1)).
  set (dot := (x1 - x1) * (x2 - x1) + (y1 - y1) * (y2 - y1)).
  assert (Hdot : dot == 0) by (subst dot; ring).
  set (param := if negb (Qeq_bool lenSq 0) then dot / lenSq else -1).
  assert (Hparam : param == 0 \/ param == -1).
  { subst param. destruct (Qeq_bool lenSq 0); cbn [negb];
      [right; reflexivity | left].
    rewrite Hdot. unfold Qdiv. ring. }
  destruct (JS.lt param 0) eqn:H0; [apply Hsqrt; ring |].
  apply JS_lt_false_iff in H0.
  destruct (JS.gt param 1) eqn:H1.
  { apply JS_lt_iff in H1. destruct Hparam as [Hp | Hp]; lra. }
  destruct Hparam as [Hp | Hp]; [| lra].
  apply Hsqrt. rewrite Hp. ring.
Qed.

Lemma distance_at_end (Hsqrt : forall q, q == 0 -> Math_sqrt q == 0)
    (x1 y1 x2 y2 : Q) :
  LevelPath.pointToLineDistance x2 y2 x1 y1 x2 y2 == 0.
Proof.
  unfold LevelPath.pointToLineDistance. cbv zeta.
  set (lenSq := (x2 - x1) * (x2 - x1) + (y2 - y1) * (y2 - y1)).
  set (param := if negb (Qeq_bool lenSq 0) then lenSq / lenSq else -1).
  destruct (Qeq_bool lenSq 0) eqn:Hz; cbn [negb] in param.
  - apply Qeq_bool_iff in Hz. subst param.
    change (JS.lt (-1) 0) with true. cbv iota. apply Hsqrt. exact Hz.
  - apply Qeq_bool_neq in Hz.
    assert (Hp : param == 1) by (subst param; field; exact Hz).
    destruct (JS.lt param 0) eqn:H0.
    { apply JS_lt_iff in H0. lra. }
    destruct (JS.gt param 1) eqn:H1.
    { apply JS_lt_iff in H1. lra. }
    apply Hsqrt. rewrite Hp. ring.
Qed.

(** X28.  On a host whose square root of zero is zero, every point of a
    path of at least two points is on the path for [isOnPath], also
    when a segment has length zero. *)
Theorem waypoints_are_on_path (path : list Point) (pt : Point)
    (Hsqrt : forall q, q == 0 -> Math_sqrt q == 0)
    (Hlen : (2 <= length path)%nat) (Hin : In pt path) :
  LevelPath.isOnPath path (pt_x pt) (pt_y pt) = true.
Proof.
  assert (Hhalf : 0 <= LevelPath.pathWidth / 2) by discriminate.
  induction path as [| start [| finish rest] IH]; cbn [length] in Hlen;
    [lia | lia |].
  cbn [LevelPath.isOnPath].
  destruct Hin as [<- | [<- | Hin]].
  - pose proof (distance_at_start Hsqrt (pt_x start) (pt_y start)
                  (pt_x finish) (pt_y finish)) as Hd.
    js_case; [reflexivity | lra].
  - pose proof (distance_at_end Hsqrt (pt_x start) (pt_y start)
                  (pt_x finish) (pt_y finish)) as Hd.
    js_case; [reflexivity | lra].
  - js_case; [reflexivity |].
    apply IH; [| right; exact Hin].
    destruct rest; [destruct Hin | cbn [length]; lia].
Qed.

End WithHost.

Lemma placement_example :
  exists g',
    Placement.tryPlaceDefense (H := exactHost) 130 90 "firewall" 0
      Examples.game0
    = (g', 500)
    /\ map (fun d => (d_x d, d_y d)) (g_defenses g') = [(120, 80)]
    /\ g_resources g' = mkResources 75 50 75.
Proof. eexists. split; [vm_compute; reflexivity | split; vm_compute; reflexivity]. Qed.

Lemma upgrade_is_paid_or_refused_witness :
  if Defense.canUpgrade (Examples.defense 0 440 "firewall")
     && Game.canAfford
          (Defense.getUpgradeCost (Examples.defense 0 440 "firewall"))
          Examples.stealthGame
  then
    g_defenses (Placement.upgradeDefense 0 Examples.stealthGame)
    = <[0%nat := Defense.upgrade (Examples.defense 0 440 "firewall")]>
        (g_defenses Examples.stealthGame)
    /\ g_resources (Placement.upgradeDefense 0
                      Examples.stealthGame)
       = mkResources
           (dharma (g_resources Examples.stealthGame)
            - dharma (Defense.getUpgradeCost
                        (Examples.defense 0 440 "firewall")))
           (bandwidth (g_resources Examples.stealthGame)
            - bandwidth (Defense.getUpgradeCost
                           (Examples.defense 0 440 "firewall")))
           (anonymity (g_resources Examples.stealthGame)
            - anonymity (Defense.getUpgradeCost
                           (Examples.defense 0 440 "firewall")))
  else Placement.upgradeDefense 0 Examples.stealthGame
       = Examples.stealthGame.
Proof.
  apply (upgrade_is_paid_or_refused 0 Examples.stealthGame
           (Examples.defense 0 440 "firewall")).
  vm_compute. reflexivity.
Defined.

Lemma no_second_shot_within_fire_rate_witness :
  DefenseActions.updateFiring (H := exactHost) 5500 0
    (default Examples.aimedGame
       (DefenseActions.updateFiring (H := exactHost) 5000 0 Examples.aimedGame))
  = Some (default Examples.aimedGame
            (DefenseActions.updateFiring (H := exactHost) 5000 0
               Examples.aimedGame)).
Proof.
  apply (no_second_shot_within_fire_rate (H := exactHost) 5000 5500 0
           Examples.aimedGame
           (default Examples.aimedGame
              (DefenseActions.updateFiring (H := exactHost) 5000 0
                 Examples.aimedGame))
           (set_d_lastFireTime 5000
              (set_d_target (Some 0%nat) (Examples.defense 0 440 "firewall"))));
    vm_compute; reflexivity.
Defined.

Lemma exactHost_sqrt_zero (q : Q) : q == 0 -> Math_sqrt (Host := exactHost) q == 0.
Proof.
  destruct q as [n d]. unfold Qeq. cbn [Qnum Qden Math_sqrt exactHost].
  intros Hn. rewrite Z.mul_1_r in Hn. cbn in Hn. subst n. reflexivity.
Qed.

Lemma waypoints_are_on_path_witness :
  LevelPath.isOnPath (H := exactHost) Examples.path 1200 400 = true.
Proof.
  apply (waypoints_are_on_path (H := exactHost) Examples.path
           {| pt_x := 1200; pt_y := 400 |} exactHost_sqrt_zero).
  - vm_compute. lia.
  - right. right. left. reflexivity.
Defined.

End PlacementSpec.

(** ** Effects on a defense that nothing reads, and the defense under a
    click *)

Module DefenseEffectSpec.

(** X29.  Of the debuffs, [getDamage] reads only [weakened], [getRange]
    only [blinded] and [getFireRate] only [slowed]: a debuff of any other
    kind, such as the [emp] of a raid team or the [corrupted] of a monk,
    changes none of the three, nor the projectile speed, nor whether the
    defense is active. *)
Theorem other_debuffs_change_nothing (now : Z) (kind : string) (duration : Q)
    (d : DefenseObj)
    (Hweakened : kind <> "weakened") (Hblinded : kind <> "blinded")
    (Hslowed : kind <> "slowed") :
  Defense.getDamage (Defense.applyDebuff now kind duration d)
  = Defense.getDamage d
  /\ Defense.getRange (Defense.applyDebuff now kind duration d)
     = Defense.getRange d
  /\ Defense.getFireRate (Defense.applyDebuff now kind duration d)
     = Defense.getFireRate d
  /\ Defense.getProjectileSpeed (Defense.applyDebuff now kind duration d)
     = Defense.getProjectileSpeed d
  /\ d_isActive (Defense.applyDebuff now kind duration d) = d_isActive d.
Proof.
  assert (Hhas : forall k, kind <> k ->
            Defense.hasDebuff k (Defense.applyDebuff now kind duration d)
            = Defense.hasDebuff k d).
  { intros k Hk. unfold Defense.hasDebuff, Defense.applyDebuff. fields.
    rewrite lookup_insert_ne by exact Hk. reflexivity. }
  unfold Defense.getDamage, Defense.getRange, Defense.getFireRate,
    Defense.getProjectileSpeed.
  rewrite !Hhas by assumption.
  unfold Defense.hasBuff, Defense.applyDebuff. fields.
  repeat split; reflexivity.
Qed.

Lemma other_debuffs_change_nothing_witness :
  Defense.getDamage
    (Defense.applyDebuff 0 "emp" 3000 (Examples.defense 0 440 "mirror"))
  = Defense.getDamage (Examples.defense 0 440 "mirror")
  /\ Defense.getRange
       (Defense.applyDebuff 0 "emp" 3000 (Examples.defense 0 440 "mirror"))
     = Defense.getRange (Examples.defense 0 440 "mirror")
  /\ Defense.getFireRate
       (Defense.applyDebuff 0 "emp" 3000 (Examples.defense 0 440 "mirror"))
     = Defense.getFireRate (Examples.defense 0 440 "mirror")
  /\ Defense.getProjectileSpeed
       (Defense.applyDebuff 0 "emp" 3000 (Examples.defense 0 440 "mirror"))
     = Defense.getProjectileSpeed (Examples.defense 0 440 "mirror")
  /\ d_isActive
       (Defense.applyDebuff 0 "emp" 3000 (Examples.defense 0 440 "mirror"))
     = d_isActive (Examples.defense 0 440 "mirror").
Proof.
  apply (other_debuffs_change_nothing 0 "emp" 3000
           (Examples.defense 0 440 "mirror")); discriminate.
Defined.

Section WithHost.
Context `{Host}.

(** X30.  [getDefenseAt] returns a defense of the game whose square of
    side [GRID_SIZE], borders included, holds the point, and [null]
    exactly when no square does. *)
Theorem defense_under_click (x y : Q) (g : GameState) :
  match Placement.getDefenseAt x y g with
  | Some defense =>
      In defense (g_defenses g)
      /\ d_x defense <= x <= d_x defense + GRID_SIZE
      /\ d_y defense <= y <= d_y defense + GRID_SIZE
  | None =>
      forall defense,
        In defense (g_defenses g) ->
        ~ (d_x defense <= x <= d_x defense + GRID_SIZE
           /\ d_y defense <= y <= d_y defense + GRID_SIZE)
  end.
Proof.
  unfold Placement.getDefenseAt.
  destruct (List.find _ (g_defenses g)) as [defense |] eqn:Hfind.
  - apply find_some in Hfind as [Hin Hrect]. split; [exact Hin |].
    unfold Utils.pointInRect, JS.ge in Hrect.
    apply andb_prop in Hrect as [Hrect H4].
    apply andb_prop in Hrect as [Hrect H3].
    apply andb_prop in Hrect as [H1 H2].
    apply JS_le_iff in H1, H2, H3, H4. repeat split; assumption.
  - intros defense Hin [[H1 H2] [H3 H4]].
    pose proof (find_none _ _ Hfind defense Hin) as Hrect. cbv beta in Hrect.
    unfold Utils.pointInRect, JS.ge in Hrect.
    apply JS_le_iff in H1, H2, H3, H4.
    rewrite H1, H2, H3, H4 in Hrect. discriminate.
Qed.

End WithHost.
End DefenseEffectSpec.
